(** * wifi-stats-cli: probes, parsers and the aggregator

    A shallow embedding of [src/parsers.ts], [src/collector.ts] and of
    [src/cli.ts] without the rendering of the report, with the properties of
    the written specification stated over it, and further properties of the
    code after them.

    Modelling conventions.
    - A JavaScript string is a [string]; each [ascii] stands for one UTF-16
      code unit below 256.  Code units of 256 and above are outside the model.
    - A JavaScript number is [NaN] or an exact rational ([Num q]).  The values
      handled by the program are short decimals and integers below 2^53, on
      which the exact value and the IEEE double agree for the operations used
      (comparison with 0 and 14, rounding of [x / 1000000]); infinities and
      the rounding of very long digit strings are not represented.
    - [null] and [undefined] are [None].
    - A thrown exception is [Throw]; code that cannot throw is written
      without the monad. *)

From Stdlib Require Import ZArith QArith Qround Qabs Ascii String List Bool Lia Lqa.
From stdpp Require Import base option gmap strings pretty.

Open Scope Z_scope.

(** ** JavaScript values *)

Module Js.

Inductive number :=
  | NaN
  | Num (q : Q).

Definition of_Z (z : Z) : number := Num (inject_Z z).

(** [ToBoolean] on a number: [NaN] and zero are falsy. *)
Definition truthy_num (n : number) : bool :=
  match n with
  | NaN => false
  | Num q => negb (Qeq_bool q 0)
  end.

(** [ToBoolean] on a string: only the empty string is falsy. *)
Definition truthy_str (s : string) : bool :=
  match s with
  | EmptyString => false
  | String _ _ => true
  end.

(** [ToBoolean] on a nullable value. *)
Definition truthy_opt {A} (t : A -> bool) (v : option A) : bool :=
  match v with
  | None => false
  | Some a => t a
  end.

(** [a || b] on strings, with [a] possibly [null]. *)
Definition or_str (a : option string) (b : string) : string :=
  match a with
  | Some s => if truthy_str s then s else b
  | None => b
  end.

(** [n > k] for a number and an integer literal; [NaN] compares false. *)
Definition gt_Z (n : number) (k : Z) : bool :=
  match n with
  | NaN => false
  | Num q => match Qcompare q (inject_Z k) with Gt => true | _ => false end
  end.

(** *** Characters *)

Definition code (c : ascii) : N := N_of_ascii c.

(** ECMAScript WhiteSpace and LineTerminator, restricted to code units
    below 256: TAB, LF, VT, FF, CR, SP, NBSP. *)
Definition is_ws (c : ascii) : bool :=
  match code c with
  | 9 | 10 | 11 | 12 | 13 | 32 | 160 => true
  | _ => false
  end%N.

Definition is_digit (c : ascii) : bool :=
  ((48 <=? code c) && (code c <=? 57))%N.

Definition digit_val (c : ascii) : Z := Z.of_N (code c) - 48.

(** *** String methods *)

Fixpoint trimStart (s : string) : string :=
  match s with
  | String c s' => if is_ws c then trimStart s' else s
  | EmptyString => EmptyString
  end.

Fixpoint all_ws (s : string) : bool :=
  match s with
  | String c s' => is_ws c && all_ws s'
  | EmptyString => true
  end.

Fixpoint trimEnd (s : string) : string :=
  match s with
  | String c s' => if all_ws s then EmptyString else String c (trimEnd s')
  | EmptyString => EmptyString
  end.

Definition trim (s : string) : string := trimEnd (trimStart s).

(** [s.includes(c)] for a one-character needle. *)
Fixpoint includes (c : ascii) (s : string) : bool :=
  match s with
  | String d s' => if Ascii.eqb d c then true else includes c s'
  | EmptyString => false
  end.

(** [s.split(sep)] for a one-character separator: at least one piece. *)
Fixpoint split (sep : ascii) (s : string) : list string :=
  match s with
  | EmptyString => [EmptyString]
  | String c s' =>
      if Ascii.eqb c sep then EmptyString :: split sep s'
      else match split sep s' with
           | h :: t => String c h :: t
           | [] => [String c EmptyString]
           end
  end.

(** [l.join(sep)]. *)
Fixpoint join (sep : string) (l : list string) : string :=
  match l with
  | [] => EmptyString
  | [x] => x
  | x :: l' => x +:+ sep +:+ join sep l'
  end.

(** *** Number.parseInt(s, 10) and Number.parseFloat(s) *)

(** Longest prefix of decimal digits, and what follows it. *)
Fixpoint span_digits (s : string) : list ascii * string :=
  match s with
  | String c s' =>
      if is_digit c then let '(d, r) := span_digits s' in (c :: d, r)
      else ([], s)
  | EmptyString => ([], EmptyString)
  end.

Definition digits_val (d : list ascii) : Z :=
  fold_left (fun acc c => 10 * acc + digit_val c) d 0.

(** An optional sign; the result is the sign and the rest. *)
Definition take_sign (s : string) : bool * string :=
  match s with
  | String "-" s' => (true, s')
  | String "+" s' => (false, s')
  | _ => (false, s)
  end.

Definition parseInt (s : string) : number :=
  let '(neg, s1) := take_sign (trimStart s) in
  let '(d, _) := span_digits s1 in
  match d with
  | [] => NaN
  | _ => of_Z (if neg then - digits_val d else digits_val d)
  end.

(** [Number.parseInt(v, 10)] where [v] may be [undefined]: the argument is
    first converted to the string "undefined", which has no digits. *)
Definition parseInt_v (v : option string) : number :=
  match v with
  | Some s => parseInt s
  | None => NaN
  end.

(** The decimal literal [int.frac] as a rational: the digits over a power of
    ten. *)
Fixpoint pow10 (n : nat) : positive :=
  match n with
  | O => 1%positive
  | S n' => (10 * pow10 n')%positive
  end.

Definition decimal (int frac : list ascii) : Q :=
  Qmake (digits_val (int ++ frac)) (pow10 (length frac)).

(** [Number.parseFloat]: leading white space, a sign, digits, and a fraction.
    The exponent part and the literal [Infinity] are not modelled: the
    program passes only strings of digits and dots. *)
Definition parseFloat (s : string) : number :=
  let '(neg, s1) := take_sign (trimStart s) in
  let '(int, r) := span_digits s1 in
  let frac :=
    match r with
    | String "." r' => fst (span_digits r')
    | _ => []
    end in
  match int, frac with
  | [], [] => NaN
  | _, _ => Num (if neg then Qopp (decimal int frac) else decimal int frac)
  end.

Definition parseFloat_v (v : option string) : number :=
  match v with
  | Some s => parseFloat s
  | None => NaN
  end.

End Js.

Import Js.

(** ** Exceptions *)

Inductive Exc (A : Type) : Type :=
  | Ok (a : A)
  | Throw (e : string).
Arguments Ok {A} a.
Arguments Throw {A} e.

#[global] Instance exc_ret : MRet Exc := fun A a => Ok a.
#[global] Instance exc_fmap : FMap Exc := fun A B f m =>
  match m with
  | Ok a => Ok (f a)
  | Throw e => Throw e
  end.
#[global] Instance exc_bind : MBind Exc := fun A B f m =>
  match m with
  | Ok a => f a
  | Throw e => Throw e
  end.

(** A method call on a possibly undefined receiver. *)
Definition receiver {A} (v : option A) : Exc A :=
  match v with
  | Some a => Ok a
  | None => Throw "TypeError: cannot read properties of undefined"
  end.

(** ** Regular expressions

    The fragment of ECMAScript regular expressions used by the program:
    literals, character classes, greedy [*], [+], [{n}] over a class, greedy
    [?], concatenation and numbered capture groups.  [rmatch r s] lists the
    ways [r] matches a prefix of [s] in the order in which a backtracking
    matcher tries them, each as (matched text, rest, captures); the first
    one is the match the engine reports. *)

Module Regex.

Inductive regex : Type :=
  | Lit (l : string)
  | LitI (l : string)
  | Cls (p : ascii -> bool)
  | Star (p : ascii -> bool)
  | Plus (p : ascii -> bool)
  | Rep (n : nat) (p : ascii -> bool)
  | Opt (r : regex)
  | Cat (r1 r2 : regex)
  | Grp (n : nat) (r : regex).

Definition captures := list (nat * string).
Definition result : Type := string * string * captures.

(** Upper case of an ASCII letter, used by the [i] flag. *)
Definition upper (c : ascii) : ascii :=
  if ((97 <=? code c) && (code c <=? 122))%N then ascii_of_N (code c - 32) else c.

Definition push (c : ascii) (r : string * string) : string * string :=
  (String c (fst r), snd r).

(** The literal [l] at the start of [s], compared with [eqc]: the text
    matched and the rest. *)
Fixpoint lit (eqc : ascii -> ascii -> bool) (l s : string) : option (string * string) :=
  match l with
  | EmptyString => Some (EmptyString, s)
  | String a l' =>
      match s with
      | String c s' => if eqc a c then push c <$> lit eqc l' s' else None
      | EmptyString => None
      end
  end.

Definition eq_ci (a c : ascii) : bool := Ascii.eqb (upper a) (upper c).

(** Greedy [p*]: longer runs are tried first. *)
Fixpoint star (p : ascii -> bool) (s : string) : list (string * string) :=
  match s with
  | String c s' =>
      if p c then map (push c) (star p s') ++ [(EmptyString, s)]
      else [(EmptyString, s)]
  | EmptyString => [(EmptyString, EmptyString)]
  end.

Definition plus (p : ascii -> bool) (s : string) : list (string * string) :=
  match s with
  | String c s' => if p c then map (push c) (star p s') else []
  | EmptyString => []
  end.

Fixpoint rep (n : nat) (p : ascii -> bool) (s : string) : list (string * string) :=
  match n with
  | O => [(EmptyString, s)]
  | S n' =>
      match s with
      | String c s' => if p c then map (push c) (rep n' p s') else []
      | EmptyString => []
      end
  end.

Definition nocap (r : string * string) : result := (fst r, snd r, []).

Fixpoint rmatch (r : regex) (s : string) : list result :=
  match r with
  | Lit l => map nocap (option_list (lit Ascii.eqb l s))
  | LitI l => map nocap (option_list (lit eq_ci l s))
  | Cls p => map nocap (rep 1 p s)
  | Star p => map nocap (star p s)
  | Plus p => map nocap (plus p s)
  | Rep n p => map nocap (rep n p s)
  | Opt r1 => rmatch r1 s ++ [(EmptyString, s, [])]
  | Cat r1 r2 =>
      flat_map (fun '(m1, s1, c1) =>
        map (fun '(m2, s2, c2) => (m1 +:+ m2, s2, c1 ++ c2)) (rmatch r2 s1))
        (rmatch r1 s)
  | Grp n r1 => map (fun '(m, s', c) => (m, s', c ++ [(n, m)])) (rmatch r1 s)
  end.

(** [s.match(r)] for a regular expression without the [g] flag: the first
    match at the leftmost position where there is one, or [null]. *)
Fixpoint search (r : regex) (s : string) : option captures :=
  match rmatch r s with
  | (_, _, c) :: _ => Some c
  | [] =>
      match s with
      | String _ s' => search r s'
      | EmptyString => None
      end
  end.

(** [m[k]] for [k >= 1]: the text of group [k], or [undefined]. *)
Fixpoint group (m : captures) (k : nat) : option string :=
  match m with
  | (n, t) :: m' => if Nat.eqb n k then Some t else group m' k
  | [] => None
  end.

(** Character classes. *)
Definition dot (c : ascii) : bool := negb ((code c =? 10) || (code c =? 13))%N.
Definition cls_s (c : ascii) : bool := is_ws c.
Definition cls_d (c : ascii) : bool := is_digit c.
Definition cls_d_dot (c : ascii) : bool := is_digit c || Ascii.eqb c ".".
Definition cls_not_rparen (c : ascii) : bool := negb (Ascii.eqb c ")").

(** Right-nested concatenation of a list of pieces. *)
Fixpoint seq (l : list regex) : regex :=
  match l with
  | [] => Lit EmptyString
  | [r] => r
  | r :: l' => Cat r (seq l')
  end.

End Regex.

Import Regex.

Definition LF : string := String "010" EmptyString.

(** ** parsers.ts *)

Record WifiStats := {
  ssid : option string;
  bssid : option string;
  signalDbm : option number;
  noiseDbm : option number;
  channel : option number;
  band : option string;
  linkRateMbps : option number
}.

Record PingStats := {
  avgMs : option number;
  jitterMs : option number;
  lossPct : option number
}.

(** [v ? f(v) : null] for a string-valued [v]. *)
Definition when_str {A} (v : option string) (f : string -> option A) : option A :=
  match v with
  | Some x => if truthy_str x then f x else None
  | None => None
  end.

(** [v ? f(v) : null] for a number-valued [v]. *)
Definition when_num {A} (v : option number) (f : number -> option A) : option A :=
  match v with
  | Some x => if truthy_num x then f x else None
  | None => None
  end.

(** [data[key] = value] on an object created by [{}]: assigning a string to
    [__proto__] goes to the inherited setter, which ignores it. *)
Definition obj_set (key value : string) (data : gmap string string) : gmap string string :=
  if decide (key = "__proto__") then data else <[key := value]> data.

(** The body of the loop over the lines. *)
Definition scan_line (data : gmap string string) (line : string) : Exc (gmap string string) :=
  if negb (includes ":" line) then Ok data
  else
    match split ":" line with
    | rawKey :: rest =>
        let key := trim rawKey in
        let value := trim (join ":" rest) in
        if (String.length key =? 0)%nat then Ok data
        else Ok (obj_set key value data)
    | [] => Throw "TypeError: rawKey is undefined"
    end.

Fixpoint scan_lines (data : gmap string string) (lines : list string) : Exc (gmap string string) :=
  match lines with
  | [] => Ok data
  | line :: lines' => data' ← scan_line data line; scan_lines data' lines'
  end.

Definition band_of_channel (channel : option number) : option string :=
  when_num channel (fun c => Some (if gt_Z c 14 then "5 GHz" else "2.4 GHz")).

Definition parseAirportOutput (output : string) : Exc WifiStats :=
  let lines := split "010" output in
  data ← scan_lines ∅ lines;
  let channelValue := when_str (data !! "channel") (fun v => head (split "," v)) in
  let channel := when_str channelValue (fun v => Some (parseInt v)) in
  let band := band_of_channel channel in
  let linkRate := when_str (data !! "lastTxRate") (fun v => Some (parseInt v)) in
  Ok {| ssid := data !! "SSID";
        bssid := data !! "BSSID";
        signalDbm := when_str (data !! "agrCtlRSSI") (fun v => Some (parseInt v));
        noiseDbm := when_str (data !! "agrCtlNoise") (fun v => Some (parseInt v));
        channel := channel;
        band := band;
        linkRateMbps := linkRate |}.

(** [/Current Network Information:\s*\n\s{12}(.+):/] *)
Definition ssidRe : regex :=
  seq [Lit "Current Network Information:"; Star cls_s; Lit LF; Rep 12 cls_s;
       Grp 1 (Plus dot); Lit ":"].

(** [/Signal \/ Noise: (-?\d+) dBm \/ (-?\d+) dBm/] *)
Definition signalRe : regex :=
  seq [Lit "Signal / Noise: "; Grp 1 (Cat (Opt (Lit "-")) (Plus cls_d)); Lit " dBm / ";
       Grp 2 (Cat (Opt (Lit "-")) (Plus cls_d)); Lit " dBm"].

(** [/Channel: (\d+) \(([^)]+)\)/] *)
Definition channelRe : regex :=
  seq [Lit "Channel: "; Grp 1 (Plus cls_d); Lit " ("; Grp 2 (Plus cls_not_rparen); Lit ")"].

(** [/Transmit Rate: (\d+)/] *)
Definition transmitRe : regex :=
  seq [Lit "Transmit Rate: "; Grp 1 (Plus cls_d)].

(** The pattern applied to the annotation: group 1 is [\d+], an optional
    dot and [\d] any number of times; then [GHz] under the [i] flag. *)
Definition bandRe : regex :=
  seq [Grp 1 (seq [Plus cls_d; Opt (Lit "."); Star cls_d]); LitI "GHz"].

(** The template [`${v} GHz`]. *)
Definition ghz (v : option string) : string :=
  match v with
  | Some x => x +:+ " GHz"
  | None => "undefined GHz"
  end.

Definition parseSystemProfilerOutput (output : string) : Exc WifiStats :=
  let ssidMatch := search ssidRe output in
  let signalMatch := search signalRe output in
  let channelMatch := search channelRe output in
  let transmitMatch := search transmitRe output in
  let channel := (fun m => parseInt_v (group m 1)) <$> channelMatch in
  let band :=
    match channelMatch with
    | Some m =>
        when_str (group m 2) (fun annotation =>
          (fun bandMatch => ghz (group bandMatch 1)) <$> search bandRe annotation)
    | None => None
    end in
  ssid ← match ssidMatch with
         | Some m => x ← receiver (group m 1); Ok (Some (trim x))
         | None => Ok None
         end;
  Ok {| ssid := ssid;
        bssid := None;
        signalDbm := (fun m => parseInt_v (group m 1)) <$> signalMatch;
        noiseDbm := (fun m => parseInt_v (group m 2)) <$> signalMatch;
        channel := channel;
        band := band;
        linkRateMbps := (fun m => parseInt_v (group m 1)) <$> transmitMatch |}.

(** [/([\d.]+)% packet loss/] *)
Definition lossRe : regex :=
  seq [Grp 1 (Plus cls_d_dot); Lit "% packet loss"].

(** [/round-trip min\/avg\/max\/stddev = ([\d.]+)\/([\d.]+)\/([\d.]+)\/([\d.]+) ms/] *)
Definition rttRe : regex :=
  seq [Lit "round-trip min/avg/max/stddev = "; Grp 1 (Plus cls_d_dot); Lit "/";
       Grp 2 (Plus cls_d_dot); Lit "/"; Grp 3 (Plus cls_d_dot); Lit "/";
       Grp 4 (Plus cls_d_dot); Lit " ms"].

Definition parsePingStats (output : string) : PingStats :=
  let lossMatch := search lossRe output in
  let rttMatch := search rttRe output in
  {| avgMs := (fun m => parseFloat_v (group m 2)) <$> rttMatch;
     jitterMs := (fun m => parseFloat_v (group m 4)) <$> rttMatch;
     lossPct := (fun m => parseFloat_v (group m 1)) <$> lossMatch |}.

(** The inputs of tests/parsers.test.ts. *)
Definition lines (l : list string) : string := join LF l.

Definition airport_sample : string :=
  lines ["SSID: MyWifi"; "BSSID: aa:bb:cc:dd:ee:ff"; "agrCtlRSSI: -53";
         "agrCtlNoise: -91"; "channel: 48,1"; "lastTxRate: 576"].

Definition profiler_sample : string :=
  lines ["Wi-Fi:"; "      Interfaces:"; "        en0:";
         "          Current Network Information:"; "            MyHome:";
         "              Channel: 48 (5GHz, 80MHz)";
         "              Signal / Noise: -51 dBm / -91 dBm";
         "              Transmit Rate: 960"].

Definition ping_sample : string :=
  lines ["12 packets transmitted, 12 packets received, 0.0% packet loss";
         "round-trip min/avg/max/stddev = 9.123/10.456/11.789/0.987 ms"].


(** ** The host

    What the program obtains from the platform: the outcome of running an
    external command ([execFile], promisified), whether a path is accessible
    ([access]), the result of [JSON.parse], and the clock.  A probe is a
    function of the host; it also produces the list of the calls and log
    entries it makes, in program order. *)

Record ExecError := {
  err_stdout : option string;
  err_stderr : option string;
  err_message : option string
}.

Inductive ExecOutcome :=
  | Resolved (stdout stderr : option string)
  | Rejected (err : ExecError).

(** [SpeedTestRaw]: the fields read from the decoded output.  The output
    is taken to have the declared types: a field is absent or holds a value
    of its type.  Output with a field of another type (a text where a number
    is declared) is not represented. *)
Record SpeedTestRaw := {
  dl_throughput : option number;
  ul_throughput : option number;
  base_rtt : option number;
  responsiveness : option number;
  interface_name : option string;
  test_endpoint : option string;
  start_date : option string;
  end_date : option string;
  os_version : option string
}.

(** The result of [JSON.parse]: a syntax error, the value [null], or any
    other value, given by the fields the program reads from it. *)
Inductive JsonResult :=
  | SyntaxError (message : string)
  | JsonNull
  | JsonValue (raw : SpeedTestRaw).

Record Host := {
  execFile : string -> list string -> gmap string string -> ExecOutcome;
  access : string -> bool;
  JSON_parse : string -> JsonResult;
  now : string
}.

Inductive LogLevel := info | success | error.

Inductive Event :=
  | Spawn (command : string) (args : list string) (options : gmap string string)
  | Access (path : string)
  | Log (level : LogLevel) (message : string).

Definition Eff (A : Type) : Type := Host -> Exc A * list Event.

#[global] Instance eff_ret : MRet Eff := fun A a _ => (Ok a, []).
#[global] Instance eff_bind : MBind Eff := fun A B f m h =>
  match m h with
  | (Ok a, t) => let '(b, t') := f a h in (b, t ++ t')
  | (Throw e, t) => (Throw e, t)
  end.

#[global] Instance eff_fmap : FMap Eff := fun A B f m => a ← m; mret (f a).

Definition throw {A} (e : string) : Eff A := fun _ => (Throw e, []).
Definition lift {A} (m : Exc A) : Eff A := fun _ => (m, []).
Definition log (level : LogLevel) (message : string) : Eff unit :=
  fun _ => (Ok tt, [Log level message]).
Definition spawn (command : string) (args : list string) (options : gmap string string)
  : Eff ExecOutcome :=
  fun h => (Ok (execFile h command args options), [Spawn command args options]).
Definition check_access (path : string) : Eff bool :=
  fun h => (Ok (access h path), [Access path]).
Definition json_parse (text : string) : Eff JsonResult :=
  fun h => (Ok (JSON_parse h text), []).
Definition clock : Eff string := fun h => (Ok (now h), []).

(** ** collector.ts *)

Definition AIRPORT_PATH : string :=
  "/System/Library/PrivateFrameworks/Apple80211.framework/Versions/Current/Resources/airport".

Module CommandResult.
Record t := mk {
  stdout : string;
  stderr : string;
  error : option ExecError
}.
End CommandResult.

Module PingResult.
Record t := mk {
  target : string;
  avgMs : option number;
  jitterMs : option number;
  lossPct : option number;
  samples : Z;
  error : option string
}.
End PingResult.

Module DnsLookupResult.
Record t := mk {
  host : string;
  server : option string;
  lookupMs : option number;
  error : option string
}.
End DnsLookupResult.

Module SpeedTestResult.
Record raw_t := mk_raw {
  startDate : option string;
  endDate : option string;
  osVersion : option string
}.
Record t := mk {
  downloadMbps : option number;
  uploadMbps : option number;
  baseRttMs : option number;
  responsivenessMs : option number;
  interfaceName : option string;
  endpoint : option string;
  raw : option raw_t;
  error : option string
}.
End SpeedTestResult.

(** The options object handed to the process call is
    [{ encoding: "utf8", ...options }]: the caller's entries win. *)
Definition runCommand (command : string) (args : list string)
    (options : gmap string string) : Eff CommandResult.t :=
  r ← spawn command args (options ∪ {[ "encoding" := "utf8" ]});
  match r with
  | Resolved out err =>
      mret (CommandResult.mk (default "" out) (default "" err) None)
  | Rejected err =>
      mret (CommandResult.mk
              (default "" (err_stdout err))
              (default (default "command failed" (err_message err)) (err_stderr err))
              (Some err))
  end.

(** The [return parsed] of the first branch is the [Some] of [primary];
    [None] stands for falling through to the second tool. *)
Definition getAirportInfo : Eff (option WifiStats) :=
  log info "collect.airport.start";;
  ok ← check_access AIRPORT_PATH;
  hasAirport ← (if ok : bool then mret true
                else log error "collect.airport.missing";; mret false) : Eff bool;
  primary ←
    (if hasAirport : bool then
       result ← runCommand AIRPORT_PATH ["-I"] ∅;
       match CommandResult.error result with
       | None =>
           parsed ← lift (parseAirportOutput (CommandResult.stdout result));
           log success "collect.airport.success";;
           mret (Some parsed)
       | Some _ => log error "collect.airport.error";; mret None
       end
     else mret None) : Eff (option WifiStats);
  match primary with
  | Some parsed => mret (Some parsed)
  | None =>
      log info "collect.system-profiler.start";;
      profilerResult ← runCommand "system_profiler"
                         ["SPAirPortDataType"; "-detailLevel"; "basic"] ∅;
      match CommandResult.error profilerResult with
      | Some _ => log error "collect.system-profiler.error";; mret None
      | None =>
          parsed ← lift (parseSystemProfilerOutput (CommandResult.stdout profilerResult));
          log success "collect.system-profiler.success";;
          mret (Some parsed)
      end
  end.

(** [/gateway: (.+)/] *)
Definition gatewayRe : regex := seq [Lit "gateway: "; Grp 1 (Plus dot)].

Definition getDefaultGateway : Eff (option string) :=
  log info "collect.gateway.start";;
  result ← runCommand "route" ["-n"; "get"; "default"] ∅;
  gateway ← lift (match search gatewayRe (CommandResult.stdout result) with
                  | Some m => x ← receiver (group m 1); Ok (Some (trim x))
                  | None => Ok None
                  end);
  if truthy_opt truthy_str gateway
  then log success "collect.gateway.success";; mret gateway
  else log error "collect.gateway.error";; mret None.

(** [String(count)] for an integer-valued count. *)
Definition String_of (count : Z) : string := pretty count.

Definition pingHost (host : string) (count : Z) : Eff PingResult.t :=
  log info "collect.ping.start";;
  result ← runCommand "ping" ["-n"; "-c"; String_of count; host] ∅;
  let stats := parsePingStats (CommandResult.stdout result) in
  if negb (truthy_opt truthy_num (avgMs stats)) && bool_decide (is_Some (CommandResult.error result))
  then
    log error "collect.ping.error";;
    mret (PingResult.mk host None None None count
            (Some (or_str (Some (CommandResult.stderr result)) "ping failed")))
  else
    log success "collect.ping.success";;
    mret (PingResult.mk host (avgMs stats) (jitterMs stats) (lossPct stats) count
            (match CommandResult.error result with
             | Some _ => Some (CommandResult.stderr result)
             | None => None
             end)).

(** [/nameserver\[0\] : ([\d.]+)/] *)
Definition nameserverRe : regex := seq [Lit "nameserver[0] : "; Grp 1 (Plus cls_d_dot)].

Definition getDnsServer : Eff (option string) :=
  log info "collect.dns-server.start";;
  result ← runCommand "scutil" ["--dns"] ∅;
  let server := m ← search nameserverRe (CommandResult.stdout result); group m 1 in
  if truthy_opt truthy_str server
  then log success "collect.dns-server.success";; mret server
  else log error "collect.dns-server.error";; mret None.

(** [/Query time: (\d+) msec/] *)
Definition queryTimeRe : regex := seq [Lit "Query time: "; Grp 1 (Plus cls_d); Lit " msec"].

Definition dnsLookup (host : string) (server : option string) : Eff DnsLookupResult.t :=
  log info "collect.dns-lookup.start";;
  let args := ["+stats"; "+tries=1"; "+time=2"; host] in
  let args := match server with
              | Some sv => if truthy_str sv then args ++ ["@" +:+ sv] else args
              | None => args
              end in
  result ← runCommand "dig" args ∅;
  let lookupMs := (fun m => parseInt_v (group m 1)) <$> search queryTimeRe (CommandResult.stdout result) in
  match lookupMs with
  | None =>
      log error "collect.dns-lookup.error";;
      mret (DnsLookupResult.mk host server None
              (Some (or_str (Some (CommandResult.stderr result)) "dns lookup failed")))
  | Some _ =>
      log success "collect.dns-lookup.success";;
      mret (DnsLookupResult.mk host server lookupMs
              (match CommandResult.error result with
             | Some _ => Some (CommandResult.stderr result)
             | None => None
             end))
  end.

(** [Math.round(x / 1_000_000)]: the nearest integer, halves upwards. *)
Definition round_mega (x : number) : number :=
  match x with
  | NaN => NaN
  | Num q => of_Z (Qfloor (q / 1000000 + (1 # 2))%Q)
  end.

Definition speedtest_failure (message : string) : SpeedTestResult.t :=
  SpeedTestResult.mk None None None None None None None (Some message).

Definition runSpeedTest : Eff SpeedTestResult.t :=
  log info "collect.speedtest.start";;
  result ← runCommand "networkQuality" ["-c"] ∅;
  match CommandResult.error result with
  | Some _ =>
      log error "collect.speedtest.error";;
      mret (speedtest_failure (or_str (Some (CommandResult.stderr result)) "networkQuality failed"))
  | None =>
      decoded ← json_parse (CommandResult.stdout result);
      match decoded with
      | SyntaxError _ =>
          log error "collect.speedtest.parse-error";;
          mret (speedtest_failure "networkQuality output parse failed")
      | JsonNull => throw "TypeError: cannot read properties of null"
      | JsonValue parsed =>
          let downloadMbps := when_num (dl_throughput parsed) (fun x => Some (round_mega x)) in
          let uploadMbps := when_num (ul_throughput parsed) (fun x => Some (round_mega x)) in
          let response :=
            SpeedTestResult.mk downloadMbps uploadMbps
              (base_rtt parsed) (responsiveness parsed)
              (interface_name parsed) (test_endpoint parsed)
              (Some (SpeedTestResult.mk_raw (start_date parsed) (end_date parsed) (os_version parsed)))
              None in
          log success "collect.speedtest.success";;
          mret response
      end
  end.

(** ** cli.ts: the aggregator *)

Module Options.
Record t := mk {
  json : bool;
  pretty : bool;
  samples : number;
  internetHost : string;
  routerHost : option string;
  dnsHost : string;
  speedtest : bool;
  noColor : bool
}.
End Options.

Inductive DnsSource := router | system.

Module OutputData.
Record router_t := mk_router { gateway : option string; router_ping : option PingResult.t }.
Record internet_t := mk_internet { target : string; internet_ping : option PingResult.t }.
Record dns_t := mk_dns { server : option string; source : DnsSource; lookup : option DnsLookupResult.t }.
Record meta_t := mk_meta { samples : number; dnsHost : string; meta_speedtest : bool }.
Record t := mk {
  timestamp : string;
  wifi : option WifiStats;
  router : router_t;
  internet : internet_t;
  dns : dns_t;
  speedtest : option SpeedTestResult.t;
  meta : meta_t
}.
End OutputData.

(** [dnsServer && gateway && dnsServer === gateway ? "router" : "system"] *)
Definition dns_source (dnsServer gateway : option string) : DnsSource :=
  if truthy_opt truthy_str dnsServer && truthy_opt truthy_str gateway
     && bool_decide (dnsServer = gateway)
  then router else system.

(** The three statements that compute [hadError]. *)
Definition hadError (options : Options.t) (wifi : option WifiStats)
    (gateway dnsServer : option string)
    (routerPing internetPing : option PingResult.t)
    (dnsResult : option DnsLookupResult.t)
    (speedtest : option SpeedTestResult.t) : bool :=
  let hadError :=
    negb (bool_decide (is_Some wifi)) || negb (truthy_opt truthy_str gateway)
    || negb (truthy_opt truthy_str dnsServer) || negb (bool_decide (is_Some routerPing))
    || negb (bool_decide (is_Some internetPing)) || negb (bool_decide (is_Some dnsResult)) in
  let hadError :=
    if truthy_opt truthy_str (routerPing ≫= PingResult.error)
       || truthy_opt truthy_str (internetPing ≫= PingResult.error)
       || truthy_opt truthy_str (dnsResult ≫= DnsLookupResult.error)
    then true else hadError in
  let hadError :=
    if Options.speedtest options && truthy_opt truthy_str (speedtest ≫= SpeedTestResult.error)
    then true else hadError in
  hadError.

(** The part of [main] after the validation of the options: collection,
    the report and the signal.  The four probes given to [Promise.all] are
    independent; their calls are listed in the order of the array.  The
    rendering of the report is not part of the model. *)
Definition collect (options : Options.t) (count : Z) : Eff (OutputData.t * bool) :=
  log info "wifi-stats.start";;
  wifi ← getAirportInfo;
  gateway ← match Options.routerHost options with
            | Some h => mret (Some h)
            | None => getDefaultGateway
            end : Eff (option string);
  dnsServer ← getDnsServer;
  routerPing ← match gateway with
               | Some g => if truthy_str g then Some <$> pingHost g count else mret None
               | None => mret None
               end : Eff (option PingResult.t);
  internetPing ← pingHost (Options.internetHost options) count;
  dnsResult ← dnsLookup (Options.dnsHost options) dnsServer;
  speedtest ← (if Options.speedtest options then Some <$> runSpeedTest else mret None)
              : Eff (option SpeedTestResult.t);
  timestamp ← clock;
  let output :=
    OutputData.mk timestamp wifi
      (OutputData.mk_router gateway routerPing)
      (OutputData.mk_internet (Options.internetHost options) (Some internetPing))
      (OutputData.mk_dns dnsServer (dns_source dnsServer gateway) (Some dnsResult))
      speedtest
      (OutputData.mk_meta (Options.samples options) (Options.dnsHost options)
         (Options.speedtest options)) in
  let hadError := hadError options wifi gateway dnsServer routerPing (Some internetPing)
                    (Some dnsResult) speedtest in
  log success "wifi-stats.complete";;
  mret (output, hadError).

(** How a run of [main] ends, for options already parsed. *)
Inductive Outcome :=
  | UsageError
  | Crashed (message : string)
  | Completed (output : OutputData.t) (hadError : bool).

(** [main]: the sample count must be finite and positive (the command-line
    parser produces it with [parseInt], so it is an integer); a rejection
    inside the collection reaches the handler installed on [main()]. *)
Definition main (options : Options.t) (h : Host) : Outcome * list Event :=
  match Options.samples options with
  | NaN => (UsageError, [])
  | Num q =>
      if Qle_bool q 0 then (UsageError, [])
      else
        match collect options (Qfloor q) h with
        | (Ok (output, e), t) => (Completed output e, t)
        | (Throw message, t) => (Crashed message, t ++ [Log error "wifi-stats.crash"])
        end
  end.

(** ** Sample hosts

    Hosts on which the statements below are evaluated.  A host answers by
    command name from a table; a command that is not in the table cannot be
    spawned. *)

Definition quoted (s : string) : string := String "034" s +:+ String "034" EmptyString.

Definition ok_output (text : string) : ExecOutcome := Resolved (Some text) (Some "").

Definition failed (out err message : string) : ExecOutcome :=
  Rejected {| err_stdout := Some out; err_stderr := Some err; err_message := Some message |}.

Definition table_host (table : gmap string ExecOutcome) (airport : bool)
    (json : string -> JsonResult) : Host :=
  {| execFile := fun command _ _ =>
       default (failed "" "" "spawn ENOENT") (table !! command);
     access := fun path => airport && bool_decide (path = AIRPORT_PATH);
     JSON_parse := json;
     now := "2026-02-07T13:59:00.000Z" |}.

Definition route_sample : string :=
  lines ["   route to: default"; "destination: default"; "    gateway: 192.168.1.1";
         "  interface: en0"].

Definition scutil_sample : string :=
  lines ["DNS configuration"; ""; "resolver #1"; "  nameserver[0] : 192.168.1.1";
         "  if_index : 14 (en0)"].

Definition dig_sample : string :=
  lines [";; ANSWER SECTION:"; "cloudflare.com. 300 IN A 104.16.132.229"; "";
         ";; Query time: 12 msec"; ";; SERVER: 192.168.1.1#53(192.168.1.1)"].

Definition no_json (text : string) : JsonResult := SyntaxError "Unexpected end of JSON input".

Definition healthy_table : gmap string ExecOutcome :=
  list_to_map [(AIRPORT_PATH, ok_output airport_sample);
               ("system_profiler", ok_output profiler_sample);
               ("route", ok_output route_sample);
               ("scutil", ok_output scutil_sample);
               ("ping", ok_output ping_sample);
               ("dig", ok_output dig_sample)].

Definition healthy_host : Host := table_host healthy_table true no_json.

Definition default_options : Options.t :=
  Options.mk false false (of_Z 12) "1.1.1.1" None "cloudflare.com" false false.

(** The adapter tool reports that the radio is off: a successful run whose
    output has none of the keys. *)
Definition wifi_off_host : Host :=
  table_host (<[AIRPORT_PATH := ok_output "AirPort: Off"]> healthy_table) true no_json.

(** ** A declarative reading of the regular expressions *)

(** [all p s]: every character of [s] is in the class [p]. *)
Fixpoint all (p : ascii -> bool) (s : string) : bool :=
  match s with
  | String c s' => p c && all p s'
  | EmptyString => true
  end.

Fixpoint lit_rel (eqc : ascii -> ascii -> bool) (l m : string) : Prop :=
  match l, m with
  | EmptyString, EmptyString => True
  | String a l', String c m' => eqc a c = true /\ lit_rel eqc l' m'
  | _, _ => False
  end.

(** [matches r m c]: the expression [r] matches exactly the text [m],
    recording the captures [c]. *)
Fixpoint matches (r : regex) (m : string) (c : captures) : Prop :=
  match r with
  | Lit l => m = l /\ c = []
  | LitI l => lit_rel eq_ci l m /\ c = []
  | Cls p => all p m = true /\ String.length m = 1%nat /\ c = []
  | Star p => all p m = true /\ c = []
  | Plus p => all p m = true /\ m <> "" /\ c = []
  | Rep n p => all p m = true /\ String.length m = n /\ c = []
  | Opt r1 => matches r1 m c \/ (m = "" /\ c = [])
  | Cat r1 r2 =>
      exists m1 m2 c1 c2, m = m1 +:+ m2 /\ c = c1 ++ c2 /\ matches r1 m1 c1 /\ matches r2 m2 c2
  | Grp n r1 => exists c1, c = c1 ++ [(n, m)] /\ matches r1 m c1
  end.

(** [r] matches somewhere in [s]. *)
Definition occurs (r : regex) (s : string) : Prop :=
  exists pre m rest c, s = pre +:+ m +:+ rest /\ matches r m c.

(** ** Vocabulary of the statements *)

(** The options every call of the program reaches the process with. *)
Definition exec_options : gmap string string := ∅ ∪ {[ "encoding" := "utf8" ]}.

Definition resolved (o : ExecOutcome) : bool :=
  match o with
  | Resolved _ _ => true
  | Rejected _ => false
  end.

(** The standard output a command result carries for an outcome. *)
Definition stdout_of (o : ExecOutcome) : string :=
  match o with
  | Resolved out _ => default "" out
  | Rejected err => default "" (err_stdout err)
  end.

(** The standard error text a command result carries for an outcome. *)
Definition stderr_of (o : ExecOutcome) : string :=
  match o with
  | Resolved _ err => default "" err
  | Rejected err => default (default "command failed" (err_message err)) (err_stderr err)
  end.

Definition PROFILER_ARGS : list string := ["SPAirPortDataType"; "-detailLevel"; "basic"].

(** A host on which nothing can be run. *)
Definition offline_host : Host := table_host ∅ false no_json.

(** The ping utility exits with a failure after printing statistics whose
    average is zero. *)
Definition zero_latency_output : string :=
  lines ["1 packets transmitted, 1 packets received, 0.0% packet loss";
         "round-trip min/avg/max/stddev = 0.000/0.000/0.000/0.000 ms"].

Definition zero_latency_host : Host :=
  table_host (<["ping" := failed zero_latency_output "" "Command failed: ping -n -c 1 127.0.0.1"]>
                healthy_table) true no_json.

(** The throughput test succeeds and reports a download and an upload
    throughput of zero; on [idle_speed_host] it reports neither. *)
Definition zero_speed_text : string :=
  "{" +:+ quoted "dl_throughput" +:+ ": 0, " +:+ quoted "ul_throughput" +:+ ": 0}".

Definition no_fields : SpeedTestRaw :=
  {| dl_throughput := None; ul_throughput := None; base_rtt := None; responsiveness := None;
     interface_name := None; test_endpoint := None; start_date := None; end_date := None;
     os_version := None |}.

Definition zero_speed_raw : SpeedTestRaw :=
  {| dl_throughput := Some (of_Z 0); ul_throughput := Some (of_Z 0); base_rtt := None;
     responsiveness := None; interface_name := None; test_endpoint := None;
     start_date := None; end_date := None; os_version := None |}.

Definition sample_json (text : string) : JsonResult :=
  if bool_decide (text = zero_speed_text) then JsonValue zero_speed_raw
  else if bool_decide (text = "{}") then JsonValue no_fields
  else SyntaxError "Unexpected token".

Definition zero_speed_host : Host :=
  table_host (<["networkQuality" := ok_output zero_speed_text]> healthy_table) true sample_json.

Definition idle_speed_host : Host :=
  table_host (<["networkQuality" := ok_output "{}"]> healthy_table) true sample_json.

(** The throughput test fails and writes, on its standard error, the very
    text the probe uses for undecodable output; on [garbled_speed_host] it
    succeeds with output that does not decode. *)
Definition failing_speed_host : Host :=
  table_host (<["networkQuality" :=
                  failed "" "networkQuality output parse failed" "Command failed: networkQuality -c"]>
                healthy_table) true sample_json.

Definition garbled_speed_host : Host :=
  table_host (<["networkQuality" := ok_output "<html>captive portal</html>"]> healthy_table)
    true sample_json.

(** The ping utility fails with nothing on its standard error after
    printing complete statistics. *)
Definition silent_failure_host : Host :=
  table_host (<["ping" := failed ping_sample "" "Command failed: ping"]> healthy_table)
    true no_json.

(** The report of a run on [healthy_host] with the Wi-Fi record [w]. *)
Definition sample_ping (target : string) : PingResult.t :=
  PingResult.mk target (Some (Num 10.456)) (Some (Num 0.987)) (Some (Num 0.0)) 12 None.

Definition sample_report (w : WifiStats) : OutputData.t :=
  OutputData.mk "2026-02-07T13:59:00.000Z" (Some w)
    (OutputData.mk_router (Some "192.168.1.1") (Some (sample_ping "192.168.1.1")))
    (OutputData.mk_internet "1.1.1.1" (Some (sample_ping "1.1.1.1")))
    (OutputData.mk_dns (Some "192.168.1.1") router
       (Some (DnsLookupResult.mk "cloudflare.com" (Some "192.168.1.1") (Some (of_Z 12)) None)))
    None
    (OutputData.mk_meta (of_Z 12) "cloudflare.com" false).

Definition sample_wifi : WifiStats :=
  {| ssid := Some "MyWifi"; bssid := Some "aa:bb:cc:dd:ee:ff";
     signalDbm := Some (of_Z (-53)); noiseDbm := Some (of_Z (-91));
     channel := Some (of_Z 48); band := Some "5 GHz"; linkRateMbps := Some (of_Z 576) |}.

Definition empty_wifi : WifiStats :=
  {| ssid := None; bssid := None; signalDbm := None; noiseDbm := None;
     channel := None; band := None; linkRateMbps := None |}.

Definition profiler_wifi : WifiStats :=
  {| ssid := Some "MyHome"; bssid := None;
     signalDbm := Some (of_Z (-51)); noiseDbm := Some (of_Z (-91));
     channel := Some (of_Z 48); band := Some "5 GHz"; linkRateMbps := Some (of_Z 960) |}.

(** ** The "had error" signal in the words of the specification

    A probe result counts as failed when it is null, when its error is not
    null, or when all of its numeric fields are null. *)

Definition wifi_numbers_null (w : WifiStats) : Prop :=
  signalDbm w = None /\ noiseDbm w = None /\ channel w = None /\ linkRateMbps w = None.

Definition ping_numbers_null (p : PingResult.t) : Prop :=
  PingResult.avgMs p = None /\ PingResult.jitterMs p = None /\ PingResult.lossPct p = None.

Definition lookup_numbers_null (d : DnsLookupResult.t) : Prop :=
  DnsLookupResult.lookupMs d = None.

Definition probe_failed {A} (err : A -> option string) (numbers_null : A -> Prop)
    (r : option A) : Prop :=
  match r with
  | None => True
  | Some a => err a <> None \/ numbers_null a
  end.

Definition spec_hadError (o : OutputData.t) : Prop :=
  probe_failed (fun _ => None) wifi_numbers_null (OutputData.wifi o)
  \/ OutputData.gateway (OutputData.router o) = None
  \/ probe_failed PingResult.error ping_numbers_null (OutputData.router_ping (OutputData.router o))
  \/ probe_failed PingResult.error ping_numbers_null (OutputData.internet_ping (OutputData.internet o))
  \/ OutputData.server (OutputData.dns o) = None
  \/ probe_failed DnsLookupResult.error lookup_numbers_null (OutputData.lookup (OutputData.dns o))
  \/ (OutputData.meta_speedtest (OutputData.meta o) = true
      /\ exists st, OutputData.speedtest o = Some st /\ SpeedTestResult.error st <> None).

(** A field of an optional result carries an error. *)
Definition carries_error {A} (err : A -> option string) (r : option A) : Prop :=
  exists a message, r = Some a /\ err a = Some message.

(** What the three statements of the aggregator test, read on the report. *)
Definition reports_failure (o : OutputData.t) : Prop :=
  OutputData.wifi o = None
  \/ OutputData.gateway (OutputData.router o) = None
  \/ OutputData.server (OutputData.dns o) = None
  \/ OutputData.router_ping (OutputData.router o) = None
  \/ OutputData.internet_ping (OutputData.internet o) = None
  \/ OutputData.lookup (OutputData.dns o) = None
  \/ carries_error PingResult.error (OutputData.router_ping (OutputData.router o))
  \/ carries_error PingResult.error (OutputData.internet_ping (OutputData.internet o))
  \/ carries_error DnsLookupResult.error (OutputData.lookup (OutputData.dns o))
  \/ (OutputData.meta_speedtest (OutputData.meta o) = true
      /\ carries_error SpeedTestResult.error (OutputData.speedtest o)).

(** The report of a run on [offline_host]. *)
Definition offline_report : OutputData.t :=
  OutputData.mk "2026-02-07T13:59:00.000Z" None
    (OutputData.mk_router None None)
    (OutputData.mk_internet "1.1.1.1"
       (Some (PingResult.mk "1.1.1.1" None None None 12 (Some "ping failed"))))
    (OutputData.mk_dns None system
       (Some (DnsLookupResult.mk "cloudflare.com" None None (Some "dns lookup failed"))))
    None
    (OutputData.mk_meta (of_Z 12) "cloudflare.com" false).

(** The outcome of the throughput test on a host. *)
Definition speedtest_outcome (h : Host) : ExecOutcome :=
  execFile h "networkQuality" ["-c"] exec_options.

(** An event that is not a process call, or a call with the default options. *)
Definition default_call (ev : Event) : Prop :=
  match ev with
  | Spawn _ _ options => options = exec_options
  | _ => True
  end.

(** Every process call of a computation is made with the default options. *)
Definition calls_ok {A} (m : Eff A) : Prop := forall h, Forall default_call (snd (m h)).

(** The arguments given to the lookup utility. *)
Definition dig_args (host : string) (server : option string) : list string :=
  match server with
  | Some sv => if truthy_str sv then ["+stats"; "+tries=1"; "+time=2"; host; "@" +:+ sv]
               else ["+stats"; "+tries=1"; "+time=2"; host]
  | None => ["+stats"; "+tries=1"; "+time=2"; host]
  end.

(** An event that is not a process call, or a call given a timeout. *)
Definition has_timeout (ev : Event) : Prop :=
  match ev with
  | Spawn _ _ options => is_Some (options !! "timeout")
  | _ => True
  end.

(** ** Key and value lines of the adapter tool, declaratively *)

(** The line has a colon; [key] is what precedes the first colon and
    [value] what follows it, both trimmed. *)
Definition key_value (line key value : string) : Prop :=
  exists a b, line = a +:+ ":" +:+ b /\ includes ":" a = false
              /\ key = trim a /\ value = trim b.

(** Some line gives a value to [key]. *)
Definition mentions (key : string) (lines : list string) : Prop :=
  exists line value, In line lines /\ key_value line key value.

(** [value] is what the last line that mentions [key] gives it. *)
Definition last_value (key : string) (lines : list string) (value : string) : Prop :=
  exists l1 line l2, lines = l1 ++ line :: l2 /\ key_value line key value /\ ~ mentions key l2.


(** [token] is what precedes the first comma of [value], or all of [value]
    when it has no comma. *)
Definition leading_token (value token : string) : Prop :=
  includes "," token = false /\ (value = token \/ exists rest, value = token +:+ "," +:+ rest).

(** The Wi-Fi record for adapter output whose only key is a channel of 0,
    and for output whose channel value has no integer. *)
Definition channel_zero_wifi : WifiStats :=
  {| ssid := None; bssid := None; signalDbm := None; noiseDbm := None;
     channel := Some (of_Z 0); band := None; linkRateMbps := None |}.

Definition channel_nan_wifi : WifiStats :=
  {| ssid := None; bssid := None; signalDbm := None; noiseDbm := None;
     channel := Some NaN; band := None; linkRateMbps := None |}.

(** ** The lines of the ping statistics, declaratively *)

(** A non-empty text of digits and dots. *)
Definition number_token (t : string) : Prop := all cls_d_dot t = true /\ t <> "".


Definition rtt_line (t1 t2 t3 t4 : string) : string :=
  "round-trip min/avg/max/stddev = " +:+ t1 +:+ "/" +:+ t2 +:+ "/" +:+ t3 +:+ "/" +:+ t4
  +:+ " ms".

(** ** cli.ts: the command line

    [parseArgs] and the part of [main] that precedes the validation of the
    sample count.  The defaults are [default_options]. *)

Module ParseResult.
Record t := mk {
  options : Options.t;
  showHelp : option bool;
  showVersion : option bool;
  unknown : option (list string)
}.
End ParseResult.

Definition with_json (o : Options.t) : Options.t :=
  Options.mk true (Options.pretty o) (Options.samples o) (Options.internetHost o)
    (Options.routerHost o) (Options.dnsHost o) (Options.speedtest o) (Options.noColor o).

Definition with_pretty (o : Options.t) : Options.t :=
  Options.mk (Options.json o) true (Options.samples o) (Options.internetHost o)
    (Options.routerHost o) (Options.dnsHost o) (Options.speedtest o) (Options.noColor o).

Definition with_noColor (o : Options.t) : Options.t :=
  Options.mk (Options.json o) (Options.pretty o) (Options.samples o) (Options.internetHost o)
    (Options.routerHost o) (Options.dnsHost o) (Options.speedtest o) true.

Definition with_speedtest (o : Options.t) : Options.t :=
  Options.mk (Options.json o) (Options.pretty o) (Options.samples o) (Options.internetHost o)
    (Options.routerHost o) (Options.dnsHost o) true (Options.noColor o).

Definition with_samples (n : number) (o : Options.t) : Options.t :=
  Options.mk (Options.json o) (Options.pretty o) n (Options.internetHost o)
    (Options.routerHost o) (Options.dnsHost o) (Options.speedtest o) (Options.noColor o).

Definition with_internetHost (x : string) (o : Options.t) : Options.t :=
  Options.mk (Options.json o) (Options.pretty o) (Options.samples o) x
    (Options.routerHost o) (Options.dnsHost o) (Options.speedtest o) (Options.noColor o).

Definition with_routerHost (x : option string) (o : Options.t) : Options.t :=
  Options.mk (Options.json o) (Options.pretty o) (Options.samples o) (Options.internetHost o)
    x (Options.dnsHost o) (Options.speedtest o) (Options.noColor o).

Definition with_dnsHost (x : string) (o : Options.t) : Options.t :=
  Options.mk (Options.json o) (Options.pretty o) (Options.samples o) (Options.internetHost o)
    (Options.routerHost o) x (Options.speedtest o) (Options.noColor o).

(** [arg.startsWith("-")] *)
Definition starts_with_dash (arg : string) : bool :=
  match arg with
  | String "-" _ => true
  | _ => false
  end.

(** The [while] loop of [parseArgs]: [args.shift()] takes the head of the
    list; [break] and the end of the list return the options with the
    unknown options, the two [return]s leave [unknown] undefined. *)
Fixpoint parse_loop (options : Options.t) (unknown : list string) (args : list string)
  : ParseResult.t :=
  match args with
  | [] => ParseResult.mk options None None (Some unknown)
  | arg :: args' =>
      if negb (truthy_str arg) then ParseResult.mk options None None (Some unknown)
      else if bool_decide (arg = "--json") then parse_loop (with_json options) unknown args'
      else if bool_decide (arg = "--pretty") then parse_loop (with_pretty options) unknown args'
      else if bool_decide (arg = "--no-color") then parse_loop (with_noColor options) unknown args'
      else if bool_decide (arg = "--samples") then
        match args' with
        | value :: args'' =>
            parse_loop (with_samples (if truthy_str value then parseInt value else NaN) options)
              unknown args''
        | [] => parse_loop (with_samples NaN options) unknown args'
        end
      else if bool_decide (arg = "--internet-host") then
        match args' with
        | value :: args'' => parse_loop (with_internetHost value options) unknown args''
        | [] => parse_loop (with_internetHost "" options) unknown args'
        end
      else if bool_decide (arg = "--router-host") then
        match args' with
        | value :: args'' => parse_loop (with_routerHost (Some value) options) unknown args''
        | [] => parse_loop (with_routerHost None options) unknown args'
        end
      else if bool_decide (arg = "--dns-host") then
        match args' with
        | value :: args'' => parse_loop (with_dnsHost value options) unknown args''
        | [] => parse_loop (with_dnsHost "" options) unknown args'
        end
      else if bool_decide (arg = "--speedtest") then
        parse_loop (with_speedtest options) unknown args'
      else if bool_decide (arg = "-h") || bool_decide (arg = "--help") then
        ParseResult.mk options (Some true) None None
      else if bool_decide (arg = "--version") then
        ParseResult.mk options None (Some true) None
      else if starts_with_dash arg then parse_loop options (unknown ++ [arg]) args'
      else parse_loop options unknown args'
  end.

Definition parseArgs (argv : list string) : ParseResult.t :=
  parse_loop default_options [] argv.

(** How [main] ends, from the arguments of the command line.  [version] is
    what [loadVersion] gives: the version read from package.json, or the
    exception of the read or of the decoding. *)
Inductive CliOutcome :=
  | HelpShown
  | VersionShown (version : string)
  | VersionFailed (message : string)
  | UnknownOptions (unknown : list string)
  | Ran (result : Outcome * list Event).

Definition cli (argv : list string) (version : Exc string) (h : Host) : CliOutcome :=
  let parsed := parseArgs argv in
  if truthy_opt id (ParseResult.showHelp parsed) then HelpShown
  else if truthy_opt id (ParseResult.showVersion parsed) then
    match version with
    | Ok v => VersionShown v
    | Throw message => VersionFailed message
    end
  else
    match ParseResult.unknown parsed with
    | Some (u :: l) => UnknownOptions (u :: l)
    | _ => Ran (main (ParseResult.options parsed) h)
    end.

(** The options of [parseArgs] that take no value, and all of its options. *)
Definition toggles : list string := ["--json"; "--pretty"; "--no-color"; "--speedtest"].

Definition recognised : list string :=
  toggles ++ ["--samples"; "--internet-host"; "--router-host"; "--dns-host";
              "-h"; "--help"; "--version"].

(** An argument that is not empty and is not an option of the program. *)
Definition plain (arg : string) : Prop := arg <> "" /\ arg ∉ recognised.

(** An argument that is plain or an option without a value. *)
Definition simple (arg : string) : Prop := plain arg \/ arg ∈ toggles.

(** The options after the toggles among [args] have been switched on. *)
Definition switched (args : list string) (o : Options.t) : Options.t :=
  Options.mk
    (Options.json o || bool_decide ("--json" ∈ args))
    (Options.pretty o || bool_decide ("--pretty" ∈ args))
    (Options.samples o) (Options.internetHost o) (Options.routerHost o) (Options.dnsHost o)
    (Options.speedtest o || bool_decide ("--speedtest" ∈ args))
    (Options.noColor o || bool_decide ("--no-color" ∈ args)).

(** The arguments that are reported as unknown options. *)
Definition dashed (args : list string) : list string :=
  filter (fun a => starts_with_dash a = true /\ a ∉ toggles) args.

(** ** Traces *)

(** Every event of a computation satisfies [P]. *)
Definition trace_all {A} (P : Event -> Prop) (m : Eff A) : Prop :=
  forall h, Forall P (snd (m h)).

(** The event is not a call of [command]. *)
Definition not_spawn (command : string) (ev : Event) : Prop :=
  match ev with
  | Spawn c _ _ => c <> command
  | _ => True
  end.


(** The computation ends with an exception on the host [h]. *)
Definition throws {A} (m : Eff A) (h : Host) : Prop :=
  exists e t, m h = (Throw e, t).

(** The computation returns a value on every host. *)
Definition never_throws {A} (m : Eff A) : Prop :=
  forall h, exists a t, m h = (Ok a, t).

(** The sample count passes the validation of [main]. *)
Definition valid_samples (n : number) : Prop := exists q, n = Num q /\ (0 < q)%Q.

(** The outcome of the two Wi-Fi tools on a host. *)
Definition airport_outcome (h : Host) : ExecOutcome := execFile h AIRPORT_PATH ["-I"] exec_options.
Definition profiler_outcome (h : Host) : ExecOutcome :=
  execFile h "system_profiler" PROFILER_ARGS exec_options.

(** ** Values of the fields *)

(** A number that is not negative, when it is a number at all. *)
Definition unsigned (n : number) : Prop :=
  match n with
  | NaN => True
  | Num q => (0 <= q)%Q
  end.

(** A field that holds, when it is not null, a value with the property. *)
Definition field {A} (P : A -> Prop) (v : option A) : Prop :=
  forall a, v = Some a -> P a.



(** The text does not start with a character of the class. *)
Definition stops (p : ascii -> bool) (s : string) : Prop :=
  match s with
  | String c _ => p c = false
  | EmptyString => True
  end.

(** Somewhere in the text, the key of the first name server is directly
    followed by a digit or a dot. *)
Definition address_after_key (s : string) : Prop :=
  exists pre c rest, s = pre +:+ "nameserver[0] : " +:+ String c rest /\ cls_d_dot c = true.


(** An argument that starts with a dash and is not an option of the program. *)
Definition stray (arg : string) : Prop := starts_with_dash arg = true /\ arg ∉ recognised.

(** The throughput test reports 94.5 and 0.4 megabits per second. *)
Definition uneven_speed_text : string :=
  "{" +:+ quoted "dl_throughput" +:+ ": 94500000, " +:+ quoted "ul_throughput" +:+ ": 400000}".

Definition uneven_speed_raw : SpeedTestRaw :=
  {| dl_throughput := Some (of_Z 94500000); ul_throughput := Some (of_Z 400000);
     base_rtt := None; responsiveness := None; interface_name := None;
     test_endpoint := None; start_date := None; end_date := None; os_version := None |}.

Definition uneven_speed_host : Host :=
  table_host (<["networkQuality" := ok_output uneven_speed_text]> healthy_table) true
    (fun text => if bool_decide (text = uneven_speed_text) then JsonValue uneven_speed_raw
                 else SyntaxError "Unexpected token").

Definition scutil_outcome (h : Host) : ExecOutcome := execFile h "scutil" ["--dns"] exec_options.
Definition ping_outcome (host : string) (count : Z) (h : Host) : ExecOutcome :=
  execFile h "ping" ["-n"; "-c"; String_of count; host] exec_options.

(** A healthy host whose configuration tool prints [text]. *)
Definition scutil_host (text : string) : Host :=
  table_host (<["scutil" := ok_output text]> healthy_table) true no_json.

(** The outcome of the throughput test on [uneven_speed_host]. *)
Definition uneven_speed_result : SpeedTestResult.t :=
  SpeedTestResult.mk (Some (of_Z 95)) (Some (of_Z 0)) None None None None
    (Some (SpeedTestResult.mk_raw None None None)) None.

(** A throughput field that holds a number other than zero. *)
Definition measured (v : option number) : Prop :=
  exists q, v = Some (Num q) /\ ~ (q == 0)%Q.

(** [z] is the integer nearest to [x], the upper one of two. *)
Definition nearest (x : Q) (z : Z) : Prop :=
  (inject_Z z - (1 # 2) <= x)%Q /\ (x < inject_Z z + (1 # 2))%Q.

(** * Properties *)

(** ** Strings *)

Lemma sapp_cons (c : ascii) (s t : string) : String c s +:+ t = String c (s +:+ t).
Proof. reflexivity. Qed.

Lemma sapp_nil_l (s : string) : "" +:+ s = s.
Proof. reflexivity. Qed.

Lemma sapp_nil_r (s : string) : s +:+ "" = s.
Proof. induction s as [|c s IH]; [reflexivity|]. rewrite sapp_cons, IH. reflexivity. Qed.

Lemma sapp_assoc (s t u : string) : (s +:+ t) +:+ u = s +:+ (t +:+ u).
Proof. induction s as [|c s IH]; [reflexivity|]. rewrite !sapp_cons, IH. reflexivity. Qed.

Lemma sapp_length (s t : string) :
  String.length (s +:+ t) = (String.length s + String.length t)%nat.
Proof. induction s as [|c s IH]; [reflexivity|]. rewrite sapp_cons. simpl. rewrite IH. reflexivity. Qed.

Lemma sapp_eq_nil (s t : string) : s +:+ t = "" -> s = "" /\ t = "".
Proof. destruct s; [auto|discriminate]. Qed.


(** ** The matcher against a declarative reading of the expressions *)

Lemma lit_spec eqc l s m rest :
  lit eqc l s = Some (m, rest) <-> s = m +:+ rest /\ lit_rel eqc l m.
Proof.
  revert s m rest. induction l as [|a l IH]; intros s m rest; simpl.
  - split.
    + intros [= <- <-]. auto.
    + intros [-> H]. destruct m; [reflexivity|contradiction].
  - destruct s as [|c s].
    + split; [discriminate|]. intros [H1 H2]. destruct m; [contradiction|discriminate].
    + destruct (eqc a c) eqn:E.
      * destruct (lit eqc l s) as [[m' r']|] eqn:L; simpl.
        -- apply IH in L as [-> L]. split.
           ++ intros [= <- <-]. auto.
           ++ intros [H1 H2]. destruct m as [|c' m]; [contradiction|].
              rewrite sapp_cons in H1. injection H1 as -> H1. destruct H2 as [_ H2].
              assert (lit eqc l (m +:+ rest) = Some (m, rest)) as L2 by (apply IH; auto).
              rewrite <- H1 in L2.
              assert (lit eqc l (m' +:+ r') = Some (m', r')) as L1 by (apply IH; auto).
              rewrite L1 in L2. injection L2 as -> ->. reflexivity.
        -- split; [discriminate|]. intros [H1 H2].
           destruct m as [|c' m]; [contradiction|]. rewrite sapp_cons in H1.
           injection H1 as -> ->. destruct H2 as [_ H2].
           assert (lit eqc l (m +:+ rest) = Some (m, rest)) as L2 by (apply IH; auto).
           congruence.
      * split; [discriminate|]. intros [H1 H2].
        destruct m as [|c' m]; [contradiction|]. rewrite sapp_cons in H1.
        injection H1 as -> ->. destruct H2 as [H2 _]. congruence.
Qed.

Lemma lit_rel_eqb l m : lit_rel Ascii.eqb l m <-> m = l.
Proof.
  revert m. induction l as [|a l IH]; intros [|c m]; simpl; try (split; [tauto|discriminate]).
  - tauto.
  - rewrite IH, Ascii.eqb_eq. split; [intros [-> ->]; reflexivity|intros [= -> ->]; auto].
Qed.

Lemma in_push c m rest (l : list (string * string)) :
  In (m, rest) (map (push c) l) <-> exists m', m = String c m' /\ In (m', rest) l.
Proof.
  rewrite in_map_iff. split.
  - intros [[m' r'] [[= <- <-] H]]. eauto.
  - intros [m' [-> H]]. exists (m', rest). auto.
Qed.

Lemma star_spec p s m rest :
  In (m, rest) (star p s) <-> s = m +:+ rest /\ all p m = true.
Proof.
  revert m rest. induction s as [|c s IH]; intros m rest; simpl.
  - split.
    + intros [[= <- <-]|[]]. auto.
    + intros [H _]. symmetry in H. apply sapp_eq_nil in H as [-> ->]. auto.
  - destruct (p c) eqn:E.
    + rewrite in_app_iff, in_push. split.
      * intros [[m' [-> H]]|[[= <- <-]|[]]]; [|auto].
        apply IH in H as [-> H]. simpl. rewrite E. auto.
      * intros [H1 H2]. destruct m as [|c' m].
        -- right. left. rewrite sapp_nil_l in H1. subst. reflexivity.
        -- left. rewrite sapp_cons in H1. injection H1 as <- ->.
           simpl in H2. rewrite E in H2. exists m. split; [reflexivity|]. apply IH. auto.
    + split.
      * intros [[= <- <-]|[]]. auto.
      * intros [H1 H2]. destruct m as [|c' m].
        -- left. rewrite sapp_nil_l in H1. subst. reflexivity.
        -- rewrite sapp_cons in H1. injection H1 as <- ->. simpl in H2. rewrite E in H2. discriminate.
Qed.

Lemma plus_spec p s m rest :
  In (m, rest) (plus p s) <-> s = m +:+ rest /\ all p m = true /\ m <> "".
Proof.
  destruct s as [|c s]; simpl.
  - split; [intros []|]. intros (H & _ & N). symmetry in H. apply sapp_eq_nil in H as [-> _]. congruence.
  - destruct (p c) eqn:E.
    + rewrite in_push. split.
      * intros [m' [-> H]]. apply star_spec in H as [-> H]. simpl. rewrite E. auto.
      * intros (H1 & H2 & N). destruct m as [|c' m]; [congruence|].
        rewrite sapp_cons in H1. injection H1 as <- ->. simpl in H2. rewrite E in H2.
        exists m. split; [reflexivity|]. apply star_spec. auto.
    + split; [intros []|]. intros (H1 & H2 & N). destruct m as [|c' m]; [congruence|].
      rewrite sapp_cons in H1. injection H1 as <- ->. simpl in H2. rewrite E in H2. discriminate.
Qed.

Lemma rep_spec n p s m rest :
  In (m, rest) (rep n p s) <-> s = m +:+ rest /\ all p m = true /\ String.length m = n.
Proof.
  revert s m rest. induction n as [|n IH]; intros s m rest; simpl.
  - split.
    + intros [[= <- <-]|[]]. auto.
    + intros (-> & _ & L). destruct m; [auto|discriminate].
  - destruct s as [|c s].
    + split; [intros []|]. intros (H & _ & L). symmetry in H. apply sapp_eq_nil in H as [-> _]. discriminate.
    + destruct (p c) eqn:E.
      * rewrite in_push. split.
        -- intros [m' [-> H]]. apply IH in H as (-> & H & L). simpl. rewrite E, L. auto.
        -- intros (H1 & H2 & L). destruct m as [|c' m]; [discriminate|].
           rewrite sapp_cons in H1. injection H1 as <- ->. simpl in H2, L. rewrite E in H2.
           exists m. split; [reflexivity|]. apply IH. auto.
      * split; [intros []|]. intros (H1 & H2 & L). destruct m as [|c' m]; [discriminate|].
        rewrite sapp_cons in H1. injection H1 as <- ->. simpl in H2. rewrite E in H2. discriminate.
Qed.

Lemma in_nocap m rest c (l : list (string * string)) :
  In (m, rest, c) (map nocap l) <-> In (m, rest) l /\ c = [].
Proof.
  rewrite in_map_iff. unfold nocap. split.
  - intros [[m' r'] [[= <- <- <-] H]]. auto.
  - intros [H ->]. exists (m, rest). auto.
Qed.

(** The matcher lists exactly the declarative matches of a prefix. *)
Theorem rmatch_spec r s m rest c :
  In (m, rest, c) (rmatch r s) <-> s = m +:+ rest /\ matches r m c.
Proof.
  revert s m rest c. induction r as [l|l|p|p|p|n p|r IH|r1 IH1 r2 IH2|n r IH];
    intros s m rest c; simpl.
  - rewrite in_nocap. destruct (lit Ascii.eqb l s) as [[m' r']|] eqn:L; simpl.
    + apply lit_spec in L as [-> L]. apply lit_rel_eqb in L as ->. split.
      * intros [[[= <- <-]|[]] ->]. auto.
      * intros (H & -> & ->). split; [|reflexivity]. left.
        apply String.app_inj in H as ->. reflexivity.
    + split; [intros [[] _]|]. intros (-> & -> & ->).
      assert (lit Ascii.eqb l (l +:+ rest) = Some (l, rest)) as L2.
      { apply lit_spec. split; [reflexivity|]. apply lit_rel_eqb. reflexivity. }
      congruence.
  - rewrite in_nocap. destruct (lit eq_ci l s) as [[m' r']|] eqn:L; simpl.
    + split.
      * intros [[[= <- <-]|[]] ->]. apply lit_spec in L. tauto.
      * intros (H & H2 & ->). split; [|reflexivity]. left.
        assert (lit eq_ci l s = Some (m, rest)) as L2 by (apply lit_spec; auto).
        congruence.
    + split; [intros [[] _]|]. intros (H & H2 & ->).
      assert (lit eq_ci l s = Some (m, rest)) as L2 by (apply lit_spec; auto).
      congruence.
  - rewrite in_nocap. pose proof (rep_spec 1 p s m rest) as R. simpl in R. tauto.
  - rewrite in_nocap, star_spec. tauto.
  - rewrite in_nocap, plus_spec. tauto.
  - rewrite in_nocap, rep_spec. tauto.
  - rewrite in_app_iff, IH. simpl. split.
    + intros [[H1 H2]|[[= <- <- <-]|[]]]; auto.
    + intros [-> [H|[-> ->]]]; auto.
  - rewrite in_flat_map. split.
    + intros [[[m1 s1] c1] [H1 H2]]. apply in_map_iff in H2 as [[[m2 s2] c2] [[= <- <- <-] H2]].
      apply IH1 in H1 as [-> H1]. apply IH2 in H2 as [-> H2].
      split; [symmetry; apply sapp_assoc|]. exists m1, m2, c1, c2. auto.
    + intros [-> (m1 & m2 & c1 & c2 & -> & -> & H1 & H2)].
      exists (m1, m2 +:+ rest, c1). split.
      * apply IH1. split; [apply sapp_assoc|assumption].
      * apply in_map_iff. exists (m2, rest, c2). split; [reflexivity|]. apply IH2. auto.
  - rewrite in_map_iff. split.
    + intros [[[m' s'] c'] [[= <- <- <-] H]]. apply IH in H as [-> H]. eauto.
    + intros [-> [c1 [-> H]]]. exists (m, rest, c1). split; [reflexivity|]. apply IH. auto.
Qed.

Lemma rmatch_nil r s :
  rmatch r s = [] <-> forall m rest c, s = m +:+ rest -> ~ matches r m c.
Proof.
  split.
  - intros E m rest c H M. assert (In (m, rest, c) (rmatch r s)) as I by (apply rmatch_spec; auto).
    rewrite E in I. destruct I.
  - intros H. destruct (rmatch r s) as [|[[m rest] c] l] eqn:E; [reflexivity|].
    assert (In (m, rest, c) (rmatch r s)) as I by (rewrite E; left; reflexivity).
    apply rmatch_spec in I as [-> M]. exfalso. eapply H; eauto.
Qed.

(** The search reports nothing exactly when the expression occurs nowhere. *)
Theorem search_None r s : search r s = None <-> ~ occurs r s.
Proof.
  induction s as [|a s IH]; simpl.
  - destruct (rmatch r "") as [|[[m rest] c] l] eqn:E.
    + split; [|reflexivity]. intros _ (pre & m & rest & c & H & M).
      symmetry in H. apply sapp_eq_nil in H as [-> H]. apply sapp_eq_nil in H as [-> ->].
      apply rmatch_nil with (m := "") (rest := "") (c := c) in E; auto.
    + split; [discriminate|]. intros H. exfalso. apply H.
      assert (In (m, rest, c) (rmatch r "")) as I by (rewrite E; left; reflexivity).
      apply rmatch_spec in I as [I M]. exists "", m, rest, c. auto.
  - destruct (rmatch r (String a s)) as [|[[m rest] c] l] eqn:E.
    + rewrite IH. split.
      * intros H (pre & m & rest & c & H1 & M). destruct pre as [|a' pre].
        -- rewrite sapp_nil_l in H1. eapply rmatch_nil in E; eauto.
        -- rewrite sapp_cons in H1. injection H1 as <- ->. apply H. exists pre, m, rest, c. auto.
      * intros H (pre & m & rest & c & -> & M). apply H.
        exists (String a pre), m, rest, c. auto.
    + split; [discriminate|]. intros H. exfalso. apply H.
      assert (In (m, rest, c) (rmatch r (String a s))) as I by (rewrite E; left; reflexivity).
      apply rmatch_spec in I as [I M]. exists "", m, rest, c. auto.
Qed.

(** A match found by the search is a declarative match somewhere in the text. *)
Lemma search_Some r s c :
  search r s = Some c -> exists pre m rest, s = pre +:+ m +:+ rest /\ matches r m c.
Proof.
  induction s as [|a s IH]; simpl.
  - destruct (rmatch r "") as [|[[m rest] c'] l] eqn:E; [discriminate|]. intros [= ->].
    assert (In (m, rest, c) (rmatch r "")) as I by (rewrite E; left; reflexivity).
    apply rmatch_spec in I as [I M]. exists "", m, rest. auto.
  - destruct (rmatch r (String a s)) as [|[[m rest] c'] l] eqn:E.
    + intros H. apply IH in H as (pre & m & rest & -> & M). exists (String a pre), m, rest. auto.
    + intros [= ->].
      assert (In (m, rest, c) (rmatch r (String a s))) as I by (rewrite E; left; reflexivity).
      apply rmatch_spec in I as [I M]. exists "", m, rest. auto.
Qed.


(** ** The effect monad *)

Lemma eff_bind_Ok {A B} (m : Eff A) (f : A -> Eff B) h b t :
  (m ≫= f) h = (Ok b, t) ->
  exists a t1 t2, m h = (Ok a, t1) /\ f a h = (Ok b, t2) /\ t = t1 ++ t2.
Proof.
  unfold mbind, eff_bind. destruct (m h) as [[a|e] t1]; [|discriminate].
  destruct (f a h) as [b' t2] eqn:E. intros [= -> <-]. eauto 6.
Qed.

Lemma eff_bind_run {A B} (m : Eff A) (f : A -> Eff B) h :
  (m ≫= f) h =
  match m h with
  | (Ok a, t) => let '(b, t') := f a h in (b, t ++ t')
  | (Throw e, t) => (Throw e, t)
  end.
Proof. reflexivity. Qed.

Lemma runCommand_run command args options h :
  runCommand command args options h =
  (Ok (CommandResult.mk
         (stdout_of (execFile h command args (options ∪ {[ "encoding" := "utf8" ]})))
         (stderr_of (execFile h command args (options ∪ {[ "encoding" := "utf8" ]})))
         (match execFile h command args (options ∪ {[ "encoding" := "utf8" ]}) with
          | Resolved _ _ => None
          | Rejected err => Some err
          end)),
   [Spawn command args (options ∪ {[ "encoding" := "utf8" ]})]).
Proof.
  unfold runCommand, mbind, eff_bind, spawn, mret, eff_ret.
  destruct (execFile h command args _); reflexivity.
Qed.

(** ** The parsers never throw *)

Lemma split_cons sep s : exists x l, split sep s = x :: l.
Proof.
  induction s as [|c s IH]; simpl; [eauto|].
  destruct (Ascii.eqb c sep); [eauto|]. destruct IH as (x & l & ->). eauto.
Qed.

Lemma scan_line_total data line : exists d, scan_line data line = Ok d.
Proof.
  unfold scan_line. destruct (negb (includes ":" line)); [eauto|].
  destruct (split_cons ":" line) as (x & l & ->).
  destruct (String.length (trim x) =? 0)%nat; eauto.
Qed.

Lemma scan_lines_total data lines : exists d, scan_lines data lines = Ok d.
Proof.
  revert data. induction lines as [|line lines IH]; intros data; simpl; [eauto|].
  destruct (scan_line_total data line) as [d ->]. simpl. apply IH.
Qed.

Lemma parseAirportOutput_total output : exists w, parseAirportOutput output = Ok w.
Proof.
  unfold parseAirportOutput.
  destruct (scan_lines_total ∅ (split "010" output)) as [d ->]. simpl. eauto.
Qed.

Ltac break_matches H :=
  simpl in H;
  repeat match type of H with
         | exists _, _ => let x := fresh "x" in destruct H as [x H]
         | _ /\ _ => let H1 := fresh "M" in destruct H as [H1 H]; try subst
         end.

Lemma ssidRe_group output m : search ssidRe output = Some m -> exists x, group m 1 = Some x.
Proof.
  intros H. apply search_Some in H as (pre & t & rest & _ & M).
  unfold ssidRe in M. simpl in M.
  destruct M as (m1 & m2 & c1 & c2 & _ & -> & [_ ->] & M).
  destruct M as (m3 & m4 & c3 & c4 & _ & -> & [_ ->] & M).
  destruct M as (m5 & m6 & c5 & c6 & _ & -> & [_ ->] & M).
  destruct M as (m7 & m8 & c7 & c8 & _ & -> & (_ & _ & ->) & M).
  destruct M as (m9 & m10 & c9 & c10 & _ & -> & (c11 & -> & (_ & _ & ->)) & [_ ->]).
  simpl. eauto.
Qed.

Lemma parseSystemProfilerOutput_total output :
  exists w, parseSystemProfilerOutput output = Ok w.
Proof.
  unfold parseSystemProfilerOutput.
  destruct (search ssidRe output) as [m|] eqn:E; simpl; [|eauto].
  destruct (ssidRe_group _ _ E) as [x ->]. simpl. eauto.
Qed.

(** The cases of tests/parsers.test.ts. *)
Example parses_airport_output : parseAirportOutput airport_sample = Ok sample_wifi.
Proof. vm_compute. reflexivity. Qed.

Example parses_system_profiler_output :
  parseSystemProfilerOutput profiler_sample = Ok profiler_wifi.
Proof. vm_compute. reflexivity. Qed.

(** ** The Wi-Fi probe *)

Ltac trace_cases Hw :=
  simpl; repeat split; intros; try rewrite Hw; simpl;
  repeat match goal with
         | H : _ \/ _ |- _ => destruct H
         | H : _ /\ _ |- _ => destruct H
         | H : False |- _ => destruct H
         end;
  try discriminate; try congruence; eauto 10.


(** C3.  The Wi-Fi probe tries the adapter tool only when its fixed path is
    accessible; when the path is not accessible or the adapter tool fails it
    runs the system-information tool; it returns [null] exactly when that
    second run fails as well, and otherwise the record obtained by applying
    to the successful output the parser of the tool that produced it.  It
    never throws. *)
Theorem wifi_probe_fallback_chain (h : Host) :
  let primary := execFile h AIRPORT_PATH ["-I"] exec_options in
  let fallback := execFile h "system_profiler" PROFILER_ARGS exec_options in
  let primary_ok := access h AIRPORT_PATH && resolved primary in
  let result := fst (getAirportInfo h) in
  let trace := snd (getAirportInfo h) in
  (In (Spawn AIRPORT_PATH ["-I"] exec_options) trace <-> access h AIRPORT_PATH = true) /\
  (In (Spawn "system_profiler" PROFILER_ARGS exec_options) trace <-> primary_ok = false) /\
  (result = Ok None <-> primary_ok = false /\ resolved fallback = false) /\
  (primary_ok = true -> result = Some <$> parseAirportOutput (stdout_of primary)) /\
  (primary_ok = false -> resolved fallback = true ->
   result = Some <$> parseSystemProfilerOutput (stdout_of fallback)) /\
  (exists w, result = Ok w).
Proof.
  intros primary fallback primary_ok result trace.
  subst result trace primary_ok.
  remember (getAirportInfo h) as g eqn:E.
  unfold getAirportInfo, mbind, eff_bind, log, check_access in E.
  destruct (access h AIRPORT_PATH); simpl in E.
  - rewrite runCommand_run in E. fold exec_options in E. fold primary in E.
    destruct primary as [out err|err]; simpl in E.
    + unfold lift in E. destruct (parseAirportOutput_total (default "" out)) as [w Hw].
      rewrite Hw in E. simpl in E. subst g. trace_cases Hw.
    + rewrite runCommand_run in E. fold exec_options in E. fold PROFILER_ARGS in E.
      fold fallback in E.
      destruct fallback as [out2 err2|err2]; simpl in E.
      * unfold lift in E.
        destruct (parseSystemProfilerOutput_total (default "" out2)) as [w Hw].
        rewrite Hw in E. simpl in E. subst g. trace_cases Hw.
      * subst g. trace_cases E.
  - rewrite runCommand_run in E. fold exec_options in E. fold PROFILER_ARGS in E.
    fold fallback in E.
    destruct fallback as [out2 err2|err2]; simpl in E.
    + unfold lift in E.
      destruct (parseSystemProfilerOutput_total (default "" out2)) as [w Hw].
      rewrite Hw in E. simpl in E. subst g. trace_cases Hw.
    + subst g. trace_cases E.
Qed.

(** ** The aggregator *)

(** A completed collection is made of the results of the seven probes. *)
Lemma collect_Ok options count h output e t :
  collect options count h = (Ok (output, e), t) ->
  exists wifi gateway dnsServer routerPing internetPing dnsResult speedtest
         t1 t2 t3 t4 t5 t6 t7,
    getAirportInfo h = (Ok wifi, t1) /\
    (match Options.routerHost options with
     | Some x => mret (Some x)
     | None => getDefaultGateway
     end) h = (Ok gateway, t2) /\
    getDnsServer h = (Ok dnsServer, t3) /\
    (match gateway with
     | Some g => if truthy_str g then Some <$> pingHost g count else mret None
     | None => mret None
     end) h = (Ok routerPing, t4) /\
    pingHost (Options.internetHost options) count h = (Ok internetPing, t5) /\
    dnsLookup (Options.dnsHost options) dnsServer h = (Ok dnsResult, t6) /\
    (if Options.speedtest options then Some <$> runSpeedTest else mret None) h
      = (Ok speedtest, t7) /\
    output =
      OutputData.mk (now h) wifi
        (OutputData.mk_router gateway routerPing)
        (OutputData.mk_internet (Options.internetHost options) (Some internetPing))
        (OutputData.mk_dns dnsServer (dns_source dnsServer gateway) (Some dnsResult))
        speedtest
        (OutputData.mk_meta (Options.samples options) (Options.dnsHost options)
           (Options.speedtest options)) /\
    e = hadError options wifi gateway dnsServer routerPing (Some internetPing)
          (Some dnsResult) speedtest /\
    t = Log info "wifi-stats.start" :: t1 ++ t2 ++ t3 ++ t4 ++ t5 ++ t6 ++ t7
          ++ [Log success "wifi-stats.complete"].
Proof.
  intros H. unfold collect in H.
  apply eff_bind_Ok in H as ([] & t0 & t0' & H0 & H & ->).
  unfold log in H0. simplify_eq.
  apply eff_bind_Ok in H as (wifi & t1 & t1' & H1 & H & ->).
  apply eff_bind_Ok in H as (gateway & t2 & t2' & H2 & H & ->).
  apply eff_bind_Ok in H as (dnsServer & t3 & t3' & H3 & H & ->).
  apply eff_bind_Ok in H as (routerPing & t4 & t4' & H4 & H & ->).
  apply eff_bind_Ok in H as (internetPing & t5 & t5' & H5 & H & ->).
  apply eff_bind_Ok in H as (dnsResult & t6 & t6' & H6 & H & ->).
  apply eff_bind_Ok in H as (speedtest & t7 & t7' & H7 & H & ->).
  apply eff_bind_Ok in H as (timestamp & t8 & t8' & H8 & H & ->).
  unfold clock in H8. simplify_eq.
  apply eff_bind_Ok in H as ([] & t9 & t9' & H9 & H & ->).
  unfold log in H9. unfold mret, eff_ret in H. simplify_eq.
  exists wifi, gateway, dnsServer, routerPing, internetPing, dnsResult, speedtest,
    t1, t2, t3, t4, t5, t6, t7.
  repeat split; assumption.
Qed.

Lemma main_Completed options h output e :
  fst (main options h) = Completed output e ->
  exists count t, collect options count h = (Ok (output, e), t).
Proof.
  unfold main. destruct (Options.samples options) as [|q]; [discriminate|].
  destruct (Qle_bool q 0); [discriminate|].
  destruct (collect options (Qfloor q) h) as [[[o e']|msg] t] eqn:E; simpl; [|discriminate].
  intros [= -> ->]. eauto.
Qed.

(** The DNS server probe never reports an empty address. *)
Lemma getDnsServer_nonempty h r t : getDnsServer h = (Ok r, t) -> r <> Some "".
Proof.
  unfold getDnsServer, mbind, eff_bind, log. simpl. rewrite runCommand_run. simpl.
  match goal with |- context [truthy_opt truthy_str ?x] => destruct x as [[|c s]|] end;
    simpl; intros [= <- <-]; discriminate.
Qed.

Lemma dns_source_router dnsServer gateway :
  dnsServer <> Some "" ->
  dns_source dnsServer gateway = router <->
  exists a, dnsServer = Some a /\ gateway = Some a.
Proof.
  intros N. unfold dns_source. destruct dnsServer as [[|c s]|]; [congruence| |]; simpl.
  - destruct gateway as [[|c' g]|]; simpl.
    + split; [discriminate|]. intros (a & [= <-] & [=]).
    + case_bool_decide as D.
      * split; [|reflexivity]. intros _. exists (String c s). split; [reflexivity|congruence].
      * split; [discriminate|]. intros (a & [= <-] & E). congruence.
    + split; [discriminate|]. intros (a & _ & [=]).
  - split; [discriminate|]. intros (a & [=] & _).
Qed.

(** C10.  In every report the DNS source is "router" exactly when the DNS
    server and the gateway address are both present and are the same string,
    and "system" in every other case. *)
Theorem dns_source_classification options h output e :
  fst (main options h) = Completed output e ->
  let server := OutputData.server (OutputData.dns output) in
  let gateway := OutputData.gateway (OutputData.router output) in
  let source := OutputData.source (OutputData.dns output) in
  (source = router <-> exists a, server = Some a /\ gateway = Some a) /\
  (source = system <-> ~ exists a, server = Some a /\ gateway = Some a).
Proof.
  intros H. apply main_Completed in H as (count & t & H).
  apply collect_Ok in H
    as (wifi & gateway & dnsServer & routerPing & internetPing & dnsResult & speedtest
        & t1 & t2 & t3 & t4 & t5 & t6 & t7 & _ & _ & H3 & _ & _ & _ & _ & -> & _ & _).
  apply getDnsServer_nonempty in H3. simpl.
  pose proof (dns_source_router dnsServer gateway H3) as R.
  split; [exact R|].
  destruct (dns_source dnsServer gateway); split; try discriminate; try reflexivity.
  - intros N. exfalso. apply N, R. reflexivity.
  - intros _ P. apply R in P. discriminate.
Qed.

Lemma dns_source_classification_witness :
  fst (main default_options healthy_host) = Completed (sample_report sample_wifi) false
  /\ (OutputData.source (OutputData.dns (sample_report sample_wifi)) = router <->
      exists a, OutputData.server (OutputData.dns (sample_report sample_wifi)) = Some a /\
                OutputData.gateway (OutputData.router (sample_report sample_wifi)) = Some a).
Proof.
  split; [vm_compute; reflexivity|].
  apply (dns_source_classification default_options healthy_host (sample_report sample_wifi) false).
  vm_compute. reflexivity.
Defined.

(** The signal, statement by statement. *)
Lemma hadError_true options wifi gateway dnsServer routerPing internetPing dnsResult speedtest :
  hadError options wifi gateway dnsServer routerPing internetPing dnsResult speedtest = true <->
  wifi = None \/ truthy_opt truthy_str gateway = false
  \/ truthy_opt truthy_str dnsServer = false
  \/ routerPing = None \/ internetPing = None \/ dnsResult = None
  \/ truthy_opt truthy_str (routerPing ≫= PingResult.error) = true
  \/ truthy_opt truthy_str (internetPing ≫= PingResult.error) = true
  \/ truthy_opt truthy_str (dnsResult ≫= DnsLookupResult.error) = true
  \/ (Options.speedtest options = true
      /\ truthy_opt truthy_str (speedtest ≫= SpeedTestResult.error) = true).
Proof.
  unfold hadError.
  destruct (Options.speedtest options),
    (truthy_opt truthy_str (speedtest ≫= SpeedTestResult.error)),
    (truthy_opt truthy_str (routerPing ≫= PingResult.error)),
    (truthy_opt truthy_str (internetPing ≫= PingResult.error)),
    (truthy_opt truthy_str (dnsResult ≫= DnsLookupResult.error)),
    (truthy_opt truthy_str gateway), (truthy_opt truthy_str dnsServer),
    wifi, routerPing, internetPing, dnsResult; simpl;
    try (split; [intros _; tauto | reflexivity]);
    (split; [discriminate|]); intuition discriminate.
Qed.

(** ** What each probe returns and calls *)

#[local] Arguments parsePingStats : simpl never.
#[local] Arguments search : simpl never.
#[local] Arguments or_str : simpl never.
#[local] Arguments truthy_opt : simpl never.

Lemma pingHost_run host count h :
  let o := execFile h "ping" ["-n"; "-c"; String_of count; host] exec_options in
  let stats := parsePingStats (stdout_of o) in
  pingHost host count h =
  if negb (truthy_opt truthy_num (avgMs stats)) && negb (resolved o)
  then (Ok (PingResult.mk host None None None count
              (Some (or_str (Some (stderr_of o)) "ping failed"))),
        [Log info "collect.ping.start";
         Spawn "ping" ["-n"; "-c"; String_of count; host] exec_options;
         Log error "collect.ping.error"])
  else (Ok (PingResult.mk host (avgMs stats) (jitterMs stats) (lossPct stats) count
              (if resolved o then None else Some (stderr_of o))),
        [Log info "collect.ping.start";
         Spawn "ping" ["-n"; "-c"; String_of count; host] exec_options;
         Log success "collect.ping.success"]).
Proof.
  intros o stats. subst stats.
  unfold pingHost, mbind, eff_bind, log. rewrite runCommand_run. fold exec_options. fold o.
  simpl. destruct o as [out err|err]; simpl.
  - rewrite andb_false_r. reflexivity.
  - rewrite andb_true_r.
    match goal with |- context [negb ?b] => destruct (negb b) end; reflexivity.
Qed.

Lemma dnsLookup_run host server h :
  let o := execFile h "dig" (dig_args host server) exec_options in
  let lookupMs := (fun m => parseInt_v (group m 1)) <$> search queryTimeRe (stdout_of o) in
  dnsLookup host server h =
  match lookupMs with
  | None =>
      (Ok (DnsLookupResult.mk host server None
             (Some (or_str (Some (stderr_of o)) "dns lookup failed"))),
       [Log info "collect.dns-lookup.start"; Spawn "dig" (dig_args host server) exec_options;
        Log error "collect.dns-lookup.error"])
  | Some _ =>
      (Ok (DnsLookupResult.mk host server lookupMs
             (if resolved o then None else Some (stderr_of o))),
       [Log info "collect.dns-lookup.start"; Spawn "dig" (dig_args host server) exec_options;
        Log success "collect.dns-lookup.success"])
  end.
Proof.
  intros o lookupMs. subst lookupMs.
  unfold dnsLookup, mbind, eff_bind, log.
  assert (match server with
          | Some sv => if truthy_str sv
                       then ["+stats"; "+tries=1"; "+time=2"; host] ++ ["@" +:+ sv]
                       else ["+stats"; "+tries=1"; "+time=2"; host]
          | None => ["+stats"; "+tries=1"; "+time=2"; host]
          end = dig_args host server) as ->.
  { unfold dig_args. destruct server as [sv|]; [destruct (truthy_str sv)|]; reflexivity. }
  rewrite runCommand_run. fold exec_options. fold o. simpl.
  destruct (search queryTimeRe (stdout_of o)) as [m|]; simpl; destruct o; reflexivity.
Qed.

Lemma getDnsServer_run h :
  let o := execFile h "scutil" ["--dns"] exec_options in
  let server := m ← search nameserverRe (stdout_of o); group m 1 in
  getDnsServer h =
  if truthy_opt truthy_str server
  then (Ok server, [Log info "collect.dns-server.start"; Spawn "scutil" ["--dns"] exec_options;
                    Log success "collect.dns-server.success"])
  else (Ok None, [Log info "collect.dns-server.start"; Spawn "scutil" ["--dns"] exec_options;
                  Log error "collect.dns-server.error"]).
Proof.
  intros o server. subst server.
  unfold getDnsServer. rewrite !eff_bind_run, runCommand_run. fold exec_options. fold o.
  unfold log. simpl. destruct (truthy_opt truthy_str _); reflexivity.
Qed.

Lemma gatewayRe_group output m : search gatewayRe output = Some m -> exists x, group m 1 = Some x.
Proof.
  intros H. apply search_Some in H as (pre & t & rest & _ & M).
  unfold gatewayRe in M. simpl in M.
  destruct M as (m1 & m2 & c1 & c2 & _ & -> & [_ ->] & (c3 & -> & (_ & _ & ->))).
  simpl. eauto.
Qed.

Lemma getDefaultGateway_run h :
  let o := execFile h "route" ["-n"; "get"; "default"] exec_options in
  let gateway := m ← search gatewayRe (stdout_of o); trim <$> group m 1 in
  getDefaultGateway h =
  if truthy_opt truthy_str gateway
  then (Ok gateway, [Log info "collect.gateway.start";
                     Spawn "route" ["-n"; "get"; "default"] exec_options;
                     Log success "collect.gateway.success"])
  else (Ok None, [Log info "collect.gateway.start";
                  Spawn "route" ["-n"; "get"; "default"] exec_options;
                  Log error "collect.gateway.error"]).
Proof.
  intros o gateway. subst gateway.
  unfold getDefaultGateway. rewrite !eff_bind_run, runCommand_run.
  fold exec_options. fold o. unfold log. simpl. rewrite eff_bind_run. unfold lift.
  destruct (search gatewayRe (stdout_of o)) as [m|] eqn:E; simpl; [|reflexivity].
  destruct (gatewayRe_group _ _ E) as [x ->]. simpl.
  destruct (truthy_opt truthy_str (Some (trim x))); reflexivity.
Qed.

Lemma runSpeedTest_run h :
  let o := execFile h "networkQuality" ["-c"] exec_options in
  runSpeedTest h =
  if resolved o then
    match JSON_parse h (stdout_of o) with
    | SyntaxError _ =>
        (Ok (speedtest_failure "networkQuality output parse failed"),
         [Log info "collect.speedtest.start"; Spawn "networkQuality" ["-c"] exec_options;
          Log error "collect.speedtest.parse-error"])
    | JsonNull =>
        (Throw "TypeError: cannot read properties of null",
         [Log info "collect.speedtest.start"; Spawn "networkQuality" ["-c"] exec_options])
    | JsonValue parsed =>
        (Ok (SpeedTestResult.mk
               (when_num (dl_throughput parsed) (fun x => Some (round_mega x)))
               (when_num (ul_throughput parsed) (fun x => Some (round_mega x)))
               (base_rtt parsed) (responsiveness parsed)
               (interface_name parsed) (test_endpoint parsed)
               (Some (SpeedTestResult.mk_raw (start_date parsed) (end_date parsed)
                        (os_version parsed)))
               None),
         [Log info "collect.speedtest.start"; Spawn "networkQuality" ["-c"] exec_options;
          Log success "collect.speedtest.success"])
    end
  else
    (Ok (speedtest_failure (or_str (Some (stderr_of o)) "networkQuality failed")),
     [Log info "collect.speedtest.start"; Spawn "networkQuality" ["-c"] exec_options;
      Log error "collect.speedtest.error"]).
Proof.
  intros o. unfold runSpeedTest, mbind, eff_bind, log. rewrite runCommand_run.
  fold exec_options. fold o. simpl.
  destruct o as [out err|err]; simpl; [|reflexivity].
  unfold json_parse. destruct (JSON_parse h (default "" out)); reflexivity.
Qed.

(** ** The "had error" signal *)

Lemma truthy_carries {A} (err : A -> option string) (r : option A) :
  (forall a, r = Some a -> err a <> Some "") ->
  truthy_opt truthy_str (r ≫= err) = true <-> carries_error err r.
Proof.
  intros N. unfold carries_error. destruct r as [a|]; simpl.
  - specialize (N a eq_refl). destruct (err a) as [[|c s]|] eqn:E; simpl.
    + congruence.
    + split; [eauto|reflexivity].
    + split; [discriminate|]. intros (a' & msg & [= <-] & E'). congruence.
  - split; [discriminate|]. intros (a & msg & [=] & _).
Qed.

Lemma runSpeedTest_error h st t :
  runSpeedTest h = (Ok st, t) -> SpeedTestResult.error st <> Some "".
Proof.
  rewrite runSpeedTest_run.
  destruct (resolved _).
  - destruct (JSON_parse h _); intros [= <- _]; discriminate.
  - intros [= <- _]. simpl. unfold or_str.
    destruct (truthy_str _) eqn:E; [|discriminate].
    intros [= E']. rewrite E' in E. discriminate.
Qed.

Lemma fmap_Some_Ok {A} (m : Eff A) h r t :
  (Some <$> m) h = (Ok r, t) -> exists a, r = Some a /\ m h = (Ok a, t).
Proof.
  unfold fmap, eff_fmap. intros H. apply eff_bind_Ok in H as (a & t1 & t2 & H1 & H2 & ->).
  unfold mret, eff_ret in H2. simplify_eq. rewrite app_nil_r. eauto.
Qed.

(** C1 (amended).  For every completed run in which no ping or lookup result
    carries an empty error string, the signal is true exactly when the Wi-Fi
    record, the gateway, the DNS server, or one of the ping and lookup results
    is null, or a ping or lookup result carries an error, or the speed test
    was requested and its outcome carries an error.  Whether the numeric
    fields of a record are null plays no part. *)
Theorem hadError_signal options h output e :
  fst (main options h) = Completed output e ->
  (forall p, OutputData.router_ping (OutputData.router output) = Some p \/
             OutputData.internet_ping (OutputData.internet output) = Some p ->
             PingResult.error p <> Some "") ->
  (forall d, OutputData.lookup (OutputData.dns output) = Some d ->
             DnsLookupResult.error d <> Some "") ->
  e = true <-> reports_failure output.
Proof.
  intros H. apply main_Completed in H as (count & t & H).
  apply collect_Ok in H
    as (wifi & gateway & dnsServer & routerPing & internetPing & dnsResult & speedtest
        & t1 & t2 & t3 & t4 & t5 & t6 & t7 & _ & _ & H3 & H4 & _ & _ & H7 & -> & -> & _).
  unfold reports_failure. simpl. intros Hp Hd. apply getDnsServer_nonempty in H3.
  rewrite hadError_true.
  rewrite (truthy_carries PingResult.error routerPing) by (intros; apply Hp; auto).
  rewrite (truthy_carries PingResult.error (Some internetPing)) by (intros; apply Hp; auto).
  rewrite (truthy_carries DnsLookupResult.error (Some dnsResult)) by (intros; apply Hd; auto).
  assert (Options.speedtest options = true ->
          forall a, speedtest = Some a -> SpeedTestResult.error a <> Some "") as Hs.
  { intros Es a ->. rewrite Es in H7. apply fmap_Some_Ok in H7 as (a' & [= <-] & H7).
    eapply runSpeedTest_error; eauto. }
  assert (truthy_opt truthy_str dnsServer = false <-> dnsServer = None) as ->.
  { destruct dnsServer as [[|c s]|]; [congruence| |]; unfold truthy_opt; simpl;
      split; congruence. }
  assert (truthy_opt truthy_str gateway = false \/ routerPing = None <->
          gateway = None \/ routerPing = None) as G.
  { destruct gateway as [[|c s]|]; unfold truthy_opt; simpl in *.
    - unfold mret, eff_ret in H4. simplify_eq. tauto.
    - split; intros [?|?]; auto; discriminate.
    - tauto. }
  destruct (Options.speedtest options) eqn:Es.
  - rewrite (truthy_carries SpeedTestResult.error speedtest) by auto. tauto.
  - split; intros; intuition discriminate.
Qed.

Lemma hadError_signal_witness :
  fst (main default_options offline_host) = Completed offline_report true
  /\ (true = true <-> reports_failure offline_report).
Proof.
  split; [vm_compute; reflexivity|].
  apply (hadError_signal default_options offline_host offline_report true).
  - vm_compute. reflexivity.
  - intros p [H|H]; simpl in H; [discriminate|]. injection H as <-. discriminate.
  - intros d H. simpl in H. injection H as <-. discriminate.
Defined.

(** C1, as the specification words it, fails: when the adapter tool reports
    that the radio is off, every numeric field of the Wi-Fi record is null,
    which the specification counts as a failed probe, and the signal is
    false. *)
Lemma hadError_misses_all_null_record :
  fst (main default_options wifi_off_host) = Completed (sample_report empty_wifi) false
  /\ ~ (false = true <-> spec_hadError (sample_report empty_wifi)).
Proof.
  split; [vm_compute; reflexivity|].
  intros [_ H]. discriminate H.
  left. simpl. right. repeat split.
Qed.

(** The assumption on error strings is needed: a ping that fails with an
    empty standard error text after printing statistics yields results whose
    error is the empty string, and the signal stays false. *)
Remark empty_error_string_passes :
  exists output,
    fst (main default_options silent_failure_host) = Completed output false
    /\ carries_error PingResult.error (OutputData.internet_ping (OutputData.internet output)).
Proof.
  eexists. split; [vm_compute; reflexivity|]. eexists _, "". split; reflexivity.
Qed.

(** ** The ping probe *)

(** C2 (the code departs from the claim).  The ping utility fails after
    printing statistics with an average of zero: the parser extracts the
    average 0, the jitter 0 and the loss 0, and the probe discards all three
    and returns the error outcome. *)
Theorem pingHost_discards_zero_average :
  parsePingStats zero_latency_output =
    {| avgMs := Some (Num 0.000); jitterMs := Some (Num 0.000); lossPct := Some (Num 0.0) |}
  /\ resolved (execFile zero_latency_host "ping" ["-n"; "-c"; "1"; "127.0.0.1"] exec_options) = false
  /\ fst (pingHost "127.0.0.1" 1 zero_latency_host) =
     Ok (PingResult.mk "127.0.0.1" None None None 1 (Some "ping failed")).
Proof. vm_compute. auto. Qed.

(** What the probe does in general: the error outcome exactly when the
    process failed and the average is null, zero or not a number; the parsed
    statistics with the advisory error otherwise. *)
Lemma pingHost_policy host count h :
  let o := execFile h "ping" ["-n"; "-c"; String_of count; host] exec_options in
  let stats := parsePingStats (stdout_of o) in
  (resolved o = false -> truthy_opt truthy_num (avgMs stats) = false ->
   fst (pingHost host count h) =
   Ok (PingResult.mk host None None None count (Some (or_str (Some (stderr_of o)) "ping failed"))))
  /\ (resolved o = true ->
      fst (pingHost host count h) =
      Ok (PingResult.mk host (avgMs stats) (jitterMs stats) (lossPct stats) count None))
  /\ (resolved o = false -> truthy_opt truthy_num (avgMs stats) = true ->
      fst (pingHost host count h) =
      Ok (PingResult.mk host (avgMs stats) (jitterMs stats) (lossPct stats) count
            (Some (stderr_of o)))).
Proof.
  intros o stats. rewrite pingHost_run. fold o. fold stats.
  repeat split; intros H; try intros H'; rewrite H; try rewrite H'; simpl;
    try rewrite andb_false_r; reflexivity.
Qed.

(** ** The speed test *)

(** C6 (the code departs from the claim).  A download and an upload
    throughput of zero bits per second come out as null, exactly as when the
    output has no throughput fields. *)
Theorem runSpeedTest_zero_throughput_is_null :
  (exists r, fst (runSpeedTest zero_speed_host) = Ok r
             /\ SpeedTestResult.downloadMbps r = None /\ SpeedTestResult.uploadMbps r = None
             /\ SpeedTestResult.error r = None)
  /\ fst (runSpeedTest zero_speed_host) = fst (runSpeedTest idle_speed_host).
Proof. split; [eexists; split; [vm_compute; reflexivity|auto]|vm_compute; reflexivity]. Qed.

(** The normalization of a throughput that is present and not zero. *)
Lemma runSpeedTest_normalizes h parsed :
  resolved (execFile h "networkQuality" ["-c"] exec_options) = true ->
  JSON_parse h (stdout_of (execFile h "networkQuality" ["-c"] exec_options)) = JsonValue parsed ->
  exists r, fst (runSpeedTest h) = Ok r /\
    (forall q, dl_throughput parsed = Some (Num q) -> ~ (q == 0)%Q ->
       SpeedTestResult.downloadMbps r = Some (of_Z (Qfloor (q / 1000000 + (1 # 2))%Q))) /\
    (forall q, ul_throughput parsed = Some (Num q) -> ~ (q == 0)%Q ->
       SpeedTestResult.uploadMbps r = Some (of_Z (Qfloor (q / 1000000 + (1 # 2))%Q))) /\
    (dl_throughput parsed = None -> SpeedTestResult.downloadMbps r = None) /\
    (ul_throughput parsed = None -> SpeedTestResult.uploadMbps r = None).
Proof.
  intros R J. rewrite runSpeedTest_run, R, J. simpl. eexists. split; [reflexivity|]. simpl.
  assert (forall q, ~ (q == 0)%Q -> negb (Qeq_bool q 0) = true) as T.
  { intros q N. destruct (Qeq_bool q 0) eqn:E; [|reflexivity].
    apply Qeq_bool_iff in E. contradiction. }
  repeat split.
  - intros q -> N. simpl. rewrite (T q N). reflexivity.
  - intros q -> N. simpl. rewrite (T q N). reflexivity.
  - intros ->. reflexivity.
  - intros ->. reflexivity.
Qed.

(** C8 (amended).  When the process fails the outcome has all metrics null
    and carries the standard error text of the process, or "networkQuality
    failed" when that text is empty; when the process succeeds and its output
    does not decode the outcome carries "networkQuality output parse failed".
    The two errors differ unless the standard error text of the failed
    process is itself that message, and the log entries of the two modes
    always differ. *)
Theorem speedtest_failure_modes h1 h2 message :
  resolved (speedtest_outcome h1) = false ->
  resolved (speedtest_outcome h2) = true ->
  JSON_parse h2 (stdout_of (speedtest_outcome h2)) = SyntaxError message ->
  fst (runSpeedTest h1) =
    Ok (speedtest_failure (or_str (Some (stderr_of (speedtest_outcome h1))) "networkQuality failed"))
  /\ fst (runSpeedTest h2) = Ok (speedtest_failure "networkQuality output parse failed")
  /\ (stderr_of (speedtest_outcome h1) <> "networkQuality output parse failed" ->
      fst (runSpeedTest h1) <> fst (runSpeedTest h2))
  /\ In (Log error "collect.speedtest.error") (snd (runSpeedTest h1))
  /\ ~ In (Log error "collect.speedtest.error") (snd (runSpeedTest h2))
  /\ In (Log error "collect.speedtest.parse-error") (snd (runSpeedTest h2))
  /\ ~ In (Log error "collect.speedtest.parse-error") (snd (runSpeedTest h1)).
Proof.
  unfold speedtest_outcome. intros R1 R2 J.
  rewrite !runSpeedTest_run, R1, R2, J. simpl.
  repeat split; auto.
  - intros N [= E]. apply N. unfold or_str in E.
    destruct (truthy_str _); [assumption|discriminate].
  - intros [H|[H|[H|[]]]]; discriminate.
  - intros [H|[H|[H|[]]]]; discriminate.
Qed.

Lemma speedtest_failure_modes_witness :
  fst (runSpeedTest offline_host) = Ok (speedtest_failure "networkQuality failed")
  /\ fst (runSpeedTest garbled_speed_host) = Ok (speedtest_failure "networkQuality output parse failed")
  /\ fst (runSpeedTest offline_host) <> fst (runSpeedTest garbled_speed_host).
Proof.
  destruct (speedtest_failure_modes offline_host garbled_speed_host "Unexpected token")
    as (H1 & H2 & H3 & _); [reflexivity|reflexivity|reflexivity|].
  split; [exact H1|]. split; [exact H2|]. apply H3. discriminate.
Defined.

(** C8, as the specification words it, fails: a process failure whose
    standard error text is the parse-failure message gives the same outcome,
    error included, as output that does not decode. *)
Lemma speedtest_failure_modes_coincide :
  resolved (speedtest_outcome failing_speed_host) = false
  /\ resolved (speedtest_outcome garbled_speed_host) = true
  /\ JSON_parse garbled_speed_host (stdout_of (speedtest_outcome garbled_speed_host))
     = SyntaxError "Unexpected token"
  /\ fst (runSpeedTest failing_speed_host)
     = Ok (speedtest_failure "networkQuality output parse failed")
  /\ fst (runSpeedTest garbled_speed_host)
     = Ok (speedtest_failure "networkQuality output parse failed").
Proof. vm_compute. auto 6. Qed.

(** ** Process calls *)

Lemma calls_ok_ret {A} (a : A) : calls_ok (mret a).
Proof. intros h. constructor. Qed.

Lemma calls_ok_bind {A B} (m : Eff A) (f : A -> Eff B) :
  calls_ok m -> (forall a, calls_ok (f a)) -> calls_ok (m ≫= f).
Proof.
  intros Hm Hf h. rewrite eff_bind_run. specialize (Hm h).
  destruct (m h) as [[a|e] t]; [|exact Hm].
  specialize (Hf a h). destruct (f a h) as [b t']. simpl in *.
  apply Forall_app. auto.
Qed.

Lemma calls_ok_fmap {A B} (g : A -> B) (m : Eff A) : calls_ok m -> calls_ok (g <$> m).
Proof. intros H. apply calls_ok_bind; [assumption|]. intros a. apply calls_ok_ret. Qed.

Lemma calls_ok_log level message : calls_ok (log level message).
Proof. intros h. repeat constructor. Qed.

Lemma calls_ok_access path : calls_ok (check_access path).
Proof. intros h. repeat constructor. Qed.

Lemma calls_ok_json text : calls_ok (json_parse text).
Proof. intros h. constructor. Qed.

Lemma calls_ok_clock : calls_ok clock.
Proof. intros h. constructor. Qed.

Lemma calls_ok_lift {A} (m : Exc A) : calls_ok (lift m).
Proof. intros h. constructor. Qed.

Lemma calls_ok_throw {A} e : calls_ok (@throw A e).
Proof. intros h. constructor. Qed.

Lemma calls_ok_runCommand command args : calls_ok (runCommand command args ∅).
Proof. intros h. rewrite runCommand_run. repeat constructor. Qed.

Create HintDb calls.
#[local] Hint Resolve calls_ok_ret calls_ok_fmap calls_ok_log calls_ok_access calls_ok_json
  calls_ok_clock calls_ok_lift calls_ok_throw calls_ok_runCommand : calls.

Ltac calls_ok_tac :=
  repeat first
    [ solve [eauto with calls]
    | apply calls_ok_bind
    | progress intros
    | match goal with
      | |- calls_ok (match ?x with _ => _ end) => destruct x
      end ].

Lemma calls_ok_getAirportInfo : calls_ok getAirportInfo.
Proof. unfold getAirportInfo. calls_ok_tac. Qed.

Lemma calls_ok_getDefaultGateway : calls_ok getDefaultGateway.
Proof. unfold getDefaultGateway. calls_ok_tac. Qed.

Lemma calls_ok_pingHost host count : calls_ok (pingHost host count).
Proof. unfold pingHost. calls_ok_tac. Qed.

Lemma calls_ok_getDnsServer : calls_ok getDnsServer.
Proof. unfold getDnsServer. calls_ok_tac. Qed.

Lemma calls_ok_dnsLookup host server : calls_ok (dnsLookup host server).
Proof. unfold dnsLookup. calls_ok_tac. Qed.

Lemma calls_ok_runSpeedTest : calls_ok runSpeedTest.
Proof. unfold runSpeedTest. calls_ok_tac. Qed.

#[local] Hint Resolve calls_ok_getAirportInfo calls_ok_getDefaultGateway calls_ok_pingHost
  calls_ok_getDnsServer calls_ok_dnsLookup calls_ok_runSpeedTest : calls.

Lemma calls_ok_collect options count : calls_ok (collect options count).
Proof. unfold collect. calls_ok_tac. Qed.

Lemma calls_ok_main options h : Forall default_call (snd (main options h)).
Proof.
  unfold main. destruct (Options.samples options) as [|q]; [constructor|].
  destruct (Qle_bool q 0); [constructor|].
  pose proof (calls_ok_collect options (Qfloor q) h) as C.
  destruct (collect options (Qfloor q) h) as [[[o e]|msg] t]; simpl in *; [assumption|].
  apply Forall_app. split; [assumption|]. repeat constructor.
Qed.

(** C7 (amended).  No process call of a run is given a timeout: each is made
    with the encoding option alone.  The Process Runner hands the options of
    its caller, a timeout included, to the process call, never throws, and
    turns a failed call into an error outcome. *)
Theorem process_calls_carry_no_timeout options h :
  (forall command args o, In (Spawn command args o) (snd (main options h)) -> o = exec_options)
  /\ exec_options !! "timeout" = None
  /\ (forall command args opts h',
        exists r,
          runCommand command args opts h'
          = (Ok r, [Spawn command args (opts ∪ {[ "encoding" := "utf8" ]})])
          /\ (forall v, opts !! "timeout" = Some v ->
                (opts ∪ {[ "encoding" := "utf8" ]}) !! "timeout" = Some v)
          /\ (forall err,
                execFile h' command args (opts ∪ {[ "encoding" := "utf8" ]}) = Rejected err ->
                CommandResult.error r = Some err)).
Proof.
  split; [|split].
  - intros command args o H.
    pose proof (calls_ok_main options h) as C. rewrite Forall_forall in C.
    apply (C (Spawn command args o)). apply list_elem_of_In. exact H.
  - reflexivity.
  - intros command args opts h'. eexists. split; [apply runCommand_run|]. split.
    + intros v Hv. apply lookup_union_Some_l. exact Hv.
    + intros err ->. reflexivity.
Qed.

(** C7, as the specification words it, fails: the ping of the internet host
    is a process call without a timeout. *)
Lemma ping_call_without_timeout :
  In (Spawn "ping" ["-n"; "-c"; "12"; "1.1.1.1"] exec_options)
     (snd (main default_options healthy_host))
  /\ exec_options !! "timeout" = None
  /\ ~ Forall has_timeout (snd (main default_options healthy_host)).
Proof.
  assert (In (Spawn "ping" ["-n"; "-c"; "12"; "1.1.1.1"] exec_options)
             (snd (main default_options healthy_host))) as I.
  { vm_compute. do 15 right. left. reflexivity. }
  split; [exact I|]. split; [reflexivity|].
  intros F. rewrite Forall_forall in F. apply list_elem_of_In in I.
  apply F in I. simpl in I. destruct I as [v I]. discriminate I.
Qed.

(** ** Splitting at a separator *)

Lemma split_first sep a b :
  includes sep a = false -> split sep (a +:+ String sep b) = a :: split sep b.
Proof.
  induction a as [|c a IH]; simpl; intros H.
  - rewrite Ascii.eqb_refl. reflexivity.
  - rewrite ?sapp_cons. simpl. destruct (Ascii.eqb c sep); [discriminate|].
    rewrite (IH H). reflexivity.
Qed.

Lemma split_none sep s : includes sep s = false -> split sep s = [s].
Proof.
  induction s as [|c s IH]; simpl; intros H; [reflexivity|].
  destruct (Ascii.eqb c sep); [discriminate|]. rewrite (IH H). reflexivity.
Qed.

Lemma includes_first sep s :
  includes sep s = true -> exists a b, s = a +:+ String sep b /\ includes sep a = false.
Proof.
  induction s as [|c s IH]; simpl; intros H; [discriminate|].
  destruct (Ascii.eqb c sep) eqn:E.
  - apply Ascii.eqb_eq in E as ->. exists "", s. auto.
  - destruct (IH H) as (a & b & -> & Ha). exists (String c a), b. simpl. rewrite E. auto.
Qed.

Lemma join_split sep s : join (String sep "") (split sep s) = s.
Proof.
  induction s as [|c s IH]; simpl; [reflexivity|].
  destruct (split_cons sep s) as (x & l & E). rewrite E in IH |- *.
  destruct (Ascii.eqb c sep) eqn:Ec.
  - apply Ascii.eqb_eq in Ec as ->. simpl in IH |- *. rewrite IH. reflexivity.
  - destruct l as [|y l]; simpl in IH |- *.
    + rewrite IH. reflexivity.
    + rewrite sapp_cons, IH. reflexivity.
Qed.

(** ** The loop over the lines of the adapter tool *)

Lemma scan_line_plain data line : includes ":" line = false -> scan_line data line = Ok data.
Proof. unfold scan_line. intros ->. reflexivity. Qed.

Lemma scan_line_colon data a b :
  includes ":" a = false ->
  scan_line data (a +:+ ":" +:+ b) =
  Ok (if (String.length (trim a) =? 0)%nat then data else obj_set (trim a) (trim b) data).
Proof.
  intros H. unfold scan_line.
  assert (includes ":" (a +:+ ":" +:+ b) = true) as ->.
  { clear H. induction a as [|c a IH]; [reflexivity|]. rewrite sapp_cons. simpl.
    rewrite IH. destruct (Ascii.eqb c ":"); reflexivity. }
  simpl. change (":" +:+ b) with (String ":" b). rewrite (split_first ":" a b H).
  rewrite join_split. destruct (String.length (trim a) =? 0)%nat; reflexivity.
Qed.

Lemma key_value_colon line key value : key_value line key value -> includes ":" line = true.
Proof.
  intros (a & b & -> & _). induction a as [|c a IH]; [reflexivity|].
  rewrite sapp_cons. simpl. rewrite IH. destruct (Ascii.eqb c ":"); reflexivity.
Qed.

Section Lookup.
Variable key : string.
Hypothesis key_nonempty : key <> "".
Hypothesis key_plain : key <> "__proto__".

Lemma scan_line_other data line d :
  scan_line data line = Ok d -> (forall value, ~ key_value line key value) ->
  d !! key = data !! key.
Proof.
  intros S N. destruct (includes ":" line) eqn:I.
  - apply includes_first in I as (a & b & -> & Ha).
    change (String ":" b) with (":" +:+ b) in *.
    rewrite (scan_line_colon data a b Ha) in S. injection S as <-.
    destruct (String.length (trim a) =? 0)%nat; [reflexivity|].
    unfold obj_set. case_decide; [reflexivity|].
    apply lookup_insert_ne. intros E. apply (N (trim b)). exists a, b. auto.
  - rewrite (scan_line_plain data line I) in S. injection S as <-. reflexivity.
Qed.

Lemma scan_line_key data line value d :
  scan_line data line = Ok d -> key_value line key value -> d !! key = Some value.
Proof.
  intros S (a & b & -> & Ha & -> & ->).
  rewrite (scan_line_colon data a b Ha) in S. injection S as <-.
  destruct (trim a) as [|c k] eqn:E; [congruence|]. simpl.
  unfold obj_set. case_decide; [congruence|]. apply lookup_insert_eq.
Qed.

Lemma scan_lines_other data lines d :
  scan_lines data lines = Ok d -> ~ mentions key lines -> d !! key = data !! key.
Proof.
  revert data. induction lines as [|line lines IH]; simpl; intros data S N.
  - injection S as <-. reflexivity.
  - destruct (scan_line_total data line) as [d' E]. rewrite E in S. simpl in S.
    rewrite (IH d' S).
    + apply (scan_line_other data line d' E). intros value K. apply N.
      exists line, value. simpl. auto.
    + intros (l & value & I & K). apply N. exists l, value. simpl. auto.
Qed.

Lemma scan_lines_last data lines value d :
  scan_lines data lines = Ok d -> last_value key lines value -> d !! key = Some value.
Proof.
  intros S (l1 & line & l2 & -> & K & N). revert data S.
  induction l1 as [|x l1 IH]; simpl; intros data S.
  - destruct (scan_line_total data line) as [d' E]. rewrite E in S. simpl in S.
    rewrite (scan_lines_other d' l2 d S N). apply (scan_line_key data line value d' E K).
  - destruct (scan_line_total data x) as [d' E]. rewrite E in S. simpl in S.
    apply (IH d' S).
Qed.
End Lookup.

(** ** The adapter-format parser: channel and band *)

Lemma band_of_channel_5 ch :
  band_of_channel ch = Some "5 GHz" <-> exists q, ch = Some (Num q) /\ (14 < q)%Q.
Proof.
  unfold band_of_channel, when_num. destruct ch as [[|q]|]; simpl.
  - split; [discriminate|]. intros (q & [=] & _).
  - destruct (Qeq_bool q 0) eqn:Z; simpl.
    + split; [discriminate|]. intros (q' & [= <-] & L).
      apply Qeq_bool_iff in Z. rewrite Z in L. discriminate L.
    + destruct (Qcompare q (inject_Z 14)) eqn:C.
      * split; [discriminate|]. intros (q' & [= <-] & L).
        apply Qgt_alt in L. change (inject_Z 14) with 14%Q in C. congruence.
      * split; [discriminate|]. intros (q' & [= <-] & L).
        apply Qgt_alt in L. change (inject_Z 14) with 14%Q in C. congruence.
      * split; [|reflexivity]. intros _. exists q. split; [reflexivity|].
        apply Qgt_alt. exact C.
  - split; [discriminate|]. intros (q & [=] & _).
Qed.

Lemma band_of_channel_24 ch :
  band_of_channel ch = Some "2.4 GHz" <->
  exists q, ch = Some (Num q) /\ (q <= 14)%Q /\ ~ (q == 0)%Q.
Proof.
  unfold band_of_channel, when_num. destruct ch as [[|q]|]; simpl.
  - split; [discriminate|]. intros (q & [=] & _).
  - destruct (Qeq_bool q 0) eqn:Z; simpl.
    + split; [discriminate|]. intros (q' & [= <-] & _ & N).
      apply Qeq_bool_iff in Z. contradiction.
    + assert (~ (q == 0)%Q) as N.
      { intros E. apply Qeq_bool_iff in E. congruence. }
      destruct (Qcompare q (inject_Z 14)) eqn:C.
      * split; [|reflexivity]. intros _. exists q. repeat split; [|exact N].
        apply Qle_alt. change (inject_Z 14) with 14%Q in C. congruence.
      * split; [|reflexivity]. intros _. exists q. repeat split; [|exact N].
        apply Qle_alt. change (inject_Z 14) with 14%Q in C. congruence.
      * split; [discriminate|]. intros (q' & [= <-] & L & _).
        apply Qle_alt in L. change (inject_Z 14) with 14%Q in C. contradiction.
  - split; [discriminate|]. intros (q & [=] & _).
Qed.

Lemma band_of_channel_null ch :
  band_of_channel ch = None <->
  ch = None \/ ch = Some NaN \/ exists q, ch = Some (Num q) /\ (q == 0)%Q.
Proof.
  unfold band_of_channel, when_num. destruct ch as [[|q]|]; simpl.
  - split; auto.
  - destruct (Qeq_bool q 0) eqn:Z; simpl.
    + split; [|reflexivity]. intros _. right. right. exists q.
      split; [reflexivity|]. apply Qeq_bool_iff. exact Z.
    + split; [discriminate|]. intros [H|[H|(q' & [= <-] & E)]]; try discriminate.
      apply Qeq_bool_iff in E. congruence.
  - split; auto.
Qed.

Lemma leading_token_head value token :
  leading_token value token -> head (split "," value) = Some token.
Proof.
  intros [H [->|[rest ->]]].
  - rewrite (split_none "," token H). reflexivity.
  - change ("," +:+ rest) with (String "," rest). rewrite (split_first "," token rest H).
    reflexivity.
Qed.

Lemma leading_token_nonempty value token :
  leading_token value token -> token <> "" -> truthy_str value = true.
Proof.
  intros [_ [->|[rest ->]]] N; destruct token; try congruence; reflexivity.
Qed.

(** C4 (amended).  The adapter-format parser never throws.  The channel is
    the integer read at the start of what precedes the first comma of the
    value of the last channel line (not a number when no integer starts
    it), and null when nothing precedes the comma or no line gives a
    channel.  The band is a function of the channel alone: "5 GHz" when the channel is
    above 14, "2.4 GHz" for every other channel that is a number and not 0,
    and null exactly when the channel is null, not a number, or 0.  A value
    of 48,1 gives channel 48 and band "5 GHz"; a value of 6 gives band
    "2.4 GHz". *)
Theorem airport_channel_and_band output :
  exists w, parseAirportOutput output = Ok w
  /\ (forall value token,
        last_value "channel" (split "010" output) value ->
        leading_token value token -> token <> "" ->
        channel w = Some (parseInt token))
  /\ (forall value,
        last_value "channel" (split "010" output) value ->
        leading_token value "" -> channel w = None)
  /\ (~ mentions "channel" (split "010" output) -> channel w = None)
  /\ (band w = Some "5 GHz" <-> exists q, channel w = Some (Num q) /\ (14 < q)%Q)
  /\ (band w = Some "2.4 GHz" <->
      exists q, channel w = Some (Num q) /\ (q <= 14)%Q /\ ~ (q == 0)%Q)
  /\ (band w = None <->
      channel w = None \/ channel w = Some NaN
      \/ exists q, channel w = Some (Num q) /\ (q == 0)%Q)
  /\ (last_value "channel" (split "010" output) "48,1" ->
      channel w = Some (of_Z 48) /\ band w = Some "5 GHz")
  /\ (last_value "channel" (split "010" output) "6" ->
      channel w = Some (of_Z 6) /\ band w = Some "2.4 GHz").
Proof.
  unfold parseAirportOutput.
  destruct (scan_lines_total ∅ (split "010" output)) as [d S]. rewrite S. simpl.
  eexists. split; [reflexivity|]. simpl.
  assert (forall value, last_value "channel" (split "010" output) value ->
                        d !! "channel" = Some value) as L.
  { intros value.
    apply (scan_lines_last "channel" ltac:(discriminate) ltac:(discriminate) ∅ _ value d S). }
  split; [|split; [|split; [|split; [|split; [|split; [|split]]]]]].
  - intros value token Hv Ht N. rewrite (L value Hv). unfold when_str at 2.
    rewrite (leading_token_nonempty value token Ht N), (leading_token_head value token Ht).
    destruct token; [congruence|]. reflexivity.
  - intros value Hv Ht. rewrite (L value Hv). unfold when_str at 2.
    rewrite (leading_token_head value "" Ht). destruct (truthy_str value); reflexivity.
  - intros N. rewrite (scan_lines_other "channel" ∅ _ d S N).
    reflexivity.
  - apply band_of_channel_5.
  - apply band_of_channel_24.
  - apply band_of_channel_null.
  - intros Hv. rewrite (L _ Hv). split; reflexivity.
  - intros Hv. rewrite (L _ Hv). split; reflexivity.
Qed.

(** C4, as the specification words it, fails: a channel of 0 is not null
    and its band is null; so is a channel value without an integer, whose
    channel is not a number. *)
Lemma band_null_for_channel_zero :
  parseAirportOutput "channel: 0" = Ok channel_zero_wifi
  /\ band channel_zero_wifi = None
  /\ channel channel_zero_wifi <> None
  /\ parseAirportOutput "channel: auto" = Ok channel_nan_wifi
  /\ band channel_nan_wifi = None
  /\ channel channel_nan_wifi <> None.
Proof.
  split; [vm_compute; reflexivity|]. split; [reflexivity|]. split; [discriminate|].
  split; [vm_compute; reflexivity|]. split; [reflexivity|discriminate].
Qed.

(** ** Totality of the parsers *)

Ltac absent_pattern :=
  try reflexivity;
  match goal with
  | H : ~ occurs _ _ |- _ => apply search_None in H; try congruence; rewrite H; reflexivity
  end.

(** C9.  Each of the three parsers returns a record for every input text
    and never throws, and a field is null whenever the input has no line
    with its key (adapter format) or no occurrence of its pattern (the
    other two formats).  The band of the system report has two patterns:
    it is null when there is no channel line, and also when the annotation
    of the channel line has no figure followed by GHz. *)
Theorem parsers_total_null_on_absence (output : string) :
  (exists w, parseAirportOutput output = Ok w
     /\ (~ mentions "SSID" (split "010" output) -> ssid w = None)
     /\ (~ mentions "BSSID" (split "010" output) -> bssid w = None)
     /\ (~ mentions "agrCtlRSSI" (split "010" output) -> signalDbm w = None)
     /\ (~ mentions "agrCtlNoise" (split "010" output) -> noiseDbm w = None)
     /\ (~ mentions "channel" (split "010" output) -> channel w = None /\ band w = None)
     /\ (~ mentions "lastTxRate" (split "010" output) -> linkRateMbps w = None))
  /\ (exists w, parseSystemProfilerOutput output = Ok w
        /\ bssid w = None
        /\ (~ occurs ssidRe output -> ssid w = None)
        /\ (~ occurs signalRe output -> signalDbm w = None /\ noiseDbm w = None)
        /\ (~ occurs channelRe output -> channel w = None /\ band w = None)
        /\ (~ occurs transmitRe output -> linkRateMbps w = None)
        /\ (forall m annotation,
              search channelRe output = Some m -> group m 2 = Some annotation ->
              ~ occurs bandRe annotation -> band w = None))
  /\ (exists p, parsePingStats output = p
        /\ (~ occurs lossRe output -> lossPct p = None)
        /\ (~ occurs rttRe output -> avgMs p = None /\ jitterMs p = None)).
Proof.
  split; [|split].
  - unfold parseAirportOutput.
    destruct (scan_lines_total ∅ (split "010" output)) as [d S]. rewrite S. simpl.
    eexists. split; [reflexivity|]. simpl.
    assert (forall key, ~ mentions key (split "010" output) -> d !! key = None) as N.
    { intros key H. rewrite (scan_lines_other key ∅ _ d S H). apply lookup_empty. }
    repeat split; intros;
      match goal with H : ~ mentions _ _ |- _ => rewrite (N _ H) end; reflexivity.
  - unfold parseSystemProfilerOutput.
    assert (forall m annotation,
              search channelRe output = Some m -> group m 2 = Some annotation ->
              ~ occurs bandRe annotation ->
              match search channelRe output with
              | Some m =>
                  when_str (group m 2) (fun annotation =>
                    (fun bandMatch => ghz (group bandMatch 1)) <$> search bandRe annotation)
              | None => None
              end = None) as B.
    { intros m annotation -> -> N. apply search_None in N. unfold when_str. rewrite N.
      destruct (truthy_str annotation); reflexivity. }
    destruct (search ssidRe output) as [m|] eqn:E.
    + destruct (ssidRe_group _ _ E) as [x G]. rewrite G. simpl.
      eexists. split; [reflexivity|]. simpl.
      repeat split; intros; first [absent_pattern | eapply B; eassumption].
    + simpl. eexists. split; [reflexivity|]. simpl.
      repeat split; intros; first [absent_pattern | eapply B; eassumption].
  - eexists. split; [reflexivity|]. unfold parsePingStats. simpl.
    repeat split; intros; absent_pattern.
Qed.

(** A channel line whose annotation has no figure followed by GHz. *)
Example profiler_band_without_figure :
  exists w, parseSystemProfilerOutput "Channel: 48 (80MHz)" = Ok w
            /\ channel w = Some (of_Z 48) /\ band w = None.
Proof. eexists. split; [vm_compute; reflexivity|]. split; reflexivity. Qed.

(** ** Runs of a character class *)

Ltac sapp_norm :=
  repeat (rewrite sapp_assoc || rewrite sapp_cons || rewrite sapp_nil_l).
Ltac sapp_norm_in H :=
  repeat (rewrite sapp_assoc in H || rewrite sapp_cons in H || rewrite sapp_nil_l in H).





Lemma includes_app c s1 s2 : includes c (s1 +:+ s2) = includes c s1 || includes c s2.
Proof.
  induction s1 as [|d s1 IH]; [reflexivity|]. rewrite sapp_cons. simpl.
  destruct (Ascii.eqb d c); [reflexivity|exact IH].
Qed.


(** ** The two patterns of the ping statistics *)

Lemma lossRe_matches m c :
  matches lossRe m c <->
  exists t, m = t +:+ "% packet loss" /\ all cls_d_dot t = true /\ t <> "" /\ c = [(1%nat, t)].
Proof.
  unfold lossRe. simpl. split.
  - intros (m1 & m2 & c1 & c2 & -> & -> & (c3 & -> & A & N & ->) & -> & ->). eauto.
  - intros (t & -> & A & N & ->). exists t, "% packet loss", [(1%nat, t)], [].
    split; [reflexivity|]. split; [reflexivity|]. split; [exists []; auto|auto].
Qed.

Lemma rttRe_matches m c :
  matches rttRe m c <->
  exists t1 t2 t3 t4,
    m = rtt_line t1 t2 t3 t4
    /\ number_token t1 /\ number_token t2 /\ number_token t3 /\ number_token t4
    /\ c = [(1%nat, t1); (2%nat, t2); (3%nat, t3); (4%nat, t4)].
Proof.
  unfold rttRe, rtt_line, number_token. simpl. split.
  - intros (m0 & r0 & c0 & d0 & -> & -> & [-> ->] & M).
    destruct M as (t1 & r1 & c1 & d1 & -> & -> & (e1 & -> & A1 & N1 & ->) & M).
    destruct M as (s1 & r2 & c2 & d2 & -> & -> & [-> ->] & M).
    destruct M as (t2 & r3 & c3 & d3 & -> & -> & (e2 & -> & A2 & N2 & ->) & M).
    destruct M as (s2 & r4 & c4 & d4 & -> & -> & [-> ->] & M).
    destruct M as (t3 & r5 & c5 & d5 & -> & -> & (e3 & -> & A3 & N3 & ->) & M).
    destruct M as (s3 & r6 & c6 & d6 & -> & -> & [-> ->] & M).
    destruct M as (t4 & r7 & c7 & d7 & -> & -> & (e4 & -> & A4 & N4 & ->) & [-> ->]).
    exists t1, t2, t3, t4. simpl. auto 10.
  - intros (t1 & t2 & t3 & t4 & -> & [A1 N1] & [A2 N2] & [A3 N3] & [A4 N4] & ->).
    eexists _, _, [], _. split; [reflexivity|]. split; [reflexivity|]. split; [auto|].
    eexists _, _, [(1%nat, t1)], _. split; [reflexivity|]. split; [reflexivity|].
    split; [exists []; auto|].
    eexists _, _, [], _. split; [reflexivity|]. split; [reflexivity|]. split; [auto|].
    eexists _, _, [(2%nat, t2)], _. split; [reflexivity|]. split; [reflexivity|].
    split; [exists []; auto|].
    eexists _, _, [], _. split; [reflexivity|]. split; [reflexivity|]. split; [auto|].
    eexists _, _, [(3%nat, t3)], _. split; [reflexivity|]. split; [reflexivity|].
    split; [exists []; auto|].
    eexists _, _, [], _. split; [reflexivity|]. split; [reflexivity|]. split; [auto|].
    eexists _, _, [(4%nat, t4)], []. split; [reflexivity|]. split; [reflexivity|].
    split; [exists []; auto|auto].
Qed.





(** A text is taken off the front of [p] one character at a time, against
    the literal that starts the other side of [E]. *)
Ltac peel E p :=
  repeat (let c := fresh "c" in
          destruct p as [|c p];
          [ first [ congruence | rewrite sapp_nil_l in E; discriminate E ] | ];
          rewrite sapp_cons in E;
          let H := fresh "E" in
          (injection E as ? H; rename H into E; subst c)).







(** * Further properties of the code *)

(** ** The command line *)

Ltac in_list := apply (bool_decide_unpack _); vm_compute; exact I.

Lemma plain_truthy arg : plain arg -> truthy_str arg = true.
Proof. intros [N _]. destruct arg; [congruence|reflexivity]. Qed.

Lemma parse_loop_plain o u arg args :
  plain arg ->
  parse_loop o u (arg :: args)
  = parse_loop o (if starts_with_dash arg then u ++ [arg] else u) args.
Proof.
  intros P. pose proof (plain_truthy arg P) as T. destruct P as [_ R].
  simpl. rewrite T. simpl.
  repeat (case_bool_decide; [exfalso; apply R; subst arg; in_list|]).
  simpl. destruct (starts_with_dash arg); reflexivity.
Qed.

Lemma switched_other arg args o : arg ∉ toggles -> switched (arg :: args) o = switched args o.
Proof.
  intros N. unfold switched.
  assert (forall x, x ∈ toggles -> bool_decide (x ∈ arg :: args) = bool_decide (x ∈ args)) as E.
  { intros x Hx. apply bool_decide_ext. rewrite elem_of_cons. split; [|auto].
    intros [->|?]; [contradiction|assumption]. }
  rewrite !E by in_list. reflexivity.
Qed.

Lemma toggle_step o u arg args :
  arg ∈ toggles ->
  parse_loop o u (arg :: args) = parse_loop (switched [arg] o) u args.
Proof.
  unfold toggles. rewrite !elem_of_cons, elem_of_nil.
  intros [->|[->|[->|[->|[]]]]]; simpl; f_equal; unfold switched; simpl;
    destruct o as [j p sm ih rh dh sp nc]; simpl;
    rewrite ?orb_true_r, ?orb_false_r; reflexivity.
Qed.

Lemma switched_app l1 l2 o : switched (l1 ++ l2) o = switched l2 (switched l1 o).
Proof.
  unfold switched. simpl.
  assert (forall x b, b || bool_decide (x ∈ l1 ++ l2)
                      = b || bool_decide (x ∈ l1) || bool_decide (x ∈ l2)) as E.
  { intros x b. rewrite <- orb_assoc. f_equal.
    destruct (bool_decide (x ∈ l1)) eqn:E1, (bool_decide (x ∈ l2)) eqn:E2; simpl;
      [apply bool_decide_eq_true_2..|apply bool_decide_eq_false_2];
      rewrite elem_of_app;
      try apply bool_decide_eq_true_1 in E1; try apply bool_decide_eq_true_1 in E2;
      try apply bool_decide_eq_false_1 in E1; try apply bool_decide_eq_false_1 in E2; tauto. }
  rewrite !E. reflexivity.
Qed.

Lemma dashed_app l1 l2 : dashed (l1 ++ l2) = dashed l1 ++ dashed l2.
Proof. unfold dashed. apply filter_app. Qed.

Lemma dashed_toggle arg : arg ∈ toggles -> dashed [arg] = [].
Proof.
  intros H. unfold dashed. rewrite filter_cons. rewrite decide_False; [reflexivity|]. tauto.
Qed.

Lemma dashed_plain arg :
  plain arg -> dashed [arg] = if starts_with_dash arg then [arg] else [].
Proof.
  intros [_ R]. unfold dashed. rewrite filter_cons.
  assert (arg ∉ toggles) as N.
  { intros H. apply R. unfold recognised. apply elem_of_app. auto. }
  destruct (starts_with_dash arg).
  - rewrite decide_True; [reflexivity|auto].
  - rewrite decide_False; [reflexivity|]. intros [? _]. discriminate.
Qed.

(** The loop over arguments that are plain or options without a value. *)
Lemma parse_loop_simple pre rest o u :
  Forall simple pre ->
  parse_loop o u (pre ++ rest) = parse_loop (switched pre o) (u ++ dashed pre) rest.
Proof.
  intros F. revert o u. induction F as [|arg pre S F IH]; intros o u.
  - simpl. unfold dashed. rewrite filter_nil, app_nil_r. f_equal.
    destruct o. unfold switched. simpl.
    rewrite !orb_false_r. reflexivity.
  - change (arg :: pre) with ([arg] ++ pre).
    rewrite switched_app, dashed_app, <- !app_assoc.
    change ([arg] ++ pre ++ rest) with (arg :: (pre ++ rest)). destruct S as [P|T].
    + rewrite (parse_loop_plain o u arg _ P), IH.
      rewrite (dashed_plain arg P).
      assert (switched [arg] o = o) as ->.
      { rewrite switched_other.
        - destruct o. unfold switched. simpl. rewrite !orb_false_r. reflexivity.
        - intros H. destruct P as [_ R]. apply R. unfold recognised. apply elem_of_app. auto. }
      destruct (starts_with_dash arg); rewrite <- ?app_assoc; reflexivity.
    + rewrite (toggle_step o u arg _ T), IH, (dashed_toggle arg T). reflexivity.
Qed.

Ltac simple_arg :=
  first [ right; in_list
        | left; split;
          [ discriminate
          | let H := fresh in
            intros H; apply (bool_decide_pack _) in H; vm_compute in H; exact H ] ].
Ltac simple_args := repeat (apply List.Forall_cons; [simple_arg|]); apply List.Forall_nil.

Lemma switched_nil o : switched [] o = o.
Proof. destruct o. unfold switched. simpl. rewrite !orb_false_r. reflexivity. Qed.

Lemma parse_loop_nil o u : parse_loop o u [] = ParseResult.mk o None None (Some u).
Proof. reflexivity. Qed.

Lemma parse_loop_simple_all l o u :
  Forall simple l ->
  parse_loop o u l = ParseResult.mk (switched l o) None None (Some (u ++ dashed l)).
Proof.
  intros F. rewrite <- (app_nil_r l) at 1. rewrite (parse_loop_simple l [] _ _ F).
  reflexivity.
Qed.

(** X1.  When every argument is either an option without a value (--json,
    --pretty, --no-color, --speedtest) or is not an option of the program,
    parseArgs switches on the options that occur, in any order and however
    often, reports the other arguments that start with a dash as unknown, in
    their order, and ignores the rest. *)
Theorem parseArgs_simple argv :
  Forall simple argv ->
  parseArgs argv
  = ParseResult.mk (switched argv default_options) None None (Some (dashed argv)).
Proof.
  intros F. unfold parseArgs. rewrite (parse_loop_simple_all argv _ _ F). reflexivity.
Qed.

Lemma parseArgs_simple_witness :
  parseArgs ["--json"; "--bogus"; "extra"; "--speedtest"; "--json"; "-x"]
  = ParseResult.mk
      (Options.mk true false (of_Z 12) "1.1.1.1" None "cloudflare.com" true false)
      None None (Some ["--bogus"; "-x"]).
Proof.
  rewrite parseArgs_simple; [vm_compute; reflexivity|simple_args].
Defined.

(** X2.  A help option ends the parsing at once: whatever unknown options
    precede it, and whatever follows, the program shows the help and runs
    nothing; the version option does the same with the version. *)
Theorem cli_help_first pre post version h :
  Forall simple pre ->
  cli (pre ++ "-h" :: post) version h = HelpShown
  /\ cli (pre ++ "--help" :: post) version h = HelpShown
  /\ cli (pre ++ "--version" :: post) version h
     = match version with
       | Ok v => VersionShown v
       | Throw message => VersionFailed message
       end.
Proof.
  intros F. unfold cli, parseArgs. rewrite !(parse_loop_simple pre _ _ _ F).
  repeat split.
Qed.

Lemma cli_help_first_witness :
  cli ["--bogus"; "--json"; "--help"; "--samples"; "0"] (Ok "1.0.0") offline_host = HelpShown.
Proof.
  apply (cli_help_first ["--bogus"; "--json"] ["--samples"; "0"] (Ok "1.0.0") offline_host).
  simple_args.
Defined.

Lemma switched_with_samples n l o :
  switched l (with_samples n o) = with_samples n (switched l o).
Proof. reflexivity. Qed.

Lemma parseInt_empty : parseInt "" = NaN.
Proof. reflexivity. Qed.

(** X3.  An option with a value takes the next argument as its value,
    whatever it looks like, and that argument is not read as an option:
    among arguments that are otherwise options without a value or not options,
    --samples v sets the sample count to parseInt(v), --internet-host v and
    --dns-host v set the host to v, and --router-host v sets the router host
    to v. *)
Theorem parseArgs_valued pre v post :
  Forall simple pre -> Forall simple post ->
  parseArgs (pre ++ "--samples" :: v :: post)
  = ParseResult.mk (with_samples (parseInt v) (switched (pre ++ post) default_options))
      None None (Some (dashed (pre ++ post)))
  /\ parseArgs (pre ++ "--internet-host" :: v :: post)
     = ParseResult.mk (with_internetHost v (switched (pre ++ post) default_options))
         None None (Some (dashed (pre ++ post)))
  /\ parseArgs (pre ++ "--router-host" :: v :: post)
     = ParseResult.mk (with_routerHost (Some v) (switched (pre ++ post) default_options))
         None None (Some (dashed (pre ++ post)))
  /\ parseArgs (pre ++ "--dns-host" :: v :: post)
     = ParseResult.mk (with_dnsHost v (switched (pre ++ post) default_options))
         None None (Some (dashed (pre ++ post))).
Proof.
  intros F1 F2. unfold parseArgs. rewrite !(parse_loop_simple pre _ _ _ F1).
  rewrite switched_app, dashed_app. simpl.
  rewrite !(parse_loop_simple_all post _ _ F2).
  repeat split. destruct v; reflexivity.
Qed.

Lemma parseArgs_valued_witness :
  parseArgs ["--json"; "--router-host"; "--speedtest"; "extra"]
  = ParseResult.mk
      (Options.mk true false (of_Z 12) "1.1.1.1" (Some "--speedtest") "cloudflare.com" false false)
      None None (Some []).
Proof.
  destruct (parseArgs_valued ["--json"] "--speedtest" ["extra"]) as (_ & _ & H & _).
  - simple_args.
  - simple_args.
  - vm_compute in H. vm_compute. exact H.
Defined.

(** X4.  An option with a value that is the last argument gets no value:
    the sample count becomes NaN, the internet and DNS hosts the empty
    string, the router host null.  An empty argument ends the parsing: what
    follows it is ignored. *)
Theorem parseArgs_missing_value pre post :
  Forall simple pre ->
  parseArgs (pre ++ ["--samples"])
  = ParseResult.mk (with_samples NaN (switched pre default_options)) None None
      (Some (dashed pre))
  /\ parseArgs (pre ++ ["--internet-host"])
     = ParseResult.mk (with_internetHost "" (switched pre default_options)) None None
         (Some (dashed pre))
  /\ parseArgs (pre ++ ["--router-host"])
     = ParseResult.mk (with_routerHost None (switched pre default_options)) None None
         (Some (dashed pre))
  /\ parseArgs (pre ++ ["--dns-host"])
     = ParseResult.mk (with_dnsHost "" (switched pre default_options)) None None
         (Some (dashed pre))
  /\ parseArgs (pre ++ "" :: post) = parseArgs pre.
Proof.
  intros F. unfold parseArgs.
  rewrite !(parse_loop_simple pre _ _ _ F), (parse_loop_simple_all pre _ _ F).
  repeat split.
Qed.

Lemma parseArgs_missing_value_witness :
  parseArgs ["--json"; ""; "--samples"; "3"; "--bogus"] = parseArgs ["--json"].
Proof.
  apply (parseArgs_missing_value ["--json"] ["--samples"; "3"; "--bogus"]).
  simple_args.
Defined.

(** ** Exceptions of the probes *)

Lemma never_throws_ret {A} (a : A) : never_throws (mret a).
Proof. intros h. exists a, []. reflexivity. Qed.

Lemma never_throws_bind {A B} (m : Eff A) (f : A -> Eff B) :
  never_throws m -> (forall a, never_throws (f a)) -> never_throws (m ≫= f).
Proof.
  intros Hm Hf h. destruct (Hm h) as (a & t & E). destruct (Hf a h) as (b & t' & E').
  exists b, (t ++ t'). rewrite eff_bind_run, E, E'. reflexivity.
Qed.

Lemma never_throws_fmap {A B} (g : A -> B) (m : Eff A) : never_throws m -> never_throws (g <$> m).
Proof. intros H. apply never_throws_bind; [assumption|]. intros a. apply never_throws_ret. Qed.

Lemma never_throws_log level message : never_throws (log level message).
Proof. intros h. eexists _, _. reflexivity. Qed.

Lemma never_throws_clock : never_throws clock.
Proof. intros h. eexists _, _. reflexivity. Qed.

Lemma throws_bind {A B} (m : Eff A) (f : A -> Eff B) h :
  throws (m ≫= f) h <-> throws m h \/ exists a t, m h = (Ok a, t) /\ throws (f a) h.
Proof.
  unfold throws. rewrite eff_bind_run. destruct (m h) as [[a|e] t].
  - destruct (f a h) as [[b|e'] t'] eqn:E.
    + split.
      * intros (e & t0 & [=]).
      * intros [(e & t0 & [=])|(a' & t0 & [= <- <-] & e & t1 & E')]. congruence.
    + split; [|eauto]. intros _. right. exists a, t. split; [reflexivity|]. eauto.
  - split; [eauto|]. intros _. eauto.
Qed.

Lemma getAirportInfo_run h :
  fst (getAirportInfo h) =
  if access h AIRPORT_PATH && resolved (airport_outcome h)
  then Some <$> parseAirportOutput (stdout_of (airport_outcome h))
  else if resolved (profiler_outcome h)
       then Some <$> parseSystemProfilerOutput (stdout_of (profiler_outcome h))
       else Ok None.
Proof.
  unfold airport_outcome, profiler_outcome.
  remember (getAirportInfo h) as g eqn:E.
  unfold getAirportInfo, mbind, eff_bind, log, check_access in E.
  destruct (access h AIRPORT_PATH); simpl in E.
  - rewrite runCommand_run in E. fold exec_options in E.
    destruct (execFile h AIRPORT_PATH ["-I"] exec_options) as [out err|err]; simpl in E.
    + unfold lift in E. destruct (parseAirportOutput_total (default "" out)) as [w Hw].
      rewrite Hw in E. simpl in E. subst g. simpl. rewrite Hw. reflexivity.
    + rewrite runCommand_run in E. fold exec_options in E. fold PROFILER_ARGS in E.
      destruct (execFile h "system_profiler" PROFILER_ARGS exec_options) as [out2 err2|err2];
        simpl in E.
      * unfold lift in E.
        destruct (parseSystemProfilerOutput_total (default "" out2)) as [w Hw].
        rewrite Hw in E. simpl in E. subst g. simpl. rewrite Hw. reflexivity.
      * subst g. reflexivity.
  - rewrite runCommand_run in E. fold exec_options in E. fold PROFILER_ARGS in E.
    destruct (execFile h "system_profiler" PROFILER_ARGS exec_options) as [out2 err2|err2];
      simpl in E.
    + unfold lift in E.
      destruct (parseSystemProfilerOutput_total (default "" out2)) as [w Hw].
      rewrite Hw in E. simpl in E. subst g. simpl. rewrite Hw. reflexivity.
    + subst g. reflexivity.
Qed.

Lemma never_throws_getAirportInfo : never_throws getAirportInfo.
Proof.
  intros h. pose proof (getAirportInfo_run h) as R.
  destruct (getAirportInfo h) as [r t]. simpl in R. subst r.
  destruct (access h AIRPORT_PATH && resolved (airport_outcome h)).
  - destruct (parseAirportOutput_total (stdout_of (airport_outcome h))) as [w ->]. eauto.
  - destruct (resolved (profiler_outcome h)); [|eauto].
    destruct (parseSystemProfilerOutput_total (stdout_of (profiler_outcome h))) as [w ->]. eauto.
Qed.

Lemma never_throws_getDefaultGateway : never_throws getDefaultGateway.
Proof. intros h. rewrite getDefaultGateway_run. destruct (truthy_opt _ _); eauto. Qed.

Lemma never_throws_getDnsServer : never_throws getDnsServer.
Proof. intros h. rewrite getDnsServer_run. destruct (truthy_opt _ _); eauto. Qed.

Lemma never_throws_pingHost host count : never_throws (pingHost host count).
Proof. intros h. rewrite pingHost_run. destruct (_ && _); eauto. Qed.

Lemma never_throws_dnsLookup host server : never_throws (dnsLookup host server).
Proof. intros h. rewrite dnsLookup_run. destruct (_ <$> _); eauto. Qed.

Lemma throws_runSpeedTest h :
  throws runSpeedTest h <->
  resolved (speedtest_outcome h) = true
  /\ JSON_parse h (stdout_of (speedtest_outcome h)) = JsonNull.
Proof.
  unfold throws, speedtest_outcome. rewrite runSpeedTest_run.
  destruct (resolved _).
  - destruct (JSON_parse h _); split; try (intros (e & t & [=])); try (intros [_ [=]]); eauto.
  - split; [intros (e & t & [=])|intros [[=] _]].
Qed.

Lemma throws_never {A} (m : Eff A) h : never_throws m -> ~ throws m h.
Proof. intros N (e & t & E). destruct (N h) as (a & t' & E'). congruence. Qed.

Lemma throws_bind_const {A B} (m : Eff A) (f : A -> Eff B) h (P : Prop) :
  never_throws m -> (forall a, throws (f a) h <-> P) -> throws (m ≫= f) h <-> P.
Proof.
  intros N H. rewrite throws_bind. split.
  - intros [T|(a & t & _ & T)]; [destruct (throws_never m h N T)|apply (H a), T].
  - intros p. right. destruct (N h) as (a & t & E). exists a, t. split; [exact E|].
    apply H, p.
Qed.

Lemma throws_bind_tail {A B} (m : Eff A) (f : A -> Eff B) h :
  (forall a, never_throws (f a)) -> throws (m ≫= f) h <-> throws m h.
Proof.
  intros N. rewrite throws_bind. split; [|auto].
  intros [T|(a & t & _ & T)]; [exact T|destruct (throws_never (f a) h (N a) T)].
Qed.

Lemma throws_collect options count h :
  throws (collect options count) h <->
  Options.speedtest options = true /\ throws runSpeedTest h.
Proof.
  unfold collect.
  apply throws_bind_const; [apply never_throws_log|intros _].
  apply throws_bind_const; [apply never_throws_getAirportInfo|intros wifi].
  apply throws_bind_const.
  { destruct (Options.routerHost options);
      [apply never_throws_ret|apply never_throws_getDefaultGateway]. }
  intros gateway.
  apply throws_bind_const; [apply never_throws_getDnsServer|intros dnsServer].
  apply throws_bind_const.
  { destruct gateway as [g|]; [destruct (truthy_str g)|];
      try apply never_throws_ret. apply never_throws_fmap, never_throws_pingHost. }
  intros routerPing.
  apply throws_bind_const; [apply never_throws_pingHost|intros internetPing].
  apply throws_bind_const; [apply never_throws_dnsLookup|intros dnsResult].
  rewrite throws_bind_tail.
  - destruct (Options.speedtest options).
    + unfold fmap, eff_fmap. rewrite throws_bind_tail; [tauto|].
      intros a. apply never_throws_ret.
    + split; [|intros [[=] _]]. intros T.
      destruct (throws_never _ h (never_throws_ret None) T).
  - intros speedtest. apply never_throws_bind; [apply never_throws_clock|intros timestamp].
    apply never_throws_bind; [apply never_throws_log|intros _]. apply never_throws_ret.
Qed.

Lemma valid_samples_spec n :
  valid_samples n <-> exists q, n = Num q /\ Qle_bool q 0 = false.
Proof.
  unfold valid_samples. split; intros (q & -> & H); exists q; (split; [reflexivity|]).
  - destruct (Qle_bool q 0) eqn:E; [|reflexivity]. apply Qle_bool_iff in E.
    exfalso. apply (Qlt_not_le _ _ H E).
  - apply Qnot_le_lt. intros L. apply Qle_bool_iff in L. congruence.
Qed.


(** ** The report *)

Lemma pingHost_echo host count h r t :
  pingHost host count h = (Ok r, t) ->
  PingResult.target r = host /\ PingResult.samples r = count
  /\ (resolved (execFile h "ping" ["-n"; "-c"; String_of count; host] exec_options) = false ->
      exists message, PingResult.error r = Some message).
Proof.
  rewrite pingHost_run. destruct (_ && _).
  - intros [= <- _]. simpl. eauto.
  - intros [= <- _]. simpl. repeat split. intros ->. eauto.
Qed.

Lemma dnsLookup_echo host server h r t :
  dnsLookup host server h = (Ok r, t) ->
  DnsLookupResult.host r = host /\ DnsLookupResult.server r = server
  /\ (resolved (execFile h "dig" (dig_args host server) exec_options) = false ->
      exists message, DnsLookupResult.error r = Some message).
Proof.
  rewrite dnsLookup_run. destruct (_ <$> _).
  - intros [= <- _]. simpl. repeat split. intros ->. eauto.
  - intros [= <- _]. simpl. eauto.
Qed.

Lemma main_valid options h output e :
  fst (main options h) = Completed output e ->
  exists q t, Options.samples options = Num q
              /\ collect options (Qfloor q) h = (Ok (output, e), t).
Proof.
  unfold main. destruct (Options.samples options) as [|q]; [discriminate|].
  destruct (Qle_bool q 0); [discriminate|].
  destruct (collect options (Qfloor q) h) as [[[o e']|msg] t] eqn:E; simpl; [|discriminate].
  intros [= -> ->]. eauto.
Qed.

(** X6.  Every report is consistent with the options and with itself: the
    internet ping has the internet host as its target, the lookup has the DNS
    host and the DNS server of the report, a router ping is present exactly
    when the gateway is a non-empty string and then has the gateway as its
    target, a router host given on the command line is the gateway, every
    ping was asked for the same sample count, and the speed-test outcome is
    present exactly when the speed test was requested. *)
Theorem report_is_consistent options h output e :
  fst (main options h) = Completed output e ->
  OutputData.target (OutputData.internet output) = Options.internetHost options
  /\ (exists p, OutputData.internet_ping (OutputData.internet output) = Some p
                /\ PingResult.target p = Options.internetHost options)
  /\ (exists d, OutputData.lookup (OutputData.dns output) = Some d
                /\ DnsLookupResult.host d = Options.dnsHost options
                /\ DnsLookupResult.server d = OutputData.server (OutputData.dns output))
  /\ (forall p, OutputData.router_ping (OutputData.router output) = Some p ->
                OutputData.gateway (OutputData.router output) = Some (PingResult.target p)
                /\ PingResult.target p <> "")
  /\ (OutputData.router_ping (OutputData.router output) = None <->
      OutputData.gateway (OutputData.router output) = None
      \/ OutputData.gateway (OutputData.router output) = Some "")
  /\ (forall g, Options.routerHost options = Some g ->
                OutputData.gateway (OutputData.router output) = Some g)
  /\ (forall p, OutputData.router_ping (OutputData.router output) = Some p
                \/ OutputData.internet_ping (OutputData.internet output) = Some p ->
                exists q, Options.samples options = Num q /\ PingResult.samples p = Qfloor q)
  /\ (OutputData.speedtest output = None <-> Options.speedtest options = false)
  /\ OutputData.samples (OutputData.meta output) = Options.samples options
  /\ OutputData.dnsHost (OutputData.meta output) = Options.dnsHost options
  /\ OutputData.meta_speedtest (OutputData.meta output) = Options.speedtest options.
Proof.
  intros H. apply main_valid in H as (q & t & Hq & H).
  apply collect_Ok in H
    as (wifi & gateway & dnsServer & routerPing & internetPing & dnsResult & speedtest
        & t1 & t2 & t3 & t4 & t5 & t6 & t7 & _ & H2 & _ & H4 & H5 & H6 & H7 & -> & _ & _).
  simpl. apply pingHost_echo in H5 as (T5 & S5 & _).
  apply dnsLookup_echo in H6 as (D1 & D2 & _).
  assert (forall p, routerPing = Some p ->
                    gateway = Some (PingResult.target p) /\ PingResult.target p <> ""
                    /\ PingResult.samples p = Qfloor q) as R.
  { intros p ->. destruct gateway as [[|c g]|]; simpl in H4;
      try (unfold mret, eff_ret in H4; discriminate).
    apply fmap_Some_Ok in H4 as (a & [= <-] & H4).
    apply pingHost_echo in H4 as (-> & -> & _). repeat split. discriminate. }
  split; [reflexivity|]. split; [eauto|]. split; [eauto|].
  split; [intros p Hp; destruct (R p Hp) as (? & ? & _); auto|].
  split.
  { destruct gateway as [[|c g]|]; simpl in H4.
    - unfold mret, eff_ret in H4. simplify_eq. tauto.
    - apply fmap_Some_Ok in H4 as (a & -> & _).
      split; [discriminate|]. intros [[=]|[=]].
    - unfold mret, eff_ret in H4. simplify_eq. tauto. }
  split.
  { intros g Hg. rewrite Hg in H2. unfold mret, eff_ret in H2. simplify_eq. reflexivity. }
  split.
  { intros p [Hp|[= <-]]; exists q; (split; [assumption|]); [apply (R p Hp)|exact S5]. }
  split.
  { destruct (Options.speedtest options).
    - apply fmap_Some_Ok in H7 as (a & -> & _). split; discriminate.
    - unfold mret, eff_ret in H7. simplify_eq. tauto. }
  auto.
Qed.

Lemma report_is_consistent_witness :
  fst (main default_options healthy_host) = Completed (sample_report sample_wifi) false
  /\ OutputData.target (OutputData.internet (sample_report sample_wifi)) = "1.1.1.1".
Proof.
  split; [vm_compute; reflexivity|].
  apply (report_is_consistent default_options healthy_host (sample_report sample_wifi) false).
  vm_compute. reflexivity.
Defined.

(** X7.  When every process call fails, a run with a valid sample count
    still produces its report: the Wi-Fi record is null, the internet ping
    and the lookup carry an error, a requested speed test is an error outcome
    with all metrics null, and the signal is true. *)
Theorem main_reports_total_failure options h :
  valid_samples (Options.samples options) ->
  (forall command args o, resolved (execFile h command args o) = false) ->
  exists output,
    fst (main options h) = Completed output true
    /\ OutputData.wifi output = None
    /\ carries_error PingResult.error (OutputData.internet_ping (OutputData.internet output))
    /\ carries_error DnsLookupResult.error (OutputData.lookup (OutputData.dns output))
    /\ (Options.speedtest options = true ->
        exists message, OutputData.speedtest output = Some (speedtest_failure message)).
Proof.
  intros V F. apply valid_samples_spec in V as (q & Hq & Q).
  unfold main. rewrite Hq, Q.
  destruct (collect options (Qfloor q) h) as [[[o e]|msg] t] eqn:E; simpl.
  - apply collect_Ok in E
      as (wifi & gateway & dnsServer & routerPing & internetPing & dnsResult & speedtest
          & t1 & t2 & t3 & t4 & t5 & t6 & t7 & H1 & _ & _ & _ & H5 & H6 & H7 & -> & -> & _).
    assert (wifi = None) as ->.
    { pose proof (getAirportInfo_run h) as R. rewrite H1 in R. simpl in R.
      unfold airport_outcome, profiler_outcome in R. rewrite !F, andb_false_r in R.
      congruence. }
    assert (hadError options None gateway dnsServer routerPing (Some internetPing)
              (Some dnsResult) speedtest = true) as ->.
    { apply hadError_true. left. reflexivity. }
    eexists. split; [reflexivity|]. simpl.
    split; [reflexivity|].
    apply pingHost_echo in H5 as (_ & _ & P5). destruct (P5 (F _ _ _)) as [m5 E5].
    apply dnsLookup_echo in H6 as (_ & _ & P6). destruct (P6 (F _ _ _)) as [m6 E6].
    split; [exists internetPing, m5; auto|]. split; [exists dnsResult, m6; auto|].
    intros S. rewrite S in H7. apply fmap_Some_Ok in H7 as (a & -> & H7).
    rewrite runSpeedTest_run, F in H7. injection H7 as <- _. eauto.
  - exfalso.
    assert (throws (collect options (Qfloor q)) h) as T by (unfold throws; eauto).
    apply throws_collect in T as [_ T]. apply throws_runSpeedTest in T as [T _].
    unfold speedtest_outcome in T. rewrite F in T. discriminate.
Qed.

Lemma main_reports_total_failure_witness :
  exists output,
    fst (main default_options offline_host) = Completed output true
    /\ OutputData.wifi output = None.
Proof.
  destruct (main_reports_total_failure default_options offline_host) as (o & H1 & H2 & _).
  - exists 12%Q. split; reflexivity.
  - intros command args o. reflexivity.
  - exists o. auto.
Defined.

(** ** Which tools a run calls *)

Lemma trace_all_ret {A} P (a : A) : trace_all P (mret a).
Proof. intros h. constructor. Qed.

Lemma trace_all_bind {A B} P (m : Eff A) (f : A -> Eff B) :
  trace_all P m -> (forall a, trace_all P (f a)) -> trace_all P (m ≫= f).
Proof.
  intros Hm Hf h. rewrite eff_bind_run. specialize (Hm h).
  destruct (m h) as [[a|e] t]; [|exact Hm].
  specialize (Hf a h). destruct (f a h) as [b t']. simpl in *.
  apply Forall_app. auto.
Qed.

Lemma trace_all_fmap {A B} P (g : A -> B) (m : Eff A) : trace_all P m -> trace_all P (g <$> m).
Proof. intros H. apply trace_all_bind; [assumption|]. intros a. apply trace_all_ret. Qed.

Lemma not_spawn_log c level message : trace_all (not_spawn c) (log level message).
Proof. intros h. repeat constructor. Qed.

Lemma not_spawn_access c path : trace_all (not_spawn c) (check_access path).
Proof. intros h. repeat constructor. Qed.

Lemma not_spawn_json c text : trace_all (not_spawn c) (json_parse text).
Proof. intros h. constructor. Qed.

Lemma not_spawn_clock c : trace_all (not_spawn c) clock.
Proof. intros h. constructor. Qed.

Lemma not_spawn_lift {A} c (m : Exc A) : trace_all (not_spawn c) (lift m).
Proof. intros h. constructor. Qed.

Lemma not_spawn_throw {A} c e : trace_all (not_spawn c) (@throw A e).
Proof. intros h. constructor. Qed.

Lemma not_spawn_runCommand c command args :
  command <> c -> trace_all (not_spawn c) (runCommand command args ∅).
Proof. intros N h. rewrite runCommand_run. repeat constructor. exact N. Qed.

Create HintDb spawns.
#[local] Hint Resolve trace_all_ret trace_all_fmap not_spawn_log not_spawn_access not_spawn_json
  not_spawn_clock not_spawn_lift not_spawn_throw : spawns.

Ltac not_spawn_with R :=
  repeat first
    [ solve [eauto with spawns]
    | solve [apply R; auto]
    | apply trace_all_bind
    | progress intros
    | match goal with
      | |- trace_all _ (match ?x with _ => _ end) => destruct x
      end ].

Lemma not_spawn_getAirportInfo c :
  c <> AIRPORT_PATH -> c <> "system_profiler" -> trace_all (not_spawn c) getAirportInfo.
Proof.
  intros N1 N2. unfold getAirportInfo.
  assert (forall command args,
            command = AIRPORT_PATH \/ command = "system_profiler" ->
            trace_all (not_spawn c) (runCommand command args ∅)) as R1.
  { intros command args [->| ->]; apply not_spawn_runCommand; congruence. }
  not_spawn_with R1.
Qed.

Lemma not_spawn_getDnsServer c : c <> "scutil" -> trace_all (not_spawn c) getDnsServer.
Proof.
  intros N. unfold getDnsServer.
  assert (forall args, trace_all (not_spawn c) (runCommand "scutil" args ∅)) as R.
  { intros args. apply not_spawn_runCommand. congruence. }
  not_spawn_with R.
Qed.

Lemma not_spawn_getDefaultGateway c : c <> "route" -> trace_all (not_spawn c) getDefaultGateway.
Proof.
  intros N. unfold getDefaultGateway.
  assert (forall args, trace_all (not_spawn c) (runCommand "route" args ∅)) as R.
  { intros args. apply not_spawn_runCommand. congruence. }
  not_spawn_with R.
Qed.

Lemma not_spawn_pingHost c host count : c <> "ping" -> trace_all (not_spawn c) (pingHost host count).
Proof.
  intros N. unfold pingHost.
  assert (forall args, trace_all (not_spawn c) (runCommand "ping" args ∅)) as R.
  { intros args. apply not_spawn_runCommand. congruence. }
  not_spawn_with R.
Qed.

Lemma not_spawn_dnsLookup c host server :
  c <> "dig" -> trace_all (not_spawn c) (dnsLookup host server).
Proof.
  intros N. unfold dnsLookup.
  assert (forall args, trace_all (not_spawn c) (runCommand "dig" args ∅)) as R.
  { intros args. apply not_spawn_runCommand. congruence. }
  not_spawn_with R.
Qed.

Lemma not_spawn_runSpeedTest c :
  c <> "networkQuality" -> trace_all (not_spawn c) runSpeedTest.
Proof.
  intros N. unfold runSpeedTest.
  assert (forall args, trace_all (not_spawn c) (runCommand "networkQuality" args ∅)) as R.
  { intros args. apply not_spawn_runCommand. congruence. }
  not_spawn_with R.
Qed.

Lemma main_trace P options h :
  P (Log error "wifi-stats.crash") ->
  (forall count, trace_all P (collect options count)) ->
  Forall P (snd (main options h)).
Proof.
  intros L C. unfold main. destruct (Options.samples options) as [|q]; [constructor|].
  destruct (Qle_bool q 0); [constructor|].
  specialize (C (Qfloor q) h).
  destruct (collect options (Qfloor q) h) as [[[o e]|msg] t]; simpl in *; [assumption|].
  apply Forall_app. split; [assumption|]. repeat constructor. exact L.
Qed.

(** X8.  A run calls no tool it has no use for: when a router host is
    given, the routing table is not queried, and when the speed test is not
    requested, the throughput tool is not run. *)
Theorem main_skips_unneeded_tools options h :
  (Options.routerHost options <> None -> Forall (not_spawn "route") (snd (main options h)))
  /\ (Options.speedtest options = false ->
      Forall (not_spawn "networkQuality") (snd (main options h))).
Proof.
  split.
  - intros R. apply main_trace; [exact I|]. intros count. unfold collect.
    destruct (Options.routerHost options) as [g|]; [|congruence].
    apply trace_all_bind; [apply not_spawn_log|intros _].
    apply trace_all_bind;
      [apply not_spawn_getAirportInfo; unfold AIRPORT_PATH; discriminate|intros wifi].
    apply trace_all_bind; [apply trace_all_ret|intros gateway].
    apply trace_all_bind; [apply not_spawn_getDnsServer; discriminate|intros dnsServer].
    apply trace_all_bind.
    { destruct gateway as [x|]; [destruct (truthy_str x)|]; try apply trace_all_ret.
      apply trace_all_fmap, not_spawn_pingHost. discriminate. }
    intros routerPing.
    apply trace_all_bind; [apply not_spawn_pingHost; discriminate|intros internetPing].
    apply trace_all_bind; [apply not_spawn_dnsLookup; discriminate|intros dnsResult].
    apply trace_all_bind.
    { destruct (Options.speedtest options); [|apply trace_all_ret].
      apply trace_all_fmap, not_spawn_runSpeedTest. discriminate. }
    intros speedtest.
    apply trace_all_bind; [apply not_spawn_clock|intros timestamp].
    apply trace_all_bind; [apply not_spawn_log|intros _]. apply trace_all_ret.
  - intros S. apply main_trace; [exact I|]. intros count. unfold collect. rewrite S.
    apply trace_all_bind; [apply not_spawn_log|intros _].
    apply trace_all_bind;
      [apply not_spawn_getAirportInfo; unfold AIRPORT_PATH; discriminate|intros wifi].
    apply trace_all_bind.
    { destruct (Options.routerHost options); [apply trace_all_ret|].
      apply not_spawn_getDefaultGateway. discriminate. }
    intros gateway.
    apply trace_all_bind; [apply not_spawn_getDnsServer; discriminate|intros dnsServer].
    apply trace_all_bind.
    { destruct gateway as [x|]; [destruct (truthy_str x)|]; try apply trace_all_ret.
      apply trace_all_fmap, not_spawn_pingHost. discriminate. }
    intros routerPing.
    apply trace_all_bind; [apply not_spawn_pingHost; discriminate|intros internetPing].
    apply trace_all_bind; [apply not_spawn_dnsLookup; discriminate|intros dnsResult].
    apply trace_all_bind; [apply trace_all_ret|intros speedtest].
    apply trace_all_bind; [apply not_spawn_clock|intros timestamp].
    apply trace_all_bind; [apply not_spawn_log|intros _]. apply trace_all_ret.
Qed.

Lemma main_valid_trace options h output e :
  fst (main options h) = Completed output e ->
  exists q, Options.samples options = Num q
            /\ collect options (Qfloor q) h = (Ok (output, e), snd (main options h)).
Proof.
  unfold main. destruct (Options.samples options) as [|q]; [discriminate|].
  destruct (Qle_bool q 0); [discriminate|].
  destruct (collect options (Qfloor q) h) as [[[o e']|msg] t] eqn:E; simpl; [|discriminate].
  intros [= -> ->]. eauto.
Qed.

Lemma pingHost_calls host count h :
  In (Spawn "ping" ["-n"; "-c"; String_of count; host] exec_options)
     (snd (pingHost host count h)).
Proof. rewrite pingHost_run. destruct (_ && _); simpl; auto. Qed.

Lemma dnsLookup_calls host server h :
  In (Spawn "dig" (dig_args host server) exec_options) (snd (dnsLookup host server h)).
Proof. rewrite dnsLookup_run. destruct (_ <$> _); simpl; auto. Qed.

Lemma getDnsServer_calls h :
  In (Spawn "scutil" ["--dns"] exec_options) (snd (getDnsServer h)).
Proof. rewrite getDnsServer_run. destruct (truthy_opt _ _); simpl; auto. Qed.

Lemma getDefaultGateway_calls h :
  In (Spawn "route" ["-n"; "get"; "default"] exec_options) (snd (getDefaultGateway h)).
Proof. rewrite getDefaultGateway_run. destruct (truthy_opt _ _); simpl; auto. Qed.

Lemma runSpeedTest_calls h :
  In (Spawn "networkQuality" ["-c"] exec_options) (snd (runSpeedTest h)).
Proof.
  rewrite runSpeedTest_run. destruct (resolved _); [|simpl; auto].
  destruct (JSON_parse h _); simpl; auto.
Qed.

(** X9.  The command lines of a run that produces its report: the DNS
    configuration query, a ping of the internet host with the sample count,
    a lookup of the DNS host at the DNS server of the report (at the system
    resolver when the report has none), a ping of the gateway when the
    report has one, the routing query when no router host was given, and the
    throughput test when it was requested. *)
Theorem main_calls_its_tools options h output e :
  fst (main options h) = Completed output e ->
  exists q, Options.samples options = Num q
  /\ In (Spawn "scutil" ["--dns"] exec_options) (snd (main options h))
  /\ In (Spawn "ping" ["-n"; "-c"; String_of (Qfloor q); Options.internetHost options]
           exec_options) (snd (main options h))
  /\ In (Spawn "dig"
           (dig_args (Options.dnsHost options) (OutputData.server (OutputData.dns output)))
           exec_options) (snd (main options h))
  /\ (forall g, OutputData.gateway (OutputData.router output) = Some g -> g <> "" ->
        In (Spawn "ping" ["-n"; "-c"; String_of (Qfloor q); g] exec_options)
           (snd (main options h)))
  /\ (Options.routerHost options = None ->
      In (Spawn "route" ["-n"; "get"; "default"] exec_options) (snd (main options h)))
  /\ (Options.speedtest options = true ->
      In (Spawn "networkQuality" ["-c"] exec_options) (snd (main options h))).
Proof.
  intros H. apply main_valid_trace in H as (q & Hq & H). exists q. split; [exact Hq|].
  apply collect_Ok in H
    as (wifi & gateway & dnsServer & routerPing & internetPing & dnsResult & speedtest
        & t1 & t2 & t3 & t4 & t5 & t6 & t7 & _ & H2 & H3 & H4 & H5 & H6 & H7 & -> & _ & T).
  rewrite T. simpl.
  pose proof (getDnsServer_calls h) as C3. rewrite H3 in C3.
  pose proof (pingHost_calls (Options.internetHost options) (Qfloor q) h) as C5.
  rewrite H5 in C5.
  pose proof (dnsLookup_calls (Options.dnsHost options) dnsServer h) as C6. rewrite H6 in C6.
  simpl in C3, C5, C6.
  repeat split.
  - right. rewrite !in_app_iff. auto.
  - right. rewrite !in_app_iff. auto 10.
  - right. rewrite !in_app_iff. auto 10.
  - intros g -> N. destruct g as [|c g]; [congruence|]. simpl in H4.
    apply fmap_Some_Ok in H4 as (a & _ & H4).
    pose proof (pingHost_calls (String c g) (Qfloor q) h) as C4. rewrite H4 in C4.
    right. rewrite !in_app_iff. auto 10.
  - intros R. rewrite R in H2.
    pose proof (getDefaultGateway_calls h) as C2. rewrite H2 in C2.
    right. rewrite !in_app_iff. auto 10.
  - intros S. rewrite S in H7. apply fmap_Some_Ok in H7 as (a & _ & H7).
    pose proof (runSpeedTest_calls h) as C7. rewrite H7 in C7.
    right. rewrite !in_app_iff. auto 10.
Qed.

Lemma main_calls_its_tools_witness :
  In (Spawn "dig" ["+stats"; "+tries=1"; "+time=2"; "cloudflare.com"; "@192.168.1.1"]
        exec_options) (snd (main default_options healthy_host)).
Proof.
  destruct (main_calls_its_tools default_options healthy_host (sample_report sample_wifi) false)
    as (q & _ & _ & _ & H & _); [vm_compute; reflexivity|].
  exact H.
Defined.

Lemma dashed_toggles l : Forall (fun a => a ∈ toggles) l -> dashed l = [].
Proof.
  induction 1 as [|a l Ha F IH]; [reflexivity|].
  change (a :: l) with ([a] ++ l). rewrite dashed_app, IH, (dashed_toggle a Ha). reflexivity.
Qed.

Lemma toggles_simple l : Forall (fun a => a ∈ toggles) l -> Forall simple l.
Proof. apply List.Forall_impl. intros a H. right. exact H. Qed.

Lemma main_usage options h :
  main options h = (UsageError, []) <-> ~ valid_samples (Options.samples options).
Proof.
  rewrite valid_samples_spec. unfold main. destruct (Options.samples options) as [|q].
  - split; [|reflexivity]. intros _ (q & [=] & _).
  - destruct (Qle_bool q 0) eqn:Q.
    + split; [|reflexivity]. intros _ (q' & [= <-] & ?). congruence.
    + split.
      * destruct (collect options (Qfloor q) h) as [[[o e]|msg] t]; discriminate.
      * intros N. exfalso. apply N. eauto.
Qed.

(** X10.  With --samples v among options without a value, where v has at
    most 308 characters (so that the count it denotes is a finite number),
    the run ends with the usage error, before any probe, exactly when
    parseInt(v) is not a number or is not positive: a missing number, 0 and
    negative counts are refused. *)
Theorem cli_refuses_bad_samples pre v post version h :
  Forall (fun a => a ∈ toggles) pre -> Forall (fun a => a ∈ toggles) post ->
  (String.length v <= 308)%nat ->
  cli (pre ++ "--samples" :: v :: post) version h = Ran (UsageError, [])
  <-> ~ valid_samples (parseInt v).
Proof.
  intros F1 F2 _. unfold cli, parseArgs.
  rewrite (parse_loop_simple pre _ _ _ (toggles_simple pre F1)). simpl.
  rewrite (parse_loop_simple_all post _ _ (toggles_simple post F2)). simpl.
  rewrite (dashed_toggles pre F1), (dashed_toggles post F2). simpl.
  assert ((if truthy_str v then parseInt v else NaN) = parseInt v) as ->.
  { destruct v; reflexivity. }
  rewrite <- (main_usage (switched post (with_samples (parseInt v) (switched pre default_options))) h).
  split; [intros [= ->]; reflexivity|intros ->; reflexivity].
Qed.

Lemma cli_refuses_bad_samples_witness :
  cli ["--json"; "--samples"; "-3"; "--speedtest"] (Ok "1.0.0") healthy_host
  = Ran (UsageError, []).
Proof.
  apply (cli_refuses_bad_samples ["--json"] "-3" ["--speedtest"] (Ok "1.0.0") healthy_host).
  - repeat constructor.
  - repeat constructor.
  - simpl. lia.
  - intros (q & E & L). vm_compute in E. injection E as <-. discriminate L.
Defined.

(** ** Unknown options *)

Lemma parse_loop_unknown n : forall o u args l,
  (length args <= n)%nat ->
  ParseResult.unknown (parse_loop o u args) = Some l ->
  exists l', l = u ++ l' /\ Forall (fun a => a ∈ args /\ stray a) l'.
Proof.
  induction n as [|n IH]; intros o u args l Hn H.
  - destruct args; [|simpl in Hn; lia]. simpl in H. injection H as <-.
    exists []. rewrite app_nil_r. auto.
  - destruct args as [|arg args].
    { simpl in H. injection H as <-. exists []. rewrite app_nil_r. auto. }
    simpl in Hn.
    assert (forall o' l', ParseResult.unknown (parse_loop o' u args) = Some l' ->
              exists k, l' = u ++ k /\ Forall (fun a => a ∈ arg :: args /\ stray a) k) as Same.
    { intros o' l' H'. apply IH in H' as (k & -> & F); [|lia]. exists k. split; [reflexivity|].
      eapply List.Forall_impl; [|exact F]. intros a [I S]. split; [right; exact I|exact S]. }
    assert (forall o' l', ParseResult.unknown
                            (match args with
                             | _ :: args'' => parse_loop o' u args''
                             | [] => parse_loop o' u args
                             end) = Some l' ->
              exists k, l' = u ++ k /\ Forall (fun a => a ∈ arg :: args /\ stray a) k) as Skip.
    { intros o' l' H'. destruct args as [|v args'']; [apply (Same o' l' H')|].
      apply IH in H' as (k & -> & F); [|simpl in Hn; lia]. exists k. split; [reflexivity|].
      eapply List.Forall_impl; [|exact F].
      intros a [I S]. split; [right; right; exact I|exact S]. }
    simpl in H. destruct (truthy_str arg) eqn:T; simpl in H.
    2:{ injection H as <-. exists []. rewrite app_nil_r. auto. }
    repeat (case_bool_decide;
            [first [ apply (Same _ _ H)
                   | destruct args; apply (Skip _ _ H) ]|]).
    simpl in H.
    case_bool_decide; [discriminate|]. case_bool_decide; [discriminate|]. simpl in H.
    case_bool_decide; [discriminate|].
    destruct (starts_with_dash arg) eqn:D; [|apply (Same _ _ H)].
    apply IH in H as (k & -> & F); [|lia]. exists (arg :: k).
    split; [rewrite <- app_assoc; reflexivity|]. constructor.
    + split; [left|]. split; [exact D|]. unfold recognised, toggles. simpl.
      rewrite !not_elem_of_cons. repeat split; try assumption. apply not_elem_of_nil.
    + eapply List.Forall_impl; [|exact F]. intros a [I S]. split; [right; exact I|exact S].
Qed.

(** X11.  The program stops on unknown options only for arguments that are
    really there: whenever it reports unknown options, each reported text is
    one of the arguments, starts with a dash, and is not an option of the
    program, and at least one is reported. *)
Theorem cli_unknown_options argv version h u :
  cli argv version h = UnknownOptions u ->
  u <> [] /\ Forall (fun a => a ∈ argv /\ stray a) u.
Proof.
  unfold cli. destruct (truthy_opt id _); [discriminate|].
  destruct (truthy_opt id _); [destruct version; discriminate|].
  destruct (ParseResult.unknown (parseArgs argv)) as [[|a l]|] eqn:E; try discriminate.
  intros [= <-]. split; [discriminate|].
  apply (parse_loop_unknown (length argv)) in E as (k & -> & F); [exact F|lia].
Qed.

Lemma cli_unknown_options_witness :
  Forall (fun a => a ∈ ["--json"; "--fast"; "-x"; "out.txt"] /\ stray a) ["--fast"; "-x"].
Proof.
  apply (cli_unknown_options ["--json"; "--fast"; "-x"; "out.txt"] (Ok "1.0.0") offline_host).
  vm_compute. reflexivity.
Defined.

(** ** The numbers read from the output of the tools *)

Lemma digits_val_from acc d :
  0 <= acc -> Forall (fun c => is_digit c = true) d ->
  0 <= fold_left (fun acc c => 10 * acc + digit_val c) d acc.
Proof.
  intros A F. revert acc A. induction F as [|c d Hc F IH]; intros acc A; simpl; [exact A|].
  apply IH. unfold is_digit in Hc. apply andb_prop in Hc as [H1 _].
  apply N.leb_le in H1. unfold digit_val. lia.
Qed.

Lemma digits_val_nonneg d : Forall (fun c => is_digit c = true) d -> 0 <= digits_val d.
Proof. apply digits_val_from. lia. Qed.

Lemma span_digits_digits s : Forall (fun c => is_digit c = true) (fst (span_digits s)).
Proof.
  induction s as [|c s IH]; simpl; [constructor|].
  destruct (is_digit c) eqn:E; [|constructor].
  destruct (span_digits s) as [d r]. simpl in *. constructor; assumption.
Qed.

Lemma token_start c s :
  cls_d_dot c = true -> take_sign (trimStart (String c s)) = (false, String c s).
Proof.
  destruct c as [[] [] [] [] [] [] [] []]; try discriminate; reflexivity.
Qed.








Lemma decimal_nonneg int frac :
  Forall (fun c => is_digit c = true) int -> Forall (fun c => is_digit c = true) frac ->
  (0 <= decimal int frac)%Q.
Proof.
  intros F1 F2. unfold decimal, Qle. simpl. rewrite Z.mul_1_r.
  apply digits_val_nonneg. apply Forall_app. auto.
Qed.

Lemma parseFloat_token t : number_token t -> unsigned (parseFloat t).
Proof.
  intros [A N]. destruct t as [|c s]; [congruence|]. simpl in A.
  apply andb_prop in A as [A _]. unfold parseFloat. rewrite (token_start c s A).
  pose proof (span_digits_digits (String c s)) as F1.
  destruct (span_digits (String c s)) as [int r]. simpl in F1.
  assert (Forall (fun c => is_digit c = true)
            match r with
            | String "." r' => fst (span_digits r')
            | _ => []
            end) as F2.
  { destruct r as [|[[] [] [] [] [] [] [] []] r']; try constructor.
    apply span_digits_digits. }
  destruct int as [|i int].
  - destruct (match r with String "." r' => fst (span_digits r') | _ => [] end) eqn:E;
      simpl; [exact I|]. apply decimal_nonneg; assumption.
  - simpl. apply decimal_nonneg; assumption.
Qed.

(** ** The captures of the patterns *)







Lemma nameserverRe_group output m :
  search nameserverRe output = Some m -> exists t, group m 1 = Some t /\ number_token t.
Proof.
  intros H. apply search_Some in H as (pre & t & rest & _ & M).
  unfold nameserverRe in M. simpl in M.
  destruct M as (m1 & m2 & c1 & c2 & _ & -> & [_ ->] & (c3 & -> & A & N & ->)).
  exists m2. split; [reflexivity|split; assumption].
Qed.

Lemma lossRe_group output m :
  search lossRe output = Some m -> exists t, group m 1 = Some t /\ number_token t.
Proof.
  intros H. apply search_Some in H as (pre & x & rest & _ & M).
  apply lossRe_matches in M as (t & _ & A & N & ->).
  exists t. split; [reflexivity|split; assumption].
Qed.

Lemma rttRe_groups output m :
  search rttRe output = Some m ->
  exists t2 t4, group m 2 = Some t2 /\ group m 4 = Some t4
                /\ number_token t2 /\ number_token t4.
Proof.
  intros H. apply search_Some in H as (pre & x & rest & _ & M).
  apply rttRe_matches in M as (t1 & t2 & t3 & t4 & _ & _ & T2 & _ & T4 & ->).
  exists t2, t4. auto.
Qed.

(** ** The statistics of the ping utility *)

Lemma parsePingStats_cases output :
  ((exists t2 t4, avgMs (parsePingStats output) = Some (parseFloat t2)
                  /\ jitterMs (parsePingStats output) = Some (parseFloat t4)
                  /\ number_token t2 /\ number_token t4)
   \/ (avgMs (parsePingStats output) = None /\ jitterMs (parsePingStats output) = None))
  /\ ((exists t, lossPct (parsePingStats output) = Some (parseFloat t) /\ number_token t)
      \/ lossPct (parsePingStats output) = None).
Proof.
  unfold parsePingStats. simpl. split.
  - destruct (search rttRe output) as [m|] eqn:R; [left|right; auto].
    apply rttRe_groups in R as (t2 & t4 & G2 & G4 & T2 & T4).
    simpl. rewrite G2, G4. exists t2, t4. auto.
  - destruct (search lossRe output) as [l|] eqn:L; [left|right; auto].
    apply lossRe_group in L as (t & G & T). simpl. rewrite G. exists t. auto.
Qed.

Lemma avgMs_unsigned output : field unsigned (avgMs (parsePingStats output)).
Proof.
  destruct (parsePingStats_cases output) as [[(t2 & t4 & E & _ & T2 & _)|[E _]] _];
    rewrite E; intros a [= <-]. apply parseFloat_token, T2.
Qed.

(** X12.  Whatever the text, the statistics the ping parser returns are
    never negative: each of the average, the jitter and the loss is null, not
    a number (a figure made of dots only), or a number that is zero or more;
    and the average and the jitter are null together. *)
Theorem parsePingStats_unsigned output :
  field unsigned (avgMs (parsePingStats output))
  /\ field unsigned (jitterMs (parsePingStats output))
  /\ field unsigned (lossPct (parsePingStats output))
  /\ (avgMs (parsePingStats output) = None <-> jitterMs (parsePingStats output) = None).
Proof.
  destruct (parsePingStats_cases output) as [R L].
  split; [apply avgMs_unsigned|]. split; [|split].
  - destruct R as [(t2 & t4 & _ & E & _ & T4)|[_ E]]; rewrite E; intros a [= <-].
    apply parseFloat_token, T4.
  - destruct L as [(t & E & T)|E]; rewrite E; intros a [= <-].
    apply parseFloat_token, T.
  - destruct R as [(t2 & t4 & E2 & E4 & _)|[E2 E4]]; rewrite E2, E4; split; congruence.
Qed.

(** ** The two formats of the Wi-Fi record *)


(** X14.  In the adapter format the last line that gives a key its value
    wins.  The network name and the access-point address are that value as
    it stands, the empty text included; the signal, the noise and the link
    rate are the integer read at the start of the value, and null when the
    value is empty. *)
Theorem airport_last_line_wins output w :
  parseAirportOutput output = Ok w ->
  (forall v, last_value "SSID" (split "010" output) v -> ssid w = Some v)
  /\ (forall v, last_value "BSSID" (split "010" output) v -> bssid w = Some v)
  /\ (forall v, last_value "agrCtlRSSI" (split "010" output) v ->
        signalDbm w = if truthy_str v then Some (parseInt v) else None)
  /\ (forall v, last_value "agrCtlNoise" (split "010" output) v ->
        noiseDbm w = if truthy_str v then Some (parseInt v) else None)
  /\ (forall v, last_value "lastTxRate" (split "010" output) v ->
        linkRateMbps w = if truthy_str v then Some (parseInt v) else None).
Proof.
  unfold parseAirportOutput.
  destruct (scan_lines_total ∅ (split "010" output)) as [d S]. rewrite S. simpl.
  intros [= <-]. simpl.
  assert (forall key v, key <> "" -> key <> "__proto__" ->
            last_value key (split "010" output) v -> d !! key = Some v) as L.
  { intros key v K1 K2. apply (scan_lines_last key K1 K2 ∅ _ v d S). }
  repeat split; intros v Hv; apply L in Hv; try discriminate; rewrite Hv; reflexivity.
Qed.

Lemma airport_last_line_wins_witness :
  parseAirportOutput (lines ["SSID: Cafe"; "agrCtlRSSI: -60"; "SSID: Home"])
  = Ok {| ssid := Some "Home"; bssid := None; signalDbm := Some (of_Z (-60));
          noiseDbm := None; channel := None; band := None; linkRateMbps := None |}
  /\ ssid {| ssid := Some "Home"; bssid := None; signalDbm := Some (of_Z (-60));
             noiseDbm := None; channel := None; band := None; linkRateMbps := None |}
     = Some "Home".
Proof.
  split; [vm_compute; reflexivity|].
  eapply (airport_last_line_wins (lines ["SSID: Cafe"; "agrCtlRSSI: -60"; "SSID: Home"])).
  - vm_compute. reflexivity.
  - exists ["SSID: Cafe"; "agrCtlRSSI: -60"], "SSID: Home", [].
    split; [vm_compute; reflexivity|]. split.
    + exists "SSID", " Home". repeat split.
    + intros (line & value & [] & _).
Defined.

(** ** The outcomes of the probes *)

Lemma or_str_nonempty a b : b <> "" -> or_str a b <> "".
Proof.
  intros N. unfold or_str. destruct a as [[|c s]|]; simpl; try exact N. discriminate.
Qed.







(** *** The first and longest match *)

Lemma star_head p s :
  exists t rest l, star p s = (t, rest) :: l /\ s = t +:+ rest /\ all p t = true /\ stops p rest.
Proof.
  induction s as [|c s IH]; simpl.
  - exists "", "", []. simpl. auto.
  - destruct (p c) eqn:E.
    + destruct IH as (t & rest & l & -> & -> & A & S).
      exists (String c t), rest, (map (push c) l ++ [("", String c (t +:+ rest))]).
      simpl. rewrite E, A. auto.
    + exists "", (String c s), []. simpl. auto.
Qed.

Lemma plus_head p s t rest l :
  plus p s = (t, rest) :: l ->
  s = t +:+ rest /\ all p t = true /\ t <> "" /\ stops p rest.
Proof.
  destruct s as [|c s]; simpl; [discriminate|]. destruct (p c) eqn:E; [|discriminate].
  destruct (star_head p s) as (t' & rest' & l' & -> & -> & A & S). simpl.
  intros [= <- <- _]. simpl. rewrite E, A. repeat split; [discriminate|exact S].
Qed.

Lemma star_run p t rest :
  all p t = true -> stops p rest -> exists l, star p (t +:+ rest) = (t, rest) :: l.
Proof.
  intros A S. induction t as [|c t IH].
  - rewrite sapp_nil_l. destruct rest as [|d rest]; simpl in *; [eauto|].
    rewrite S. eauto.
  - simpl in A. apply andb_prop in A as [A1 A2]. destruct (IH A2) as [l E].
    rewrite sapp_cons. simpl. rewrite A1, E. simpl. eauto.
Qed.

Lemma plus_run p t rest :
  all p t = true -> t <> "" -> stops p rest -> exists l, plus p (t +:+ rest) = (t, rest) :: l.
Proof.
  intros A N S. destruct t as [|c t]; [congruence|]. simpl in A.
  apply andb_prop in A as [A1 A2]. destruct (star_run p t rest A2 S) as [l E].
  rewrite sapp_cons. simpl. rewrite A1, E. simpl. eauto.
Qed.

Lemma search_unfold r s :
  search r s = match rmatch r s with
               | (_, _, c) :: _ => Some c
               | [] => match s with
                       | String _ s' => search r s'
                       | EmptyString => None
                       end
               end.
Proof. destruct s; reflexivity. Qed.

(** The search reports the first way of matching at the first position at
    which there is one. *)
Lemma search_first r s c :
  search r s = Some c ->
  exists pre x m rest l,
    s = pre +:+ x /\ rmatch r x = (m, rest, c) :: l
    /\ forall pre1 pre2, pre = pre1 +:+ pre2 -> pre2 <> "" -> rmatch r (pre2 +:+ x) = [].
Proof.
  induction s as [|a s IH]; rewrite search_unfold.
  - destruct (rmatch r "") as [|[[m rest] c'] l] eqn:E; [discriminate|]. intros [= ->].
    exists "", "", m, rest, l. split; [reflexivity|]. split; [exact E|].
    intros pre1 pre2 H N. symmetry in H. apply sapp_eq_nil in H as [_ ->]. congruence.
  - destruct (rmatch r (String a s)) as [|[[m rest] c'] l] eqn:E.
    + intros H. destruct (IH H) as (pre & x & m & rest & l & -> & R & F).
      exists (String a pre), x, m, rest, l. split; [reflexivity|]. split; [exact R|].
      intros pre1 pre2 H1 N. destruct pre1 as [|a1 pre1].
      * rewrite sapp_nil_l in H1. subst pre2. rewrite sapp_cons. exact E.
      * rewrite sapp_cons in H1. injection H1 as _ H1. apply (F pre1 pre2 H1 N).
    + intros [= ->]. exists "", (String a s), m, rest, l.
      split; [reflexivity|]. split; [exact E|].
      intros pre1 pre2 H N. symmetry in H. apply sapp_eq_nil in H as [_ ->]. congruence.
Qed.

Lemma search_skip r pre x :
  (forall pre1 pre2, pre = pre1 +:+ pre2 -> pre2 <> "" -> rmatch r (pre2 +:+ x) = []) ->
  search r (pre +:+ x) = search r x.
Proof.
  induction pre as [|a pre IH]; intros F; [rewrite sapp_nil_l; reflexivity|].
  rewrite search_unfold, (F "" (String a pre)); [|reflexivity|discriminate].
  rewrite sapp_cons. apply IH. intros pre1 pre2 -> N. apply (F (String a pre1) pre2); auto.
Qed.

Lemma search_head r x m rest c l : rmatch r x = (m, rest, c) :: l -> search r x = Some c.
Proof. intros E. rewrite search_unfold, E. reflexivity. Qed.

(** *** The entry of the first name server *)

Lemma nameserverRe_head x m rest c l :
  rmatch nameserverRe x = (m, rest, c) :: l ->
  exists t, x = "nameserver[0] : " +:+ t +:+ rest /\ number_token t
            /\ stops cls_d_dot rest /\ c = [(1%nat, t)].
Proof.
  unfold nameserverRe, seq. cbn [rmatch].
  destruct (lit Ascii.eqb "nameserver[0] : " x) as [[k y]|] eqn:L; simpl; [|discriminate].
  apply lit_spec in L as [-> L]. apply lit_rel_eqb in L as ->.
  rewrite app_nil_r.
  destruct (plus cls_d_dot y) as [|[t rest'] l'] eqn:P; simpl; [discriminate|].
  intros [= <- <- <- _]. apply plus_head in P as (-> & A & N & S).
  exists t. repeat split; assumption.
Qed.

Lemma nameserverRe_run t rest :
  number_token t -> stops cls_d_dot rest ->
  exists l, rmatch nameserverRe ("nameserver[0] : " +:+ t +:+ rest)
            = ("nameserver[0] : " +:+ t, rest, [(1%nat, t)]) :: l.
Proof.
  intros [A N] S. unfold nameserverRe, seq. cbn [rmatch].
  assert (lit Ascii.eqb "nameserver[0] : " ("nameserver[0] : " +:+ t +:+ rest)
          = Some ("nameserver[0] : ", t +:+ rest)) as ->.
  { apply lit_spec. split; [reflexivity|]. apply lit_rel_eqb. reflexivity. }
  simpl. rewrite app_nil_r. destruct (plus_run cls_d_dot t rest A N S) as [l ->].
  simpl. eauto.
Qed.

Lemma address_after_key_occurs s : address_after_key s <-> occurs nameserverRe s.
Proof.
  split.
  - intros (pre & c & rest & -> & C).
    exists pre, ("nameserver[0] : " +:+ String c ""), rest, [(1%nat, String c "")].
    split; [sapp_norm; reflexivity|]. unfold nameserverRe. simpl.
    exists "nameserver[0] : ", (String c ""), [], [(1%nat, String c "")].
    split; [reflexivity|]. split; [reflexivity|]. split; [auto|].
    exists []. split; [reflexivity|]. simpl. rewrite C. split; [reflexivity|].
    split; [discriminate|reflexivity].
  - intros (pre & m & rest & c & -> & M). unfold nameserverRe in M. simpl in M.
    destruct M as (m1 & m2 & c1 & c2 & -> & -> & [-> ->] & (c3 & -> & A & N & ->)).
    destruct m2 as [|d m2]; [congruence|]. simpl in A. apply andb_prop in A as [A _].
    exists pre, d, (m2 +:+ rest). split; [sapp_norm; reflexivity|exact A].
Qed.

(** The key of the first name server does not overlap itself. *)
Lemma key_apart p y w :
  p <> "" ->
  p +:+ "nameserver[0] : " +:+ y = "nameserver[0] : " +:+ w ->
  exists p', p = "nameserver[0] : " +:+ p' /\ p' +:+ String "n" ("ameserver[0] : " +:+ y) = w.
Proof.
  intros N E. sapp_norm_in E. peel E p.
  exists p. split; [sapp_norm; reflexivity|]. sapp_norm. exact E.
Qed.

Lemma nameserverRe_not_before pre1 pre2 y :
  ~ address_after_key (pre1 +:+ pre2) -> pre2 <> "" ->
  rmatch nameserverRe (pre2 +:+ "nameserver[0] : " +:+ y) = [].
Proof.
  intros Hp N.
  destruct (rmatch nameserverRe (pre2 +:+ "nameserver[0] : " +:+ y))
    as [|[[m rest] c] l] eqn:E; [reflexivity|].
  exfalso. apply nameserverRe_head in E as (t & E & [A Nt] & _ & _).
  destruct t as [|d t]; [congruence|]. simpl in A. apply andb_prop in A as [A _].
  apply key_apart in E as (p & -> & E); [|exact N].
  destruct p as [|e p]; sapp_norm_in E; injection E as E1 E2.
  - subst d. discriminate A.
  - subst e. apply Hp. exists pre1, d, p. split; [sapp_norm; reflexivity|exact A].
Qed.

Lemma getDnsServer_value h :
  fst (getDnsServer h)
  = Ok (m ← search nameserverRe (stdout_of (scutil_outcome h)); group m 1).
Proof.
  rewrite getDnsServer_run. fold (scutil_outcome h).
  destruct (search nameserverRe (stdout_of (scutil_outcome h))) as [m|] eqn:E; simpl;
    [|reflexivity].
  destruct (nameserverRe_group _ _ E) as (t & -> & [_ N]).
  destruct t; [congruence|]. reflexivity.
Qed.

(** X16.  The DNS-server probe never throws and does not look at the exit
    status of the configuration tool, only at its output.  It returns a text
    t exactly when the output is some text in which the key of the first
    name server is nowhere directly followed by a digit or a dot, then that
    key, then t, a non-empty run of digits and dots, then text that does not
    go on with a digit or a dot; and it returns null exactly when the key is
    nowhere directly followed by a digit or a dot.  So the result is the
    leading digits and dots of the first such entry: an address that starts
    with a letter or a colon is passed over, and an address with colons is
    cut at the first colon. *)
Theorem getDnsServer_result h :
  exists r, fst (getDnsServer h) = Ok r
  /\ (forall t, r = Some t <->
        exists pre rest,
          stdout_of (scutil_outcome h) = pre +:+ "nameserver[0] : " +:+ t +:+ rest
          /\ ~ address_after_key pre /\ number_token t /\ stops cls_d_dot rest)
  /\ (r = None <-> ~ address_after_key (stdout_of (scutil_outcome h))).
Proof.
  rewrite getDnsServer_value. eexists. split; [reflexivity|]. split.
  - intros t. split.
    + destruct (search nameserverRe (stdout_of (scutil_outcome h))) as [m|] eqn:E;
        simpl; [|discriminate].
      intros G. apply search_first in E as (pre & x & m' & rest & l & Hs & R & F).
      apply nameserverRe_head in R as (t' & -> & T & S & ->).
      simpl in G. injection G as ->.
      exists pre, rest. split; [exact Hs|]. split; [|auto].
      intros (p1 & c & r1 & -> & C).
      assert (rmatch nameserverRe
                (("nameserver[0] : " +:+ String c r1) +:+ "nameserver[0] : " +:+ t +:+ rest)
              = []) as Z.
      { apply (F p1). - reflexivity. - discriminate. }
      apply rmatch_nil with (m := "nameserver[0] : " +:+ String c "")
                            (rest := r1 +:+ "nameserver[0] : " +:+ t +:+ rest)
                            (c := [(1%nat, String c "")]) in Z.
      * apply Z. unfold nameserverRe. simpl.
        exists "nameserver[0] : ", (String c ""), [], [(1%nat, String c "")].
        split; [reflexivity|]. split; [reflexivity|]. split; [auto|].
        exists []. split; [reflexivity|]. simpl. rewrite C. split; [reflexivity|].
        split; [discriminate|reflexivity].
      * sapp_norm. reflexivity.
    + intros (pre & rest & -> & Hp & T & S).
      rewrite search_skip.
      * destruct (nameserverRe_run t rest T S) as [l R].
        rewrite (search_head _ _ _ _ _ _ R). reflexivity.
      * intros pre1 pre2 -> N. apply (nameserverRe_not_before pre1 pre2 _ Hp N).
  - rewrite address_after_key_occurs, <- search_None.
    destruct (search nameserverRe (stdout_of (scutil_outcome h))) as [m|] eqn:E; simpl.
    + destruct (nameserverRe_group _ _ E) as (t & -> & _). split; discriminate.
    + tauto.
Qed.

(** Addresses that are not made of digits and dots. *)
Example getDnsServer_cuts_at_colon :
  fst (getDnsServer (scutil_host "  nameserver[0] : 2001:4860:4860::8888")) = Ok (Some "2001").
Proof. vm_compute. reflexivity. Qed.

Example getDnsServer_passes_over_letters :
  fst (getDnsServer (scutil_host "  nameserver[0] : fe80::1%en0")) = Ok None
  /\ fst (getDnsServer (scutil_host (lines ["  nameserver[0] : fe80::1%en0";
                                             "  nameserver[0] : 192.168.1.1"])))
     = Ok (Some "192.168.1.1").
Proof. split; vm_compute; reflexivity. Qed.


(** X18.  The ping probe never throws and echoes the host and the sample
    count.  Its figures are never negative.  The error is null exactly when
    the process succeeded.  After a failed process the average is never zero
    and never not a number: either it is a positive figure taken from the
    output, or all three figures are null and the error is not empty. *)
Theorem pingHost_outcome host count h :
  exists r, fst (pingHost host count h) = Ok r
  /\ PingResult.target r = host /\ PingResult.samples r = count
  /\ field unsigned (PingResult.avgMs r) /\ field unsigned (PingResult.jitterMs r)
  /\ field unsigned (PingResult.lossPct r)
  /\ (PingResult.error r = None <-> resolved (ping_outcome host count h) = true)
  /\ (resolved (ping_outcome host count h) = false ->
      field (fun n => exists q, n = Num q /\ (0 < q)%Q) (PingResult.avgMs r)
      /\ (PingResult.avgMs r = None ->
          PingResult.jitterMs r = None /\ PingResult.lossPct r = None
          /\ exists message, PingResult.error r = Some message /\ message <> "")).
Proof.
  rewrite pingHost_run. fold (ping_outcome host count h).
  pose proof (avgMs_unsigned (stdout_of (ping_outcome host count h))) as U1.
  destruct (parsePingStats_cases (stdout_of (ping_outcome host count h))) as [C1 C2].
  assert (field unsigned (jitterMs (parsePingStats (stdout_of (ping_outcome host count h)))))
    as U2.
  { destruct C1 as [(t2 & t4 & _ & E & _ & T4)|[_ E]]; rewrite E; intros a [= <-].
    apply parseFloat_token, T4. }
  assert (field unsigned (lossPct (parsePingStats (stdout_of (ping_outcome host count h)))))
    as U3.
  { destruct C2 as [(t & E & T)|E]; rewrite E; intros a [= <-]. apply parseFloat_token, T. }
  clear C1 C2.
  destruct (negb _ && negb _) eqn:B; simpl.
  - apply andb_prop in B as [B1 B2]. apply negb_true_iff in B2.
    eexists. split; [reflexivity|]. simpl. rewrite B2.
    repeat split; try discriminate.
    eexists. split; [reflexivity|]. apply or_str_nonempty. discriminate.
  - eexists. split; [reflexivity|]. simpl.
    split; [reflexivity|]. split; [reflexivity|].
    split; [exact U1|]. split; [exact U2|]. split; [exact U3|].
    split.
    { destruct (resolved (ping_outcome host count h)); split; congruence. }
    intros R. rewrite R in B. rewrite andb_true_r in B. apply negb_false_iff in B.
    split.
    + intros n Hn.
      change (avgMs (parsePingStats (stdout_of (ping_outcome host count h))) = Some n) in Hn.
      rewrite Hn in B. simpl in B. specialize (U1 n Hn).
      destruct n as [|q]; [discriminate|]. exists q. split; [reflexivity|].
      simpl in B, U1. apply negb_true_iff in B.
      apply Qle_lteq in U1 as [L|E]; [exact L|].
      exfalso. symmetry in E. apply Qeq_bool_iff in E. congruence.
    + intros N.
      change (avgMs (parsePingStats (stdout_of (ping_outcome host count h))) = None) in N.
      rewrite N in B. discriminate.
Qed.

Lemma round_mega_nearest q :
  exists z, round_mega (Num q) = of_Z z /\ nearest (q / 1000000) z.
Proof.
  exists (Qfloor (q / 1000000 + (1 # 2))). split; [reflexivity|].
  pose proof (Qfloor_le (q / 1000000 + (1 # 2))) as L.
  pose proof (Qlt_floor (q / 1000000 + (1 # 2))) as U.
  rewrite inject_Z_plus in U. unfold nearest.
  set (x := (q / 1000000)%Q) in *. set (z := inject_Z (Qfloor (x + (1 # 2)))) in *.
  change (inject_Z 1) with 1%Q in U. split; lra.
Qed.

Lemma throughput_null v :
  when_num v (fun x => Some (round_mega x)) = None <-> ~ measured v.
Proof.
  unfold measured. destruct v as [[|q]|]; simpl.
  - split; [|reflexivity]. intros _ (q & [=] & _).
  - destruct (Qeq_bool q 0) eqn:E; simpl.
    + apply Qeq_bool_iff in E. split; [|reflexivity]. intros _ (q' & [= <-] & N). contradiction.
    + split; [discriminate|]. intros N. exfalso. apply N. exists q. split; [reflexivity|].
      intros Z. apply Qeq_bool_iff in Z. congruence.
  - split; [|reflexivity]. intros _ (q & [=] & _).
Qed.

Lemma throughput_nearest q :
  ~ (q == 0)%Q ->
  exists z, when_num (Some (Num q)) (fun x => Some (round_mega x)) = Some (of_Z z)
            /\ nearest (q / 1000000) z.
Proof.
  intros Hq. destruct (round_mega_nearest q) as (z & Ez & Hz). exists z.
  split; [|exact Hz]. simpl. destruct (Qeq_bool q 0) eqn:E.
  - apply Qeq_bool_iff in E. contradiction.
  - simpl. rewrite <- Ez. reflexivity.
Qed.

(** X19.  What the throughput probe returns when it returns.  The error is
    null exactly when the process succeeded and its output decoded to a
    value; an outcome with an error has a non-empty error and every other
    field null.  When the output decodes to a value whose throughput fields
    are numbers or absent, a throughput of the outcome is null exactly when
    the field is absent, zero or not a number; for a measurement other than
    zero of at most 2^53 bits per second it is the integer nearest to the
    measurement divided by a million, so a measurement below half a megabit
    per second comes out as 0, while a measurement of 0 comes out as null. *)
Theorem runSpeedTest_outcome h r :
  fst (runSpeedTest h) = Ok r ->
  (SpeedTestResult.error r = None
   <-> resolved (speedtest_outcome h) = true
       /\ exists parsed, JSON_parse h (stdout_of (speedtest_outcome h)) = JsonValue parsed)
  /\ (forall message, SpeedTestResult.error r = Some message ->
        message <> "" /\ r = speedtest_failure message)
  /\ (forall parsed,
        resolved (speedtest_outcome h) = true ->
        JSON_parse h (stdout_of (speedtest_outcome h)) = JsonValue parsed ->
        (SpeedTestResult.downloadMbps r = None <-> ~ measured (dl_throughput parsed))
        /\ (SpeedTestResult.uploadMbps r = None <-> ~ measured (ul_throughput parsed))
        /\ (forall q, dl_throughput parsed = Some (Num q) -> ~ (q == 0)%Q ->
              (Qabs q <= 9007199254740992)%Q ->
              exists z, SpeedTestResult.downloadMbps r = Some (of_Z z)
                        /\ nearest (q / 1000000) z)
        /\ (forall q, ul_throughput parsed = Some (Num q) -> ~ (q == 0)%Q ->
              (Qabs q <= 9007199254740992)%Q ->
              exists z, SpeedTestResult.uploadMbps r = Some (of_Z z)
                        /\ nearest (q / 1000000) z)).
Proof.
  rewrite runSpeedTest_run. fold (speedtest_outcome h).
  destruct (resolved (speedtest_outcome h)) eqn:R.
  - destruct (JSON_parse h (stdout_of (speedtest_outcome h))) as [e| |parsed] eqn:J;
      simpl; intros [= <-]; simpl.
    + split; [split; [discriminate|intros [_ [p [=]]]]|].
      split; [intros m [= <-]; split; [discriminate|reflexivity]|].
      intros p _ [=].
    + split; [split; [eauto|reflexivity]|].
      split; [discriminate|].
      intros p _ [= <-].
      split; [apply throughput_null|]. split; [apply throughput_null|].
      split; intros q -> Hq _; apply (throughput_nearest q Hq).
  - simpl. intros [= <-]. simpl.
    split; [split; [discriminate|intros [[=] _]]|].
    split; [intros m [= <-]; split; [apply or_str_nonempty; discriminate|reflexivity]|].
    intros p [=].
Qed.

Lemma runSpeedTest_outcome_witness :
  fst (runSpeedTest uneven_speed_host) = Ok uneven_speed_result
  /\ exists z, SpeedTestResult.downloadMbps uneven_speed_result = Some (of_Z z)
               /\ nearest (inject_Z 94500000 / 1000000) z.
Proof.
  split; [vm_compute; reflexivity|].
  destruct (runSpeedTest_outcome uneven_speed_host uneven_speed_result)
    as (_ & _ & H); [vm_compute; reflexivity|].
  destruct (H uneven_speed_raw) as (_ & _ & D & _); [reflexivity|reflexivity|].
  apply (D (inject_Z 94500000)).
  - reflexivity.
  - intros E. discriminate E.
  - apply Qle_bool_iff. reflexivity.
Defined.
